(** * Irrigation controller: run-state store, zone controller, program executor

    A shallow embedding of [program_state.py], [zone_manager.py] and the
    scheduling half of [program_manager.py].

    Module-level Python globals become fields of one explicit [State]; every
    function is a state transformer.  Three points of the Python semantics
    shape the model:

    - [from program_state import program_running] binds a NEW name in the
      importing module to the value the name has at import time.  A later
      rebinding inside [program_state] (by [load_program_state]) is not seen
      through that name.  Hence [zone_manager] and [program_manager] each hold
      their own [program_running]; only [program_state.load_program_state] and
      [program_state.save_program_state] read and write the globals of
      [program_state].
    - output pins are active low: writing 0 energizes, writing 1 releases;
      a pin write may raise, which is decided by a fault oracle indexed by
      the number of the write.
    - [await asyncio.sleep] hands control to the other tasks; what they do
      is an arbitrary transformer [env] of the state. *)

From stdpp Require Import gmap strings list fin_maps.
From Stdlib Require Import ZArith Lia Ascii.

Local Open Scope Z_scope.

(** ** Data *)

(** A JSON scalar as [ujson.load] returns it; [JNull] also stands for a key
    that is absent, since [dict.get] returns [None] for both. *)
Inductive json :=
| JNull
| JBool (b : bool)
| JNum (n : Z)
| JStr (s : string).

(** Python truthiness of a JSON scalar. *)
Definition truthy (v : json) : bool :=
  match v with
  | JNull => false
  | JBool b => b
  | JNum n => negb (n =? 0)
  | JStr s => negb (String.eqb s "")
  end.

(** [/data/program_state.json]: absent ([open] raises OSError), unreadable as
    a JSON object ([ujson.load] or the [isinstance] check raises ValueError),
    or an object with the two fields.  The id field is a string or null. *)
Inductive state_file :=
| FileMissing
| FileCorrupt
| FileDict (running : json) (id : option string).

(** Globals of [program_state.py]. *)
Record PSGlobals := {
  ps_program_running : bool;
  ps_current_program_id : option string;
  ps_last_saved_state : option (bool * option string)
}.

(** An entry of [active_zones]. *)
Record zone_data := {
  start_time : Z;
  duration : Z;
  task : nat
}.

(** Globals of [zone_manager.py]; [zm_program_running] is the name bound by
    the from-import. *)
Record ZMGlobals := {
  zm_program_running : bool;
  active_zones : gmap Z zone_data;
  zone_pins : gmap Z Z;
  safety_relay : option Z
}.

(** Output pins: level per pin number, the fault oracle and the number of
    writes issued so far. *)
Record Hardware := {
  levels : gmap Z Z;
  faults : nat -> bool;
  writes : nat
}.

(** The tasks of the event loop that matter here: zone timers. *)
Record Asyncio := {
  next_task : nat;
  cancelled : gset nat;
  current_task : nat
}.

Record Settings := {
  max_zone_duration : Z;
  max_active_zones : Z;
  activation_delay : Z
}.

Record step := {
  zone_id : option Z;
  step_duration : Z
}.

(** A program dictionary; an [option] field is a key that may be absent. *)
Record Program := {
  prog_id : string;
  prog_name : option string;
  steps : list step;
  months : list string;
  activation_time : string;
  recurrence : option string;
  interval_days : option Z;
  last_run_date : option string
}.

(** Globals of [program_manager.py] (its own from-import bindings, declared
    [global] in its functions). *)
Record PMGlobals := {
  pm_program_running : bool;
  pm_current_program_id : option string
}.

(** Where [execute_program] tests [program_running] after a reload: at the
    head of a step, or after a sleep of a wait. *)
Inductive poll_site := AtStep | InWait.

(** Ghost events, recorded where the code acts; a save records the zones
    whose outputs are energized at that moment. *)
Inductive event :=
| EvPin (pin : Z) (value : Z) (ok : bool)
| EvSave (running : bool) (id : option string) (energized : list Z)
| EvPoll (site : poll_site) (running : bool)
| EvLastRun (pid : string) (date : string).

Record State := {
  ps : PSGlobals;
  disk : state_file;
  zm : ZMGlobals;
  hw : Hardware;
  tasks : Asyncio;
  settings : Settings;
  pm : PMGlobals;
  programs : list (string * Program);
  clock : Z;
  today : Z * Z * Z;
  log : list event;
  awaits : nat
}.

(** Field updates. *)
Definition with_ps (x : PSGlobals) (s : State) : State :=
  {| ps := x; disk := disk s; zm := zm s; hw := hw s; tasks := tasks s;
     settings := settings s; pm := pm s; programs := programs s;
     clock := clock s; today := today s; log := log s; awaits := awaits s |}.

Definition with_disk (x : state_file) (s : State) : State :=
  {| ps := ps s; disk := x; zm := zm s; hw := hw s; tasks := tasks s;
     settings := settings s; pm := pm s; programs := programs s;
     clock := clock s; today := today s; log := log s; awaits := awaits s |}.

Definition with_zm (x : ZMGlobals) (s : State) : State :=
  {| ps := ps s; disk := disk s; zm := x; hw := hw s; tasks := tasks s;
     settings := settings s; pm := pm s; programs := programs s;
     clock := clock s; today := today s; log := log s; awaits := awaits s |}.

Definition with_hw (x : Hardware) (s : State) : State :=
  {| ps := ps s; disk := disk s; zm := zm s; hw := x; tasks := tasks s;
     settings := settings s; pm := pm s; programs := programs s;
     clock := clock s; today := today s; log := log s; awaits := awaits s |}.

Definition with_tasks (x : Asyncio) (s : State) : State :=
  {| ps := ps s; disk := disk s; zm := zm s; hw := hw s; tasks := x;
     settings := settings s; pm := pm s; programs := programs s;
     clock := clock s; today := today s; log := log s; awaits := awaits s |}.

Definition with_pm (x : PMGlobals) (s : State) : State :=
  {| ps := ps s; disk := disk s; zm := zm s; hw := hw s; tasks := tasks s;
     settings := settings s; pm := x; programs := programs s;
     clock := clock s; today := today s; log := log s; awaits := awaits s |}.

Definition with_programs (x : list (string * Program)) (s : State) : State :=
  {| ps := ps s; disk := disk s; zm := zm s; hw := hw s; tasks := tasks s;
     settings := settings s; pm := pm s; programs := x;
     clock := clock s; today := today s; log := log s; awaits := awaits s |}.

Definition with_log (x : list event) (s : State) : State :=
  {| ps := ps s; disk := disk s; zm := zm s; hw := hw s; tasks := tasks s;
     settings := settings s; pm := pm s; programs := programs s;
     clock := clock s; today := today s; log := x; awaits := awaits s |}.

Definition with_awaits (x : nat) (s : State) : State :=
  {| ps := ps s; disk := disk s; zm := zm s; hw := hw s; tasks := tasks s;
     settings := settings s; pm := pm s; programs := programs s;
     clock := clock s; today := today s; log := log s; awaits := x |}.

Definition emit (e : event) (s : State) : State :=
  with_log (log s ++ [e]) s.

(** The zones whose output is energized (level 0), by zone id. *)
Definition energized_zones (s : State) : list Z :=
  omap (fun zp : Z * Z =>
          if decide (levels (hw s) !! zp.2 = Some 0) then Some zp.1 else None)
       (map_to_list (zone_pins (zm s))).

(** ** program_state.py *)

Module program_state.

Definition set_running (b : bool) (s : State) : State :=
  with_ps {| ps_program_running := b;
             ps_current_program_id := ps_current_program_id (ps s);
             ps_last_saved_state := ps_last_saved_state (ps s) |} s.

Definition set_id (i : option string) (s : State) : State :=
  with_ps {| ps_program_running := ps_program_running (ps s);
             ps_current_program_id := i;
             ps_last_saved_state := ps_last_saved_state (ps s) |} s.

Definition set_last_saved (x : option (bool * option string)) (s : State) : State :=
  with_ps {| ps_program_running := ps_program_running (ps s);
             ps_current_program_id := ps_current_program_id (ps s);
             ps_last_saved_state := x |} s.

(** [state.get('program_running') != saved] for a saved boolean; in Python
    [1 == True] and [0 == False]. *)
Definition json_is_bool (v : json) (b : bool) : bool :=
  match v with
  | JBool b' => Bool.eqb b' b
  | JNum n => n =? (if b then 1 else 0)
  | _ => false
  end.

Definition id_eqb (a b : option string) : bool :=
  bool_decide (a = b).

(** Writing the file: the disk is taken to be reliable, so that the file
    holds what was dumped. *)
Definition write_file (r : bool) (i : option string) (s : State) : State :=
  emit (EvSave r i (energized_zones s)) (with_disk (FileDict (JBool r) i) s).

Definition verify_save (s : State) : State :=
  match ps_last_saved_state (ps s) with
  | None => s
  | Some (r, i) =>
      match disk s with
      | FileDict r' i' =>
          if negb (json_is_bool r' r) || negb (id_eqb i' i)
          then write_file r i s
          else s
      | FileMissing | FileCorrupt => write_file r i s
      end
  end.

Definition save_program_state (s : State) : State :=
  let r := ps_program_running (ps s) in
  let i := ps_current_program_id (ps s) in
  let s := set_last_saved (Some (r, i)) s in
  let s := write_file r i s in
  verify_save s.

Definition load_program_state (s : State) : State :=
  match disk s with
  | FileDict loaded_running loaded_id =>
      let s :=
        match loaded_running with
        | JNull => s
        | _ =>
            if negb (truthy loaded_running) && ps_program_running (ps s)
            then save_program_state s
            else set_running (truthy loaded_running) s
        end in
      match loaded_id with
      | Some i => set_id (Some i) s
      | None =>
          if negb (truthy loaded_running) then set_id None s
          else s
      end
  | FileCorrupt | FileMissing =>
      let s := if ps_program_running (ps s) then s
               else set_id None (set_running false s) in
      save_program_state s
  end.

End program_state.

(** ** Output pins and tasks *)

(** [pin.value(v)]: the write raises when the oracle says so, and then
    leaves the level as it was. *)
Definition pin_write (p v : Z) (s : State) : bool * State :=
  let h := hw s in
  let ok := negb (faults h (writes h)) in
  let h' := {| levels := if ok then <[p:=v]> (levels h) else levels h;
               faults := faults h;
               writes := S (writes h) |} in
  (ok, emit (EvPin p v ok) (with_hw h' s)).

(** [if not t.cancelled(): t.cancel()] *)
Definition cancel_task (t : nat) (s : State) : State :=
  with_tasks {| next_task := next_task (tasks s);
                cancelled := {[t]} ∪ cancelled (tasks s);
                current_task := current_task (tasks s) |} s.

(** [asyncio.create_task(...)] *)
Definition create_task (s : State) : nat * State :=
  let t := next_task (tasks s) in
  (t, with_tasks {| next_task := S t;
                    cancelled := cancelled (tasks s);
                    current_task := current_task (tasks s) |} s).

(** ** zone_manager.py *)

Module zone_manager.

Definition set_active_zones (m : gmap Z zone_data) (s : State) : State :=
  with_zm {| zm_program_running := zm_program_running (zm s);
             active_zones := m;
             zone_pins := zone_pins (zm s);
             safety_relay := safety_relay (zm s) |} s.

(** [not active_zones] *)
Definition no_active_zones (s : State) : bool :=
  bool_decide (size (active_zones (zm s)) = 0%nat).

(** [zone_id in active_zones] *)
Definition is_active (zone_id : Z) (s : State) : bool :=
  bool_decide (is_Some (active_zones (zm s) !! zone_id)).

(** [list(active_zones.keys())] *)
Definition active_ids (s : State) : list Z :=
  (map_to_list (active_zones (zm s))).*1.

Definition get_active_zones_count (s : State) : Z :=
  Z.of_nat (size (active_zones (zm s))).

Definition start_zone (zone_id duration : Z) (s : State) : bool * State :=
  let s := program_state.load_program_state s in
  if zm_program_running (zm s) then (false, s) else
  match zone_pins (zm s) !! zone_id with
  | None => (false, s)
  | Some pin =>
      if (duration <=? 0) || (max_zone_duration (settings s) <? duration)
      then (false, s) else
      if (max_active_zones (settings s) <=? get_active_zones_count s)
         && negb (is_active zone_id s)
      then (false, s) else
      let old_task := task <$> active_zones (zm s) !! zone_id in
      let '(relay_ok, s) :=
        match safety_relay (zm s) with
        | Some relay => if no_active_zones s then pin_write relay 0 s
                        else (true, s)
        | None => (true, s)
        end in
      if negb relay_ok then (false, s) else
      let '(zone_ok, s) := pin_write pin 0 s in
      if negb zone_ok then
        let s := match safety_relay (zm s) with
                 | Some relay => if no_active_zones s
                                 then (pin_write relay 1 s).2 else s
                 | None => s
                 end in
        (false, s)
      else
      let s := match old_task with
               | Some t => cancel_task t s
               | None => s
               end in
      let '(t, s) := create_task s in
      let s := set_active_zones
                 (<[zone_id := {| start_time := clock s;
                                  duration := duration;
                                  task := t |}]> (active_zones (zm s))) s in
      (true, s)
  end.

Definition _safe_stop_zone (zone_id : Z) (s : State) : State :=
  match zone_pins (zm s) !! zone_id with
  | None => s
  | Some pin =>
      if negb (is_active zone_id s) then s else
      let '(ok, s) := pin_write pin 1 s in
      if negb ok then s else
      let was_last_active :=
        bool_decide (size (active_zones (zm s)) = 1%nat) in
      let s := set_active_zones (delete zone_id (active_zones (zm s))) s in
      match safety_relay (zm s) with
      | Some relay => if was_last_active then (pin_write relay 1 s).2 else s
      | None => s
      end
  end.

(** The body of [_zone_timer] once its sleep is over. *)
Definition _zone_timer (zone_id : Z) (s : State) : State :=
  if is_active zone_id s then _safe_stop_zone zone_id s else s.

Definition stop_zone (zone_id : Z) (s : State) : bool * State :=
  match zone_pins (zm s) !! zone_id with
  | None => (false, s)
  | Some pin =>
      let zone_data := active_zones (zm s) !! zone_id in
      let was_last_active :=
        match zone_data with
        | Some _ => bool_decide (size (active_zones (zm s)) = 1%nat)
        | None => false
        end in
      let '(ok, s) := pin_write pin 1 s in
      if negb ok then (false, s) else
      let s :=
        match (active_zones (zm s) !! zone_id), zone_data with
        | Some _, Some zd =>
            let s := if negb (Nat.eqb (task zd) (current_task (tasks s)))
                     then cancel_task (task zd) s else s in
            set_active_zones (delete zone_id (active_zones (zm s))) s
        | _, _ => s
        end in
      match safety_relay (zm s) with
      | Some relay =>
          if was_last_active && no_active_zones s
          then let '(ok, s) := pin_write relay 1 s in (ok, s)
          else (true, s)
      | None => (true, s)
      end
  end.

(** First phase of [stop_all_zones]: [stop_zone] on each id of the
    snapshot. *)
Fixpoint stop_each (zone_ids : list Z) (success : bool) (s : State)
  : bool * State :=
  match zone_ids with
  | [] => (success, s)
  | zone_id :: rest =>
      let '(ok, s) := stop_zone zone_id s in
      stop_each rest (if ok then success else false) s
  end.

(** One round of the second phase: write the pin off directly, cancel the
    timer, drop the entry; a raising pin write skips the rest of the
    round. *)
Definition force_stop (zone_id : Z) (success : bool) (s : State)
  : bool * State :=
  let '(ok, s) :=
    match zone_pins (zm s) !! zone_id with
    | Some pin => pin_write pin 1 s
    | None => (true, s)
    end in
  if negb ok then (false, s) else
  match active_zones (zm s) !! zone_id with
  | Some zd =>
      let s := cancel_task (task zd) s in
      (success, set_active_zones (delete zone_id (active_zones (zm s))) s)
  | None => (success, s)
  end.

Fixpoint force_each (remaining_ids : list Z) (success : bool) (s : State)
  : bool * State :=
  match remaining_ids with
  | [] => (success, s)
  | zone_id :: rest =>
      let '(success, s) := force_stop zone_id success s in
      force_each rest success s
  end.

Definition stop_all_zones (s : State) : bool * State :=
  if no_active_zones s then (true, s) else
  let zone_ids := active_ids s in
  let '(success, s) := stop_each zone_ids true s in
  let '(success, s) :=
    if negb (no_active_zones s)
    then force_each (active_ids s) success s
    else (success, s) in
  let '(success, s) :=
    match safety_relay (zm s) with
    | Some relay =>
        let '(ok, s) := pin_write relay 1 s in
        (if ok then success else false, s)
    | None => (success, s)
    end in
  (success, set_active_zones ∅ s).

End zone_manager.

(** ** Strings and dates *)

(** [s.split('-')] *)
Fixpoint split_dash_aux (s : string) (cur : string) : list string :=
  match s with
  | EmptyString => [String.rev cur]
  | String c rest =>
      if Ascii.eqb c "-"%char
      then String.rev cur :: split_dash_aux rest EmptyString
      else split_dash_aux rest (String c cur)
  end.

Definition split_dash (s : string) : list string :=
  split_dash_aux s EmptyString.

Definition digit_of (c : ascii) : option Z :=
  let n := Z.of_N (Ascii.N_of_ascii c) in
  if (48 <=? n) && (n <=? 57) then Some (n - 48) else None.

Fixpoint decimal_aux (s : string) (acc : Z) : option Z :=
  match s with
  | EmptyString => Some acc
  | String c rest =>
      match digit_of c with
      | Some d => decimal_aux rest (10 * acc + d)
      | None => None
      end
  end.

(** [int(s)] on a string of decimal digits; anything else is refused. *)
Definition decimal (s : string) : option Z :=
  match s with
  | EmptyString => None
  | _ => decimal_aux s 0
  end.

Definition digit_char (d : Z) : ascii :=
  Ascii.ascii_of_N (Z.to_N (48 + d)).

Fixpoint fmt_digits (fuel : nat) (n : Z) (acc : string) : string :=
  match fuel with
  | O => acc
  | S fuel =>
      let acc := String (digit_char (n mod 10)) acc in
      if n / 10 =? 0 then acc else fmt_digits fuel (n / 10) acc
  end.

(** [f"{n}"] for a natural number [n]. *)
Definition fmt_d (n : Z) : string :=
  fmt_digits (S (Z.to_nat n)) n EmptyString.

(** [f"{n:02d}"] for a natural number [n]. *)
Definition fmt_02d (n : Z) : string :=
  let s := fmt_d n in
  if (String.length s <? 2)%nat then String "0" s else s.

(** ** program_manager.py *)

Module program_manager.

Definition set_state (r : bool) (i : option string) (s : State) : State :=
  with_pm {| pm_program_running := r; pm_current_program_id := i |} s.

(** *** Conflicts *)

(** [program_months.intersection(existing_months)], as a truth value *)
Definition months_intersect (a b : list string) : bool :=
  existsb (fun m => bool_decide (m ∈ b)) a.

(** [exclude_id and str(pid) == exclude_id] *)
Definition is_excluded (exclude_id : option string) (pid : string) : bool :=
  match exclude_id with
  | Some e => negb (String.eqb e "") && String.eqb pid e
  | None => false
  end.

Definition conflict_message (pid : string) (existing : Program) : string :=
  "Conflitto con '" +:+ default ("Programma " +:+ pid) (prog_name existing)
  +:+ "' nei mesi e orario selezionati".

Fixpoint conflict_scan (program_months : list string) (program_time : string)
    (exclude_id : option string) (programs : list (string * Program))
  : bool * string :=
  match programs with
  | [] => (false, "")
  | (pid, existing) :: rest =>
      if is_excluded exclude_id pid
      then conflict_scan program_months program_time exclude_id rest
      else if months_intersect program_months (months existing)
              && String.eqb program_time (activation_time existing)
      then (true, conflict_message pid existing)
      else conflict_scan program_months program_time exclude_id rest
  end.

Definition check_program_conflicts (program : Program)
    (programs : list (string * Program)) (exclude_id : option string)
  : bool * string :=
  match months program with
  | [] => (false, "")
  | _ =>
      if String.eqb (activation_time program) "" then (false, "")
      else conflict_scan (months program) (activation_time program)
                         exclude_id programs
  end.

(** *** Due dates *)

Definition _is_leap_year (year : Z) : bool :=
  (year mod 4 =? 0) && (negb (year mod 100 =? 0) || (year mod 400 =? 0)).

Definition days_in_month (year : Z) : list Z :=
  let tbl := [0; 31; 28; 31; 30; 31; 30; 31; 31; 30; 31; 30; 31] in
  if _is_leap_year year then <[2%nat := 29]> tbl else tbl.

(** [for i in range(i, i + n): acc += tbl[i]]; [None] is the IndexError. *)
Fixpoint add_months (tbl : list Z) (i n : nat) (acc : Z) : option Z :=
  match n with
  | O => Some acc
  | S n =>
      match tbl !! i with
      | Some d => add_months tbl (S i) n (acc + d)
      | None => None
      end
  end.

Definition _day_of_year (year month day : Z) : option Z :=
  add_months (days_in_month year) 1 (Z.to_nat (month - 1)) day.

Section DueToday.

(** The builtin [int] on a string; [None] is its ValueError. *)
Variable py_int : string -> option Z.

(** The [try] block that reads [last_run_date]: the pair
    (last_run_day, last_run_year), (-1, -1) unless the block runs to
    its end. *)
Definition read_last_run (program : Program) : Z * Z :=
  match last_run_date program with
  | None => (-1, -1)
  | Some last_run_date =>
      match split_dash last_run_date with
      | [y; m; d] =>
          match py_int y, py_int m, py_int d with
          | Some year, Some month, Some day =>
              match _day_of_year year month day with
              | Some doy => (doy, year)
              | None => (-1, -1)
              end
          | _, _, _ => (-1, -1)
          end
      | _ => (-1, -1)
      end
  end.

(** [None]: the day of year of the current date raised. *)
Definition is_program_due_today (today : Z * Z * Z) (program : Program)
  : option bool :=
  let '(current_year, current_month, current_day) := today in
  match _day_of_year current_year current_month current_day with
  | None => None
  | Some current_day_of_year =>
      let '(last_run_day, last_run_year) := read_last_run program in
      if last_run_day =? -1 then Some true else
      let recurrence := default "giornaliero" (recurrence program) in
      let days_since_last_run :=
        if last_run_year =? current_year
        then current_day_of_year - last_run_day
        else (if _is_leap_year last_run_year then 366 else 365)
             - last_run_day + current_day_of_year in
      if String.eqb recurrence "giornaliero"
      then Some (1 <=? days_since_last_run)
      else if String.eqb recurrence "giorni_alterni"
      then Some (2 <=? days_since_last_run)
      else if String.eqb recurrence "personalizzata"
      then
        let interval_days := default 1 (interval_days program) in
        let interval_days :=
          if interval_days <=? 0 then 1 else interval_days in
        Some (interval_days <=? days_since_last_run)
      else Some false
  end.

End DueToday.

(** *** Last run date *)

Definition _get_formatted_date (s : State) : string :=
  let '(y, m, d) := today s in
  fmt_d y +:+ "-" +:+ fmt_02d m +:+ "-" +:+ fmt_02d d.

Definition set_last_run (date : string) (p : Program) : Program :=
  {| prog_id := prog_id p; prog_name := prog_name p; steps := steps p;
     months := months p; activation_time := activation_time p;
     recurrence := recurrence p; interval_days := interval_days p;
     last_run_date := Some date |}.

(** [program_id in programs] *)
Definition has_program (program_id : string) (s : State) : bool :=
  existsb (fun e : string * Program => String.eqb e.1 program_id)
          (programs s).

Definition update_last_run_date (program_id : string) (s : State) : State :=
  let current_date := _get_formatted_date s in
  if has_program program_id s then
    let programs :=
      map (fun e : string * Program =>
             if String.eqb e.1 program_id
             then (e.1, set_last_run current_date e.2) else e)
          (programs s) in
    emit (EvLastRun program_id current_date) (with_programs programs s)
  else s.

(** *** Execution *)

Section Executor.

(** What the other tasks do while this one is suspended at its [n]-th
    await. *)
Variable env : nat -> State -> State.

(** [await asyncio.sleep(_)]; the ghost fields are not the other tasks'
    to change. *)
Definition sleep (s : State) : State :=
  with_awaits (S (awaits s)) (with_log (log s) (env (awaits s) s)).

(** [load_program_state()] followed by a test of [program_running]. *)
Definition poll (site : poll_site) (s : State) : bool * State :=
  let s := program_state.load_program_state s in
  let running := pm_program_running (pm s) in
  (running, emit (EvPoll site running) s).

(** The interruptible wait, written twice in the source (step duration
    and delay between zones) with [check_interval = 10].  [None]: out of
    fuel. *)
Fixpoint wait_loop (fuel : nat) (remaining : Z) (s : State)
  : option State :=
  if (0 <? remaining) && pm_program_running (pm s) then
    match fuel with
    | O => None
    | S fuel =>
        let wait_time := Z.min 10 remaining in
        let s := sleep s in
        let remaining := remaining - wait_time in
        let '(running, s) := poll InWait s in
        if negb running then Some s
        else wait_loop fuel remaining s
    end
  else Some s.

Definition wait (seconds : Z) (s : State) : option State :=
  wait_loop (Z.to_nat seconds) seconds s.

(** The [for i, step in enumerate(steps)] loop; leaving the function
    with [Some] covers both [break] and the end of the list. *)
Fixpoint run_steps (activation_delay : Z) (steps : list step) (s : State)
  : option State :=
  match steps with
  | [] => Some s
  | step :: rest =>
      let '(running, s) := poll AtStep s in
      if negb running then Some s else
      match zone_id step with
      | None => run_steps activation_delay rest s
      | Some zone_id =>
          let duration := step_duration step in
          let '(result, s) := zone_manager.start_zone zone_id duration s in
          if negb result then run_steps activation_delay rest s else
          match wait (duration * 60) s with
          | None => None
          | Some s =>
              if negb (pm_program_running (pm s)) then Some s else
              let s := (zone_manager.stop_zone zone_id s).2 in
              if (0 <? activation_delay)
                 && negb (bool_decide (rest = []))
              then
                match wait activation_delay s with
                | None => None
                | Some s => run_steps activation_delay rest s
                end
              else run_steps activation_delay rest s
          end
      end
  end.

(** The [for retry in range(3)] loop after the claim. *)
Fixpoint claim_retry (n : nat) (program_id : string) (s : State) : State :=
  match n with
  | O => s
  | S n =>
      let s := program_state.load_program_state s in
      if pm_program_running (pm s)
         && program_state.id_eqb (pm_current_program_id (pm s))
                                 (Some program_id)
      then s
      else
        let s := set_state true (Some program_id) s in
        let s := program_state.save_program_state s in
        let s := sleep s in
        claim_retry n program_id s
  end.

(** The [finally] block. *)
Definition cleanup (s : State) : State :=
  let s := set_state false None s in
  let s := program_state.save_program_state s in
  (zone_manager.stop_all_zones s).2.

Definition execute_program (program : Program) (manual : bool) (s : State)
  : option (bool * State) :=
  let s := program_state.load_program_state s in
  if pm_program_running (pm s) then Some (false, s) else
  let s := if 0 <? zone_manager.get_active_zones_count s
           then sleep (zone_manager.stop_all_zones s).2
           else s in
  let '(stopped, s) := zone_manager.stop_all_zones s in
  if negb stopped then Some (false, s) else
  let program_id := prog_id program in
  let s := set_state true (Some program_id) s in
  let s := program_state.save_program_state s in
  let s := claim_retry 3 program_id s in
  let activation_delay := activation_delay (settings s) in
  match run_steps activation_delay (steps program) s with
  | None => None
  | Some s =>
      let '(successful_execution, s) :=
        if pm_program_running (pm s)
        then (true, update_last_run_date program_id s)
        else (false, s) in
      Some (successful_execution, cleanup s)
  end.

End Executor.

(** The [for retry in range(3)] loop of [stop_program]; [time.sleep]
    blocks, no other task runs. *)
Fixpoint release_retry (n : nat) (s : State) : State :=
  match n with
  | O => s
  | S n =>
      let original_running := pm_program_running (pm s) in
      let original_id := pm_current_program_id (pm s) in
      let s := program_state.load_program_state s in
      if Bool.eqb (pm_program_running (pm s)) original_running
         && program_state.id_eqb (pm_current_program_id (pm s)) original_id
      then s
      else
        let s := set_state original_running original_id s in
        let s := program_state.save_program_state s in
        release_retry n s
  end.

Definition stop_program (s : State) : bool * State :=
  let original_running := pm_program_running (pm s) in
  let original_id := pm_current_program_id (pm s) in
  let s := program_state.load_program_state s in
  let s := if negb (pm_program_running (pm s)) && original_running
           then set_state true original_id s else s in
  if negb (pm_program_running (pm s)) then (false, s) else
  let s := (zone_manager.stop_all_zones s).2 in
  let s := set_state false None s in
  let s := program_state.save_program_state s in
  (true, release_retry 3 s).

Definition reset_program_state (s : State) : State :=
  let s := (zone_manager.stop_all_zones s).2 in
  let s := set_state false None s in
  program_state.save_program_state s.

End program_manager.

(** ** Example configurations *)

(** Two zones (zone 0 on pin 5, zone 1 on pin 6) behind a safety relay on
    pin 4, every output released, nothing running, the state file saying
    so; at most 3 zones for at most 180 minutes. *)
Definition one_step : Program :=
  {| prog_id := "1"; prog_name := Some "Orto";
     steps := [ {| zone_id := Some 0; step_duration := 1 |} ];
     months := ["Giugno"]; activation_time := "06:00";
     recurrence := Some "giornaliero"; interval_days := None;
     last_run_date := None |}.

Definition bench : State :=
  {| ps := {| ps_program_running := false; ps_current_program_id := None;
              ps_last_saved_state := None |};
     disk := FileDict (JBool false) None;
     zm := {| zm_program_running := false; active_zones := ∅;
              zone_pins := {[ 0 := 5; 1 := 6 ]}; safety_relay := Some 4 |};
     hw := {| levels := {[ 4 := 1; 5 := 1; 6 := 1 ]};
              faults := fun _ => false; writes := 0 |};
     tasks := {| next_task := 1; cancelled := ∅; current_task := 0 |};
     settings := {| max_zone_duration := 180; max_active_zones := 3;
                    activation_delay := 0 |};
     pm := {| pm_program_running := false; pm_current_program_id := None |};
     programs := [("1", one_step)];
     clock := 1000;
     today := (2024, 6, 15);
     log := [];
     awaits := 0 |}.

Definition with_faults (f : nat -> bool) (s : State) : State :=
  with_hw {| levels := levels (hw s); faults := f; writes := writes (hw s) |} s.

Definition with_run_state (r : bool) (i : option string) (s : State) : State :=
  with_ps {| ps_program_running := r; ps_current_program_id := i;
             ps_last_saved_state := ps_last_saved_state (ps s) |} s.

(** The run state, in memory and on disk, says that program "1" runs. *)
Definition owned_by_program : State :=
  with_run_state true (Some "1") (with_disk (FileDict (JBool true) (Some "1")) bench).

(** The other tasks do nothing. *)
Definition quiet : nat -> State -> State := fun _ s => s.

(** The safety relay is released (or there is none). *)
Definition relay_de_energized (s : State) : Prop :=
  match safety_relay (zm s) with
  | Some relay => levels (hw s) !! relay = Some 1
  | None => True
  end.

(** The events a run has added to the log. *)
Definition new_events (before after : State) : list event :=
  drop (length (log before)) (log after).

(** ** Operations on zones, as the other modules and the timers issue them *)

Inductive zone_op :=
| OpStart (zone_id duration : Z)
| OpStop (zone_id : Z)
| OpStopAll
| OpTimer (zone_id : Z).

Definition run_op (o : zone_op) (s : State) : State :=
  match o with
  | OpStart zone_id duration => (zone_manager.start_zone zone_id duration s).2
  | OpStop zone_id => (zone_manager.stop_zone zone_id s).2
  | OpStopAll => (zone_manager.stop_all_zones s).2
  | OpTimer zone_id => zone_manager._zone_timer zone_id s
  end.

(** The states after each operation of a sequence. *)
Fixpoint run_ops (ops : list zone_op) (s : State) : list State :=
  match ops with
  | [] => []
  | o :: rest => run_op o s :: run_ops rest (run_op o s)
  end.


(** ** The recurrence rule as the specification words it *)

Inductive policy_spec :=
| Daily
| EveryOtherDay
| Custom (n : Z)
| UnknownPolicy.

Definition policy_of_spec (p : Program) : policy_spec :=
  match recurrence p with
  | None => Daily
  | Some r =>
      if String.eqb r "giornaliero" then Daily
      else if String.eqb r "giorni_alterni" then EveryOtherDay
      else if String.eqb r "personalizzata"
      then Custom (default 1 (interval_days p))
      else UnknownPolicy
  end.

(** A leap year of the Gregorian calendar: every fourth year, except the
    years of a century that is not a multiple of 400. *)
Definition leap_year_spec (year : Z) : bool :=
  if year mod 400 =? 0 then true
  else if year mod 100 =? 0 then false
  else year mod 4 =? 0.

(** Days of the year before the first of a month, for months 1 to 13. *)
Definition days_before_month_spec (year month : Z) : Z :=
  let leap := if leap_year_spec year then 1 else 0 in
  if month <=? 1 then 0
  else if month =? 2 then 31
  else nth (Z.to_nat (month - 3))
           [59; 90; 120; 151; 181; 212; 243; 273; 304; 334; 365] 0 + leap.

Definition day_number_spec (year month day : Z) : Z :=
  day + days_before_month_spec year month.


(** The days of a month of the calendar; 0 for what is not a month. *)
Definition month_length_spec (year month : Z) : Z :=
  if month =? 2 then (if leap_year_spec year then 29 else 28)
  else if (month =? 4) || (month =? 6) || (month =? 9) || (month =? 11)
  then 30
  else if (1 <=? month) && (month <=? 12) then 31
  else 0.





Definition due_spec (policy : policy_spec) (days_since : Z) : bool :=
  match policy with
  | Daily => 1 <=? days_since
  | EveryOtherDay => 2 <=? days_since
  | Custom n => Z.max n 1 <=? days_since
  | UnknownPolicy => false
  end.


(** ** Scenarios *)

(** Transient hardware fault: the pin writes number [lo] to [hi - 1]
    raise. *)
Definition fault_window (lo hi : nat) : nat -> bool :=
  fun n => bool_decide (lo <= n < hi)%nat.

(** Both zones are started by hand, then [stop_all_zones] runs while every
    write raises (writes 3 to 7); the hardware works again afterwards. *)
Definition after_failed_stop_all : State :=
  let s := with_faults (fault_window 3 8) bench in
  let s := (zone_manager.start_zone 0 5 s).2 in
  let s := (zone_manager.start_zone 1 5 s).2 in
  (zone_manager.stop_all_zones s).2.

(** The bench with room for one active zone only, and with zone 0 started
    by hand for 5 minutes. *)
Definition single_slot : State :=
  {| ps := ps bench; disk := disk bench; zm := zm bench; hw := hw bench;
     tasks := tasks bench;
     settings := {| max_zone_duration := 180; max_active_zones := 1;
                    activation_delay := 0 |};
     pm := pm bench; programs := programs bench; clock := clock bench;
     today := today bench; log := log bench; awaits := awaits bench |}.

Definition zone0_running : State :=
  (zone_manager.start_zone 0 5 single_slot).2.

(** Zone 0 is running, and the next write (write 2) raises. *)
Definition stop_raises : State :=
  with_faults (fault_window 2 3) zone0_running.

(** The write that releases zone 0 at the end of its step (write 2) raises. *)
Definition stop_fault : State := with_faults (fault_window 2 3) bench.

(** The file says not running, yet names program "3"; memory is idle. *)
Definition stale_id_on_disk : State :=
  with_disk (FileDict (JBool false) (Some "3")) bench.

(** Memory says that program "3" runs; the file says that nothing does. *)
Definition running_in_memory : State :=
  with_run_state true (Some "3") bench.

(** Program "1" is running its step: zone 0 is energized. *)
Definition mid_step : State :=
  (zone_manager.start_zone 0 1
     (program_manager.set_state true (Some "1") bench)).2.

(** Another task calls [stop_program] during the [n]-th await. *)
Definition interrupt_at (n : nat) : nat -> State -> State :=
  fun k s => if Nat.eqb k n then (program_manager.stop_program s).2 else s.

(** A candidate and an existing program, both in June, neither with an
    activation time. *)
Definition untimed (id : string) : Program :=
  {| prog_id := id; prog_name := None; steps := [];
     months := ["Giugno"]; activation_time := "";
     recurrence := None; interval_days := None; last_run_date := None |}.

(** A program scheduled in June at the given time. *)
Definition june_at (id time policy : string) : Program :=
  {| prog_id := id; prog_name := None; steps := [];
     months := ["Giugno"]; activation_time := time;
     recurrence := Some policy; interval_days := None;
     last_run_date := None |}.



(** After the failed [stop_all_zones], zone 0 is started again by hand:
    it is recorded and energized, zone 1 is energized and not recorded.
    The next write (write 10) raises. *)
Definition unrecorded_zone : State :=
  with_faults (fault_window 10 11)
    (zone_manager.start_zone 0 5 after_failed_stop_all).2.

(** Program "1" with one step, on zone 7, which the settings do not
    configure; the bench with that program in the file. *)
Definition unknown_zone_step : Program :=
  {| prog_id := "1"; prog_name := Some "Orto";
     steps := [ {| zone_id := Some 7; step_duration := 1 |} ];
     months := ["Giugno"]; activation_time := "06:00";
     recurrence := Some "giornaliero"; interval_days := None;
     last_run_date := None |}.

Definition bench_unknown_zone : State :=
  with_programs [("1", unknown_zone_step)] bench.

(** The bench with hardware on which every pin write raises. *)
Definition dead_hardware : State := with_faults (fun _ => true) bench.

(** ** Frames and event classes used in the proofs *)

(** [s'] differs from [s] at most in the globals of [program_state], the
    state file and the log. *)
Definition outside_store (s s' : State) : Prop :=
  zm s' = zm s /\ hw s' = hw s /\ tasks s' = tasks s /\
  settings s' = settings s /\ pm s' = pm s /\ programs s' = programs s /\
  clock s' = clock s /\ today s' = today s /\ awaits s' = awaits s.

(** Events of the store and of the pins; polls and date updates are the
    executor's own. *)
Definition quiet_event (e : event) : Prop :=
  match e with
  | EvPin _ _ _ | EvSave _ _ _ => True
  | EvPoll _ _ | EvLastRun _ _ => False
  end.

(** What the store and the zone functions leave alone, and how they extend
    the log. *)
Definition quiet_step (s s' : State) : Prop :=
  settings s' = settings s /\ pm s' = pm s /\ programs s' = programs s /\
  today s' = today s /\ awaits s' = awaits s /\
  zone_pins (zm s') = zone_pins (zm s) /\
  safety_relay (zm s') = safety_relay (zm s) /\
  zm_program_running (zm s') = zm_program_running (zm s) /\
  faults (hw s') = faults (hw s) /\
  exists evs, log s' = log s ++ evs /\ Forall quiet_event evs.

(** A step that only releases outputs among the pins [Q] and only drops
    entries of the bookkeeping. *)
Definition stops_only (Q : Z -> Prop) (s s' : State) : Prop :=
  quiet_step s s' /\
  active_zones (zm s') ⊆ active_zones (zm s) /\
  forall q, ~ Q q -> levels (hw s') !! q = levels (hw s) !! q.

(** A test of [program_running] that found it False. *)
Definition polled_false (evs : list event) : Prop :=
  exists site, EvPoll site false ∈ evs.

(** A last run date was written. *)
Definition advanced (evs : list event) : Prop :=
  exists pid date, EvLastRun pid date ∈ evs.

Definition no_update (e : event) : Prop :=
  match e with
  | EvLastRun _ _ => False
  | _ => True
  end.

(** The number of tests made at the head of a step. *)
Fixpoint step_polls (evs : list event) : nat :=
  match evs with
  | [] => 0
  | EvPoll AtStep _ :: rest => S (step_polls rest)
  | _ :: rest => step_polls rest
  end.

(** The other tasks leave the program file alone. *)
Definition keeps_programs (env : nat -> State -> State) : Prop :=
  forall n x, programs (env n x) = programs x.

(** What a wait or the loop over the steps does, seen from outside: events
    without a date update, a False poll only as the last thing before
    leaving with [program_running] False, and no step once it is False. *)
Definition run_rel (env : nat -> State -> State) (s s' : State)
    (evs : list event) : Prop :=
  log s' = log s ++ evs /\
  Forall no_update evs /\
  (polled_false evs -> pm_program_running (pm s') = false) /\
  (pm_program_running (pm s) = false -> pm_program_running (pm s') = false) /\
  (keeps_programs env -> programs s' = programs s).

(** What [execute_program] does before the first step and in its cleanup:
    store and pin events only, the program file as the other tasks leave
    it. *)
Definition pre_rel (env : nat -> State -> State) (s s' : State) : Prop :=
  exists evs,
    log s' = log s ++ evs /\ Forall quiet_event evs /\
    (keeps_programs env -> programs s' = programs s).

(** A write that was to release [pin] and raised. *)
Definition failed_release (pin : Z) (e : event) : bool :=
  match e with
  | EvPin p v ok => (p =? pin) && (v =? 1) && negb ok
  | EvSave _ _ _ | EvPoll _ _ | EvLastRun _ _ => false
  end.

Definition failed_releases (pin : Z) (evs : list event) : nat :=
  length (List.filter (failed_release pin) evs).

(** The pins a stop of zone [z] may write, its own and the relay, are
    among [Q]. *)
Definition may_write (Q : Z -> Prop) (z : Z) (s : State) : Prop :=
  (forall pin, zone_pins (zm s) !! z = Some pin -> Q pin) /\
  (forall relay, safety_relay (zm s) = Some relay -> Q relay).

(** The pins of the zones recorded active, and the relay. *)
Definition active_or_relay (s : State) (q : Z) : Prop :=
  safety_relay (zm s) = Some q \/
  exists z, is_Some (active_zones (zm s) !! z) /\ zone_pins (zm s) !! z = Some q.

(** Reduce projections of updated states, and nothing else. *)
Ltac proj :=
  cbn [ps disk zm hw tasks settings pm programs clock today log awaits
       with_ps with_disk with_zm with_hw with_tasks with_pm with_programs
       with_log with_awaits emit zone_manager.set_active_zones
       cancel_task create_task fst snd negb
       zm_program_running active_zones zone_pins safety_relay
       levels faults writes next_task cancelled current_task
       pm_program_running pm_current_program_id
       program_manager.set_state] in *.

(** ** Hardware without faults, wiring, and bookkeeping that agrees *)

(** No pin write raises. *)
Definition fault_free (s : State) : Prop :=
  forall n, faults (hw s) n = false.

(** Every zone has a pin of its own, and none shares the pin of the
    relay. *)
Definition wired (s : State) : Prop :=
  (forall z1 z2 pin,
      zone_pins (zm s) !! z1 = Some pin ->
      zone_pins (zm s) !! z2 = Some pin -> z1 = z2) /\
  (forall relay z,
      safety_relay (zm s) = Some relay ->
      zone_pins (zm s) !! z <> Some relay).

(** Bookkeeping and outputs agree: the zones recorded active are
    configured, an output is energized exactly when its zone is recorded
    active, and the relay exactly when some zone is. *)
Definition consistent (s : State) : Prop :=
  (forall z, is_Some (active_zones (zm s) !! z) ->
             is_Some (zone_pins (zm s) !! z)) /\
  (forall z pin,
      zone_pins (zm s) !! z = Some pin ->
      (levels (hw s) !! pin = Some 0
       <-> is_Some (active_zones (zm s) !! z))) /\
  (forall relay,
      safety_relay (zm s) = Some relay ->
      (levels (hw s) !! relay = Some 0 <-> active_zones (zm s) <> ∅)).

(** A step that writes nothing but 1 to any pin. *)
Definition releases (s s' : State) : Prop :=
  forall q, levels (hw s') !! q = levels (hw s) !! q \/
            levels (hw s') !! q = Some 1.

(** ** zone_manager.py: status and initialisation *)

(** An entry of [settings['zones']]; an [option] field is a key that may be
    absent. *)
Record zone_config := {
  cfg_id : option Z;
  cfg_pin : option Z;
  cfg_name : option string;
  cfg_status : option string
}.

(** An entry of the list that [get_zones_status] returns. *)
Record zone_status := {
  st_id : Z;
  st_name : string;
  st_active : bool;
  st_remaining_time : Z
}.

(** [f"{n}"] for an integer [n]. *)
Definition fmt_int (n : Z) : string :=
  if n <? 0 then String "-" (fmt_d (- n)) else fmt_d n.


(** The status of one configured zone, [None] when it is skipped. *)
Definition zone_status_of (zone : zone_config) (s : State)
  : option zone_status :=
  if bool_decide (cfg_status zone = Some "show") then
    match cfg_id zone with
    | None => None
    | Some zone_id =>
        let is_active := zone_manager.is_active zone_id s in
        let remaining_time :=
          match active_zones (zm s) !! zone_id with
          | Some zone_data =>
              let duration := duration zone_data * 60 in
              let elapsed := clock s - start_time zone_data in
              Z.max 0 (duration - elapsed)
          | None => 0
          end in
        Some {| st_id := zone_id;
                st_name := default ("Zona " +:+ fmt_int (zone_id + 1))
                                   (cfg_name zone);
                st_active := is_active;
                st_remaining_time := remaining_time |}
    end
  else None.

(** [get_zones_status], for the zones that the settings configure. *)
Definition get_zones_status (configured_zones : list zone_config) (s : State)
  : list zone_status :=
  omap (fun zone => zone_status_of zone s) configured_zones.

Definition set_zone_pins (m : gmap Z Z) (s : State) : State :=
  with_zm {| zm_program_running := zm_program_running (zm s);
             active_zones := active_zones (zm s);
             zone_pins := m;
             safety_relay := safety_relay (zm s) |} s.

Definition set_safety_relay (r : option Z) (s : State) : State :=
  with_zm {| zm_program_running := zm_program_running (zm s);
             active_zones := active_zones (zm s);
             zone_pins := zone_pins (zm s);
             safety_relay := r |} s.

(** The loop of [initialize_pins] over the configured zones: [pins] and
    [initialized_zones] as they grow.  Making the [Pin] and writing 1 to it
    are one hardware operation, which raises or not. *)
Fixpoint init_zone_pins (zones : list zone_config) (pins : gmap Z Z)
    (initialized_zones : nat) (s : State) : gmap Z Z * nat * State :=
  match zones with
  | [] => (pins, initialized_zones, s)
  | zone :: rest =>
      match cfg_id zone, cfg_pin zone with
      | Some zone_id, Some pin_number =>
          let '(ok, s) := pin_write pin_number 1 s in
          if ok
          then init_zone_pins rest (<[zone_id := pin_number]> pins)
                              (S initialized_zones) s
          else init_zone_pins rest pins initialized_zones s
      | _, _ => init_zone_pins rest pins initialized_zones s
      end
  end.

(** [initialize_pins].  [settings] is what [_load_settings_cached]
    returns: [None] when it is empty or missing ([if not settings]),
    otherwise the entries of its key 'zones' ([[]] when the key is absent)
    and the pin of its key 'safety_relay' ([None] when there is none). *)
Definition initialize_pins (settings : option (list zone_config * option Z))
    (s : State) : bool * State :=
  match settings with
  | None => (false, s)
  | Some (zones, safety_relay_pin) =>
      let '(pins, initialized_zones, s) :=
        init_zone_pins zones ∅ 0%nat s in
      let s :=
        match safety_relay_pin with
        | Some pin =>
            let '(ok, s) := pin_write pin 1 s in
            set_safety_relay (if ok then Some pin else None) s
        | None => s
        end in
      let s := set_zone_pins pins s in
      (bool_decide (0 < initialized_zones)%nat, s)
  end.

(** ** program_manager.py: the month of a program and the time of the scheduler *)

(** [d.get(k, default)] on a dict written as a literal. *)
Definition dict_get {A} (d : list (string * A)) (k : string) (default : A) : A :=
  match find (fun e : string * A => String.eqb e.1 k) d with
  | Some e => e.2
  | None => default
  end.

Definition months_map : list (string * Z) :=
  [("Gennaio", 1); ("Febbraio", 2); ("Marzo", 3); ("Aprile", 4);
   ("Maggio", 5); ("Giugno", 6); ("Luglio", 7); ("Agosto", 8);
   ("Settembre", 9); ("Ottobre", 10); ("Novembre", 11); ("Dicembre", 12)].

Definition is_program_active_in_current_month (program : Program)
    (s : State) : bool :=
  match months program with
  | [] => false
  | program_months =>
      let '(_, current_month, _) := today s in
      let program_month_numbers :=
        map (fun month => dict_get months_map month 0) program_months in
      bool_decide (current_month ∈ program_month_numbers)
  end.

(** The test of [check_programs] on the time of the clock and the
    activation time of a program, both as hour and minute. *)
Definition time_match (current_hour current_minute
                       activation_hour activation_minute : Z) : bool :=
  if (current_hour =? activation_hour)
     && (current_minute =? activation_minute)
  then true
  else if (current_hour =? activation_hour)
          && (current_minute =? activation_minute - 1)
  then true
  else if (activation_minute =? 0) && (current_minute =? 59)
          && (current_hour =? activation_hour - 1)
  then true
  else false.

(** A date of the calendar, with the lengths of the months that
    [_day_of_year] uses. *)
Definition valid_date (date : Z * Z * Z) : Prop :=
  let '(year, month, day) := date in
  0 <= year /\ 1 <= month <= 12 /\
  exists n, program_manager.days_in_month year !! Z.to_nat month = Some n /\
            1 <= day <= n.

(** Earlier in the year, by month and day. *)
Definition earlier (month1 day1 month2 day2 : Z) : Prop :=
  month1 < month2 \/ month1 = month2 /\ day1 < day2.

Fixpoint no_dash (s : string) : bool :=
  match s with
  | EmptyString => true
  | String c rest => negb (Ascii.eqb c "-"%char) && no_dash rest
  end.

(** A step that leaves the globals of [program_state] and the state file
    alone. *)
Definition store_kept (s s' : State) : Prop :=
  ps s' = ps s /\ disk s' = disk s.

(** ** program_manager.py: changes to the file of the programs *)

Definition with_id (program_id : string) (p : Program) : Program :=
  {| prog_id := program_id; prog_name := prog_name p; steps := steps p;
     months := months p; activation_time := activation_time p;
     recurrence := recurrence p; interval_days := interval_days p;
     last_run_date := last_run_date p |}.

(** [load_programs(force_reload=True)] on a file that holds a dict of
    programs: every program gets its key as its id. *)
Definition load_programs (s : State) : list (string * Program) :=
  map (fun e : string * Program => (e.1, with_id e.1 e.2)) (programs s).

(** [program_id in programs] *)
Definition has_key (program_id : string)
    (programs : list (string * Program)) : bool :=
  existsb (fun e : string * Program => String.eqb e.1 program_id) programs.

(** [if program_running and current_program_id == program_id:
    stop_program()], after a reload of the state. *)
Definition stop_if_running (program_id : string) (s : State) : State :=
  let s := program_state.load_program_state s in
  if pm_program_running (pm s)
     && program_state.id_eqb (pm_current_program_id (pm s)) (Some program_id)
  then (program_manager.stop_program s).2
  else s.

(** [save_programs(programs)]: [ok] tells whether the write of the file
    goes through.  A write that raises leaves the file as it was, and the
    result is False. *)
Definition save_programs (ok : bool) (programs : list (string * Program))
    (s : State) : bool * State :=
  if ok then (true, with_programs programs s) else (false, s).

(** [update_program]; [save_ok] is the outcome of the write of the file. *)
Definition update_program (save_ok : bool) (program_id : string)
    (updated_program : Program) (s : State) : (bool * string) * State :=
  let programs := load_programs s in
  let '(has_conflict, conflict_message) :=
    program_manager.check_program_conflicts updated_program programs
                                            (Some program_id) in
  if has_conflict then ((false, conflict_message), s) else
  if has_key program_id programs then
    let s := stop_if_running program_id s in
    let updated_program := with_id program_id updated_program in
    let programs :=
      map (fun e : string * Program =>
             if String.eqb e.1 program_id then (e.1, updated_program) else e)
          programs in
    let '(saved, s) := save_programs save_ok programs s in
    if saved then ((true, ""), s)
    else ((false,
           "Errore durante il salvataggio del programma " +:+ program_id),
          s)
  else
    ((false, "Programma con ID " +:+ program_id +:+ " non trovato"), s).

(** [delete_program]; [save_ok] is the outcome of the write of the file. *)
Definition delete_program (save_ok : bool) (program_id : string) (s : State)
  : bool * State :=
  let programs := load_programs s in
  if has_key program_id programs then
    let s := stop_if_running program_id s in
    let programs :=
      List.filter (fun e : string * Program =>
                     negb (String.eqb e.1 program_id)) programs in
    let '(saved, s) := save_programs save_ok programs s in
    if saved then (true, s) else (false, s)
  else (false, s).

(** Two programs in June, at 06:00 and at 07:00, in the file of the
    bench. *)
Definition two_programs : State :=
  with_programs [("1", june_at "1" "06:00" "giornaliero");
                 ("2", june_at "2" "07:00" "giorni_alterni")] bench.

(** Every program passes [check_program_conflicts] against the others. *)
Definition conflict_free (programs : list (string * Program)) : Prop :=
  forall pid p,
    (pid, p) ∈ programs ->
    (program_manager.check_program_conflicts p programs (Some pid)).1
    = false.

(** ** web_server.py: the route that starts a zone *)

(** A JSON response: its status code, [success] and [error]. *)
Record response := {
  status_code : Z;
  success : bool;
  error : option string
}.

(** [handle_start_zone] once the modules are imported and the body is
    parsed; [None] is a parameter that the request does not have. *)
Definition handle_start_zone (zone_id duration : option Z) (s : State)
  : response * State :=
  match zone_id, duration with
  | Some zone_id, Some duration =>
      let s := program_state.load_program_state s in
      if ps_program_running (ps s)
      then ({| status_code := 400; success := false;
               error := Some "Programma in esecuzione" |}, s)
      else
        let '(result, s) := zone_manager.start_zone zone_id duration s in
        if result
        then ({| status_code := 200; success := true; error := None |}, s)
        else ({| status_code := 500; success := false;
                 error := Some "Errore avvio zona" |}, s)
  | _, _ =>
      ({| status_code := 400; success := false;
          error := Some "Parametri mancanti" |}, s)
  end.

(** ** The run-state store *)

(** Closes [quiet_step s s'] when [s'] is [s] with fields of the store or of
    the tasks replaced. *)
Ltac silent :=
  repeat split; exists []; split; [by rewrite app_nil_r | constructor].

Section RunStateStore.

Import program_state.

Lemma outside_store_refl (s : State) : outside_store s s.
Proof. repeat split. Qed.

Lemma outside_store_trans (s1 s2 s3 : State) :
  outside_store s1 s2 -> outside_store s2 s3 -> outside_store s1 s3.
Proof.
  unfold outside_store. intros H12 H23.
  destruct H12 as (?&?&?&?&?&?&?&?&?), H23 as (?&?&?&?&?&?&?&?&?).
  repeat split; congruence.
Qed.

Lemma write_file_frame r i s : outside_store s (write_file r i s).
Proof. repeat split. Qed.

Lemma set_running_frame b s : outside_store s (set_running b s).
Proof. repeat split. Qed.

Lemma set_id_frame i s : outside_store s (set_id i s).
Proof. repeat split. Qed.

Lemma set_last_saved_frame x s : outside_store s (set_last_saved x s).
Proof. repeat split. Qed.

Lemma verify_save_frame s : outside_store s (verify_save s).
Proof.
  unfold verify_save.
  destruct (ps_last_saved_state (ps s)) as [[r i]|];
    [|apply outside_store_refl].
  destruct (disk s); try apply write_file_frame.
  case_match; [apply write_file_frame | apply outside_store_refl].
Qed.

Lemma save_frame (s : State) : outside_store s (save_program_state s).
Proof.
  unfold save_program_state.
  eapply outside_store_trans; [|apply verify_save_frame].
  eapply outside_store_trans; [|apply write_file_frame].
  apply set_last_saved_frame.
Qed.

(** Loading touches the globals of [program_state], the file and the log,
    and nothing else. *)
Lemma load_frame (s : State) : outside_store s (load_program_state s).
Proof.
  unfold load_program_state.
  destruct (disk s) as [| |r i].
  1,2: eapply outside_store_trans; [|apply save_frame];
       destruct (ps_program_running (ps s)); [apply outside_store_refl|];
       eapply outside_store_trans; [apply set_running_frame|apply set_id_frame].
  set (s1 := match r with JNull => s | _ => _ end).
  assert (outside_store s s1) as H1.
  { subst s1. destruct r; try apply outside_store_refl;
      case_match; (apply save_frame || apply set_running_frame). }
  eapply outside_store_trans; [exact H1|].
  destruct i; [apply set_id_frame|].
  case_match; [apply set_id_frame | apply outside_store_refl].
Qed.

(** On a reliable disk the read-back of [verify_save] agrees: one write,
    and the file holds the globals of [program_state]. *)
Lemma save_unfold (s : State) :
  save_program_state s
  = write_file (ps_program_running (ps s)) (ps_current_program_id (ps s))
      (set_last_saved (Some (ps_program_running (ps s),
                             ps_current_program_id (ps s))) s).
Proof.
  unfold save_program_state, verify_save. cbn.
  unfold json_is_bool, id_eqb.
  rewrite Bool.eqb_reflx, bool_decide_true by reflexivity.
  reflexivity.
Qed.

Lemma save_disk (s : State) :
  disk (save_program_state s)
  = FileDict (JBool (ps_program_running (ps s))) (ps_current_program_id (ps s)).
Proof. rewrite save_unfold. reflexivity. Qed.

Lemma save_log (s : State) :
  log (save_program_state s)
  = log s ++ [EvSave (ps_program_running (ps s)) (ps_current_program_id (ps s))
                     (energized_zones s)].
Proof. rewrite save_unfold. reflexivity. Qed.

Lemma save_ps (s : State) :
  ps_program_running (ps (save_program_state s)) = ps_program_running (ps s)
  /\ ps_current_program_id (ps (save_program_state s))
     = ps_current_program_id (ps s).
Proof. rewrite save_unfold. split; reflexivity. Qed.

(** What a load does when memory says running and the file says not
    running: [program_running] stays, the file is rewritten from memory,
    and then the id in memory is replaced by the id of the stale file. *)
Lemma load_regression_general (s : State) (r : json) (i : option string) :
  ps_program_running (ps s) = true ->
  disk s = FileDict r i -> r <> JNull -> truthy r = false ->
  let s' := load_program_state s in
  ps_program_running (ps s') = true /\
  disk s' = FileDict (JBool true) (ps_current_program_id (ps s)) /\
  ps_current_program_id (ps s') = i.
Proof.
  intros Hrun Hdisk Hnull Hfalse.
  pose proof (save_disk s) as Hd. pose proof (save_ps s) as [Hr Hi].
  rewrite Hrun in Hd, Hr.
  unfold load_program_state. rewrite Hdisk, Hfalse, Hrun.
  destruct r; try congruence; cbn [negb andb];
    destruct i; cbn; auto.
Qed.

Lemma quiet_step_refl (s : State) : quiet_step s s.
Proof. silent. Qed.

Lemma quiet_step_trans (s1 s2 s3 : State) :
  quiet_step s1 s2 -> quiet_step s2 s3 -> quiet_step s1 s3.
Proof.
  intros (?&?&?&?&?&?&?&?&?&e1&L1&F1) (?&?&?&?&?&?&?&?&?&e2&L2&F2).
  repeat split; try congruence.
  exists (e1 ++ e2). split; [by rewrite L2, L1, app_assoc|].
  by apply Forall_app.
Qed.

Lemma outside_store_quiet (s s' : State) (evs : list event) :
  outside_store s s' -> log s' = log s ++ evs -> Forall quiet_event evs ->
  quiet_step s s'.
Proof.
  intros (Hz&Hh&?&?&?&?&?&?&?) L F.
  repeat split; try congruence. eauto.
Qed.

Lemma save_quiet (s : State) : quiet_step s (save_program_state s).
Proof.
  eapply outside_store_quiet; [apply save_frame | apply save_log |].
  repeat constructor.
Qed.

Lemma set_running_quiet b s : quiet_step s (set_running b s).
Proof. silent. Qed.

Lemma set_id_quiet i s : quiet_step s (set_id i s).
Proof. silent. Qed.

Lemma load_quiet (s : State) : quiet_step s (load_program_state s).
Proof.
  unfold load_program_state.
  destruct (disk s) as [| |r i].
  1,2: eapply quiet_step_trans; [|apply save_quiet];
       destruct (ps_program_running (ps s)); silent.
  set (s1 := match r with JNull => s | _ => _ end).
  assert (quiet_step s s1) as H1.
  { subst s1. destruct r; try apply quiet_step_refl;
      case_match; (apply save_quiet || apply set_running_quiet). }
  eapply quiet_step_trans; [exact H1|].
  destruct i; [apply set_id_quiet|].
  case_match; [apply set_id_quiet | apply quiet_step_refl].
Qed.

End RunStateStore.

(** ** The zone controller *)

Section ZoneController.

Import zone_manager.

(** A pin write changes the hardware and the log, nothing else. *)
Lemma pin_write_inv p v s ok s' :
  pin_write p v s = (ok, s') ->
  zm s' = zm s /\ settings s' = settings s /\ tasks s' = tasks s /\
  clock s' = clock s /\
  ok = negb (faults (hw s) (writes (hw s))) /\
  levels (hw s') = (if ok then <[p:=v]> (levels (hw s)) else levels (hw s)) /\
  faults (hw s') = faults (hw s) /\
  writes (hw s') = S (writes (hw s)) /\
  log s' = log s ++ [EvPin p v ok].
Proof. unfold pin_write. intros [= <- <-]. repeat split. Qed.

Lemma pin_write_quiet p v s ok s' :
  pin_write p v s = (ok, s') -> quiet_step s s'.
Proof.
  unfold pin_write. intros [= <- <-]. repeat split.
  eexists. split; [reflexivity|]. repeat constructor.
Qed.

Lemma no_active_zones_spec s :
  no_active_zones s = true <-> active_zones (zm s) = ∅.
Proof.
  unfold no_active_zones. rewrite bool_decide_eq_true.
  apply map_size_empty_iff.
Qed.

Lemma is_active_spec z s :
  is_active z s = true <-> is_Some (active_zones (zm s) !! z).
Proof. unfold is_active. apply bool_decide_eq_true. Qed.

(** *** [start_zone] *)


Lemma start_zone_quiet z d s : quiet_step s (start_zone z d s).2.
Proof.
  unfold start_zone.
  pose proof (load_quiet s) as H0.
  set (s0 := program_state.load_program_state s) in *.
  destruct (zm_program_running (zm s0)); [exact H0|].
  destruct (zone_pins (zm s0) !! z) as [pin|]; [|exact H0].
  destruct (_ || _); [exact H0|].
  destruct (_ && _); [exact H0|].
  set (relay_step := match safety_relay (zm s0) with
                     | Some relay => _ | None => _ end).
  assert (quiet_step s0 relay_step.2) as H1.
  { subst relay_step. destruct (safety_relay (zm s0));
      [|apply quiet_step_refl].
    destruct (no_active_zones s0); [|apply quiet_step_refl].
    eapply pin_write_quiet, surjective_pairing. }
  destruct relay_step as [relay_ok s1]. proj.
  pose proof (quiet_step_trans _ _ _ H0 H1) as H01.
  destruct relay_ok; proj; [|exact H01].
  destruct (pin_write pin 0 s1) as [zone_ok s2] eqn:E2.
  apply pin_write_quiet in E2.
  pose proof (quiet_step_trans _ _ _ H01 E2) as H2.
  destruct zone_ok; proj.
  - eapply quiet_step_trans; [exact H2|].
    destruct (task <$> active_zones (zm s0) !! z); silent.
  - eapply quiet_step_trans; [exact H2|].
    destruct (safety_relay (zm s2)); [|apply quiet_step_refl].
    destruct (no_active_zones s2); [|apply quiet_step_refl].
    eapply pin_write_quiet, surjective_pairing.
Qed.

(** *** Stopping *)

Lemma stops_only_refl Q s : stops_only Q s s.
Proof. split; [apply quiet_step_refl|]. split; [done|auto]. Qed.

Lemma stops_only_trans Q s1 s2 s3 :
  stops_only Q s1 s2 -> stops_only Q s2 s3 -> stops_only Q s1 s3.
Proof.
  intros (q1 & a1 & l1) (q2 & a2 & l2).
  split; [eapply quiet_step_trans; eassumption|].
  split; [etrans; eassumption|].
  intros q Hq. rewrite l2, l1 by done. done.
Qed.

Lemma pin_release_stops (Q : Z -> Prop) p s ok s' :
  Q p -> pin_write p 1 s = (ok, s') -> stops_only Q s s'.
Proof.
  intros HQ E. split; [eapply pin_write_quiet; eassumption|].
  apply pin_write_inv in E as (Hz & _ & _ & _ & _ & Hl & _).
  split; [by rewrite Hz|].
  intros q Hq. rewrite Hl. destruct ok; [|done].
  apply lookup_insert_ne. intros ->. done.
Qed.

Lemma drop_entry_stops Q z s :
  stops_only Q s (set_active_zones (delete z (active_zones (zm s))) s).
Proof.
  split; [silent|]. split; [apply delete_subseteq | done].
Qed.

Lemma stop_zone_stops Q z s :
  may_write Q z s -> stops_only Q s (stop_zone z s).2.
Proof.
  intros [Hpin Hrelay]. unfold stop_zone.
  destruct (zone_pins (zm s) !! z) as [pin|] eqn:Ep;
    [|apply stops_only_refl].
  destruct (pin_write pin 1 s) as [ok s1] eqn:E1.
  pose proof (pin_release_stops Q _ _ _ _ (Hpin _ eq_refl) E1) as H1.
  destruct ok; proj; [|exact H1].
  set (s2 := match active_zones (zm s1) !! z with
             | Some _ => _ | None => _ end).
  assert (stops_only Q s1 s2) as H2.
  { subst s2. destruct (active_zones (zm s1) !! z);
      [|apply stops_only_refl].
    destruct (active_zones (zm s) !! z) as [zd|]; [|apply stops_only_refl].
    destruct (negb _).
    - eapply stops_only_trans; [|apply drop_entry_stops].
      split; [silent|]. split; done.
    - apply drop_entry_stops. }
  pose proof (stops_only_trans _ _ _ _ H1 H2) as H12.
  destruct (safety_relay (zm s2)) as [relay|] eqn:Er; [|exact H12].
  destruct (_ && _); [|exact H12].
  destruct (pin_write relay 1 s2) as [ok s3] eqn:E3. proj.
  eapply stops_only_trans; [exact H12|].
  eapply pin_release_stops; [|exact E3].
  apply Hrelay. destruct H12 as ((_&_&_&_&_&_&Hr&_)&_). congruence.
Qed.

Lemma may_write_step Q z s s' :
  quiet_step s s' -> may_write Q z s -> may_write Q z s'.
Proof.
  intros (_&_&_&_&_&Hp&Hr&_) [H1 H2]. split; intros x Hx.
  - apply H1. congruence.
  - apply H2. congruence.
Qed.

Lemma active_may_write s z :
  is_Some (active_zones (zm s) !! z) -> may_write (active_or_relay s) z s.
Proof.
  intros Hz. split; intros x Hx; [right; eauto | left; done].
Qed.

Lemma active_ids_spec s z :
  z ∈ active_ids s <-> is_Some (active_zones (zm s) !! z).
Proof.
  unfold active_ids. rewrite list_elem_of_fmap. split.
  - intros ([k v] & -> & Hin). apply elem_of_map_to_list in Hin. eauto.
  - intros [v Hv]. exists (z, v). split; [done|].
    by apply elem_of_map_to_list.
Qed.

Lemma stop_each_stops Q ids success s :
  (forall z, z ∈ ids -> may_write Q z s) ->
  stops_only Q s (stop_each ids success s).2.
Proof.
  revert success s. induction ids as [|z ids IH]; intros success s Hall.
  - apply stops_only_refl.
  - cbn [stop_each].
    pose proof (stop_zone_stops Q z s (Hall z (list_elem_of_here _ _))) as H1.
    destruct (stop_zone z s) as [ok s1]. proj.
    eapply stops_only_trans; [exact H1|]. apply IH.
    intros z' Hz'. eapply may_write_step; [apply H1|].
    apply Hall. by apply list_elem_of_further.
Qed.

Lemma force_stop_stops Q z success s :
  may_write Q z s -> stops_only Q s (force_stop z success s).2.
Proof.
  intros [Hpin _]. unfold force_stop.
  set (w := match zone_pins (zm s) !! z with
            | Some pin => _ | None => _ end).
  assert (stops_only Q s w.2) as H1.
  { subst w. destruct (zone_pins (zm s) !! z) as [pin|];
      [|apply stops_only_refl].
    eapply pin_release_stops; [by apply Hpin|apply surjective_pairing]. }
  destruct w as [ok s1]. proj. destruct ok; proj; [|exact H1].
  destruct (active_zones (zm s1) !! z); proj; [|exact H1].
  eapply stops_only_trans; [exact H1|].
  split; [silent|]. split; [apply delete_subseteq | done].
Qed.

Lemma force_each_stops Q ids success s :
  (forall z, z ∈ ids -> may_write Q z s) ->
  stops_only Q s (force_each ids success s).2.
Proof.
  revert success s. induction ids as [|z ids IH]; intros success s Hall.
  - apply stops_only_refl.
  - cbn [force_each].
    pose proof (force_stop_stops Q z success s
                  (Hall z (list_elem_of_here _ _))) as H1.
    destruct (force_stop z success s) as [ok s1]. proj.
    eapply stops_only_trans; [exact H1|]. apply IH.
    intros z' Hz'. eapply may_write_step; [apply H1|].
    apply Hall. by apply list_elem_of_further.
Qed.

(** The two phases of [stop_all_zones], before the relay is written. *)
Lemma stop_phases_stops s :
  let p1 := stop_each (active_ids s) true s in
  let p2 := if negb (no_active_zones p1.2)
            then force_each (active_ids p1.2) p1.1 p1.2 else p1 in
  stops_only (active_or_relay s) s p2.2.
Proof.
  intros p1 p2.
  assert (stops_only (active_or_relay s) s p1.2) as H1.
  { apply stop_each_stops. intros z Hz.
    apply active_may_write, active_ids_spec, Hz. }
  subst p2. destruct (negb _); [|exact H1].
  eapply stops_only_trans; [exact H1|].
  apply force_each_stops. intros z Hz.
  eapply may_write_step; [apply H1|].
  apply active_may_write. apply active_ids_spec in Hz.
  destruct H1 as (_ & Hsub & _).
  destruct Hz as [v Hv]. exists v.
  eapply lookup_weaken; eassumption.
Qed.

Lemma stop_all_zones_unfold s :
  no_active_zones s = false ->
  let p1 := stop_each (active_ids s) true s in
  let p2 := if negb (no_active_zones p1.2)
            then force_each (active_ids p1.2) p1.1 p1.2 else p1 in
  let p3 := match safety_relay (zm p2.2) with
            | Some relay =>
                ((if (pin_write relay 1 p2.2).1 then p2.1 else false),
                 (pin_write relay 1 p2.2).2)
            | None => p2
            end in
  stop_all_zones s = (p3.1, set_active_zones ∅ p3.2).
Proof.
  intros Hne. unfold stop_all_zones. rewrite Hne.
  destruct (stop_each (active_ids s) true s) as [b1 s1]. cbn [fst snd].
  destruct (if negb (no_active_zones s1) then _ else _) as [b2 s2].
  cbn [fst snd].
  destruct (safety_relay (zm s2)); [|reflexivity].
  destruct (pin_write z 1 s2). reflexivity.
Qed.

Lemma stop_all_zones_stops s :
  stops_only (active_or_relay s) s (stop_all_zones s).2.
Proof.
  destruct (no_active_zones s) eqn:Hne.
  { unfold stop_all_zones. rewrite Hne. apply stops_only_refl. }
  rewrite (stop_all_zones_unfold s Hne). cbv zeta. cbn [snd].
  pose proof (stop_phases_stops s) as H2. cbv zeta in H2.
  set (s2 := (if negb _ then _ else _).2) in *.
  set (s3 := (match safety_relay (zm s2) with
              | Some relay => _ | None => _ end).2).
  assert (stops_only (active_or_relay s) s2 s3) as H3.
  { subst s3. destruct (safety_relay (zm s2)) as [relay|] eqn:Er;
      [|apply stops_only_refl].
    cbn [snd]. eapply pin_release_stops; [|apply surjective_pairing].
    left. destruct H2 as ((_&_&_&_&_&_&Hr&_)&_). congruence. }
  eapply stops_only_trans; [exact H2|].
  eapply stops_only_trans; [exact H3|].
  split; [silent|]. split; [apply map_empty_subseteq | done].
Qed.

Lemma _safe_stop_zone_stops z s :
  stops_only (fun _ => True) s (_safe_stop_zone z s).
Proof.
  unfold _safe_stop_zone.
  destruct (zone_pins (zm s) !! z) as [pin|]; [|apply stops_only_refl].
  destruct (negb _); [apply stops_only_refl|].
  destruct (pin_write pin 1 s) as [ok s1] eqn:E1.
  pose proof (pin_release_stops (fun _ => True) _ _ _ _ I E1) as H1.
  destruct ok; proj; [|exact H1].
  eapply stops_only_trans; [exact H1|].
  set (s2 := set_active_zones _ s1).
  assert (stops_only (fun _ => True) s1 s2) as H2
    by apply drop_entry_stops.
  destruct (safety_relay (zm s1)); [|exact H2].
  destruct (bool_decide _); [|exact H2].
  eapply stops_only_trans; [exact H2|].
  eapply pin_release_stops; [done|apply surjective_pairing].
Qed.





End ZoneController.

(** ** Claims on the zone controller *)

Section ZoneClaims.

Import zone_manager.

(** The guard at the head of [stop_all_zones]. *)
Lemma stop_all_zones_no_active (s : State) :
  active_zones (zm s) = ∅ -> zone_manager.stop_all_zones s = (true, s).
Proof.
  intros Hempty. unfold stop_all_zones.
  apply no_active_zones_spec in Hempty. rewrite Hempty. reflexivity.
Qed.

(** C10.  With no zone recorded active, [stop_all_zones] returns True at
    once: no zone output and no relay pin is written, and no part of the
    state changes.  The sweep and the release of the relay are reached
    only when a zone is recorded active at entry. *)
Theorem stop_all_zones_idle (s : State) :
  active_zones (zm s) = ∅ -> stop_all_zones s = (true, s).
Proof. apply stop_all_zones_no_active. Qed.

Lemma stop_all_zones_idle_witness :
  active_zones (zm bench) = ∅ /\ stop_all_zones bench = (true, bench).
Proof.
  split; [reflexivity | apply (stop_all_zones_idle bench); reflexivity].
Defined.

(** When a zone is recorded active at entry and a relay is configured,
    the last pin write of [stop_all_zones] releases the relay. *)
Lemma stop_all_zones_relay s relay :
  active_zones (zm s) <> ∅ -> safety_relay (zm s) = Some relay ->
  exists n,
    writes (hw (stop_all_zones s).2) = S n /\
    last (log (stop_all_zones s).2)
    = Some (EvPin relay 1 (negb (faults (hw s) n))) /\
    (faults (hw s) n = false ->
     levels (hw (stop_all_zones s).2) !! relay = Some 1).
Proof.
  intros Hne Hrelay.
  assert (no_active_zones s = false) as Hguard.
  { destruct (no_active_zones s) eqn:E; [|done].
    apply no_active_zones_spec in E. done. }
  rewrite (stop_all_zones_unfold s Hguard). cbv zeta. cbn [snd].
  pose proof (stop_phases_stops s) as H2. cbv zeta in H2.
  set (s2 := (if negb _ then _ else _).2) in *.
  destruct H2 as ((_&_&_&_&_&_&Hr&_&Hf&_)&_).
  rewrite Hrelay in Hr. rewrite Hr. cbn [snd].
  destruct (pin_write relay 1 s2) as [ok s3] eqn:E3.
  apply pin_write_inv in E3 as (_&_&_&_&Hok&Hl&_&Hw&Hlog).
  proj. exists (writes (hw s2)). split; [done|].
  rewrite Hlog, last_snoc, Hok, Hf. split; [done|].
  intros Hno. rewrite Hl, Hok, Hf, Hno. apply lookup_insert_eq.
Qed.





(** C1.  The run state, in memory and on disk, says that program "1" is
    running; [start_zone 0 5] reloads it, yet tests the name that the
    from-import bound in [zone_manager], which is still False: the call
    returns True and the output of zone 0 (pin 5) is energized. *)
Theorem start_zone_while_program_runs :
  disk owned_by_program = FileDict (JBool true) (Some "1") /\
  ps_program_running
    (ps (program_state.load_program_state owned_by_program)) = true /\
  (start_zone 0 5 owned_by_program).1 = true /\
  levels (hw (start_zone 0 5 owned_by_program).2) !! 5 = Some 0 /\
  0 ∈ energized_zones (start_zone 0 5 owned_by_program).2.
Proof.
  split; [reflexivity|]. split; [reflexivity|].
  split; [by vm_compute|]. split; [by vm_compute|].
  assert (energized_zones (start_zone 0 5 owned_by_program).2 = [0]) as Hon.
  { by vm_compute. }
  rewrite Hon. apply list_elem_of_here.
Qed.

End ZoneClaims.

(** ** Claims on the run-state store *)

Section StoreClaims.

Import program_state.

(** C4.  The file holds running = false together with the id "3"; memory
    is idle.  After the load, [program_running] is False while
    [current_program_id] is "3": the id of the file is taken whatever the
    running flag says, and the state is left with an id and no program
    running. *)
Theorem load_takes_id_of_idle_file :
  disk stale_id_on_disk = FileDict (JBool false) (Some "3") /\
  ps_program_running (ps stale_id_on_disk) = false /\
  ps_current_program_id (ps stale_id_on_disk) = None /\
  ps_program_running (ps (load_program_state stale_id_on_disk)) = false /\
  ps_current_program_id (ps (load_program_state stale_id_on_disk))
  = Some "3".
Proof. repeat split. Qed.

(** C9.  Memory says that program "3" runs, the file says that nothing
    does.  The load keeps [program_running] True and rewrites the file
    from memory, with the id "3"; then the id branch, keyed on the value
    read from the file, sets [current_program_id] to None: memory ends as
    running without an id. *)
Theorem load_regression_drops_id :
  ps_program_running (ps running_in_memory) = true /\
  ps_current_program_id (ps running_in_memory) = Some "3" /\
  disk running_in_memory = FileDict (JBool false) None /\
  ps_program_running (ps (load_program_state running_in_memory)) = true /\
  disk (load_program_state running_in_memory)
  = FileDict (JBool true) (Some "3") /\
  ps_current_program_id (ps (load_program_state running_in_memory)) = None.
Proof. repeat split. Qed.

End StoreClaims.

(** ** Claims on conflicts and due dates *)

Section ProgramClaims.

Import program_manager.

Lemma months_intersect_spec (a b : list string) :
  months_intersect a b = true <-> exists m, m ∈ a /\ m ∈ b.
Proof.
  unfold months_intersect. rewrite existsb_exists. split.
  - intros (m & Hin & Hb). apply bool_decide_eq_true in Hb.
    exists m. split; [by apply list_elem_of_In | done].
  - intros (m & Ha & Hb). exists m.
    split; [by apply list_elem_of_In | by apply bool_decide_eq_true].
Qed.

Lemma is_excluded_spec (exclude_id : option string) (pid : string) :
  is_excluded exclude_id pid = false <->
  forall e, exclude_id = Some e -> e = "" \/ pid <> e.
Proof.
  unfold is_excluded. destruct exclude_id as [e|]; [|split; [done|done]].
  rewrite andb_false_iff, negb_false_iff, String.eqb_eq, String.eqb_neq.
  split.
  - intros H e' [= <-]. done.
  - intros H. by apply H.
Qed.

Lemma conflict_scan_spec program_months program_time exclude_id programs :
  (conflict_scan program_months program_time exclude_id programs).1 = true
  <-> exists pid existing,
        (pid, existing) ∈ programs /\
        is_excluded exclude_id pid = false /\
        months_intersect program_months (months existing) = true /\
        activation_time existing = program_time.
Proof.
  induction programs as [|[pid existing] rest IH]; cbn [conflict_scan].
  - split; [done|]. intros (? & ? & Hin & _). by apply elem_of_nil in Hin.
  - destruct (is_excluded exclude_id pid) eqn:Hex.
    { rewrite IH. split.
      - intros (p & e & Hin & ?). exists p, e.
        split; [by apply list_elem_of_further | done].
      - intros (p & e & Hin & Hne & ?).
        apply elem_of_cons in Hin as [[= -> ->]|Hin]; [congruence|].
        by exists p, e. }
    destruct (months_intersect _ _ && _) eqn:Hhit; cbn [fst].
    + split; [|done]. intros _.
      apply andb_true_iff in Hhit as [Hm Ht]. apply String.eqb_eq in Ht.
      exists pid, existing. split; [apply list_elem_of_here | done].
    + rewrite IH. split.
      * intros (p & e & Hin & ?). exists p, e.
        split; [by apply list_elem_of_further | done].
      * intros (p & e & Hin & Hne & Hm & Ht).
        apply elem_of_cons in Hin as [[= -> ->]|Hin]; [|by exists p, e].
        apply andb_false_iff in Hhit as [Hf|Hf]; [congruence|].
        apply String.eqb_neq in Hf. congruence.
Qed.

(** C7, as amended.  [check_program_conflicts] reports a conflict exactly
    when the candidate has a non-empty activation time and some program of
    the collection, other than the one named by a non-empty [exclude_id],
    shares a month with the candidate and has the very same activation
    time.  Recurrence is not looked at. *)
Theorem check_program_conflicts_iff
    (program : Program) (programs : list (string * Program))
    (exclude_id : option string) :
  (check_program_conflicts program programs exclude_id).1 = true
  <-> activation_time program <> "" /\
      exists pid existing,
        (pid, existing) ∈ programs /\
        (forall e, exclude_id = Some e -> e = "" \/ pid <> e) /\
        (exists m, m ∈ months program /\ m ∈ months existing) /\
        activation_time existing = activation_time program.
Proof.
  unfold check_program_conflicts.
  destruct (months program) as [|m0 ms] eqn:Hmonths.
  { cbn [fst]. split; [done|].
    intros (_ & _ & _ & _ & _ & (m & Hm & _) & _).
    by apply elem_of_nil in Hm. }
  destruct (String.eqb (activation_time program) "") eqn:Htime.
  { cbn [fst]. apply String.eqb_eq in Htime. split; [done|].
    intros [Hne _]. done. }
  apply String.eqb_neq in Htime. rewrite conflict_scan_spec.
  split.
  - intros (pid & existing & Hin & Hex & Hm & Ht).
    split; [done|]. exists pid, existing.
    split; [done|]. split; [by apply is_excluded_spec|].
    split; [by apply months_intersect_spec | done].
  - intros (_ & pid & existing & Hin & Hex & Hm & Ht).
    exists pid, existing.
    split; [done|]. split; [by apply is_excluded_spec|].
    split; [by apply months_intersect_spec | done].
Qed.

(** C7, as stated, fails: a candidate and an existing program, both in
    June and with the same (empty) activation time string, are not
    reported as a conflict. *)
Lemma check_program_conflicts_untimed :
  (check_program_conflicts (untimed "2") [("1", untimed "1")] None).1
  = false /\
  (exists m, m ∈ months (untimed "2") /\ m ∈ months (untimed "1")) /\
  activation_time (untimed "1") = activation_time (untimed "2").
Proof.
  split; [reflexivity|]. split; [|reflexivity].
  exists "Giugno". split; apply list_elem_of_here.
Qed.

(** Two programs in June at 06:00 conflict whatever their recurrence; at
    06:00 and 07:00 they do not. *)
Lemma check_program_conflicts_iff_witness :
  (check_program_conflicts (june_at "2" "06:00" "giorni_alterni")
     [("1", june_at "1" "06:00" "giornaliero")] None).1 = true /\
  (check_program_conflicts (june_at "2" "07:00" "giornaliero")
     [("1", june_at "1" "06:00" "giornaliero")] None).1 = false.
Proof.
  split.
  - apply check_program_conflicts_iff. split; [discriminate|].
    exists "1", (june_at "1" "06:00" "giornaliero").
    split; [apply list_elem_of_here|]. split; [discriminate|].
    split; [|reflexivity]. exists "Giugno". split; apply list_elem_of_here.
  - destruct (check_program_conflicts _ _ _).1 eqn:E; [|reflexivity].
    apply check_program_conflicts_iff in E
      as (_ & pid & existing & Hin & _ & _ & Htime).
    apply list_elem_of_singleton in Hin. injection Hin as -> ->.
    discriminate Htime.
Defined.

(** *** Due dates *)

Lemma add_months_overrun (tbl : list Z) (i n : nat) (acc : Z) :
  (i <= length tbl < i + n)%nat -> add_months tbl i n acc = None.
Proof.
  revert i acc. induction n as [|n IH]; intros i acc Hrange; [lia|].
  cbn [add_months]. destruct (tbl !! i) as [d|] eqn:E; [|done].
  apply IH. apply lookup_lt_Some in E. lia.
Qed.

Lemma add_months_acc (tbl : list Z) (i n : nat) (acc : Z) :
  add_months tbl i n acc = (fun x => acc + x) <$> add_months tbl i n 0.
Proof.
  revert i acc. induction n as [|n IH]; intros i acc; cbn [add_months].
  - cbn. f_equal. lia.
  - destruct (tbl !! i) as [d|]; [|done].
    rewrite (IH (S i) (acc + d)), (IH (S i) (0 + d)).
    destruct (add_months tbl (S i) n 0); cbn; [f_equal; lia | done].
Qed.

(** [_is_leap_year] is the rule of the calendar. *)
Lemma _is_leap_year_calendar (year : Z) :
  _is_leap_year year = leap_year_spec year.
Proof.
  unfold _is_leap_year, leap_year_spec.
  destruct (Z.eqb_spec (year mod 400) 0) as [H400|H400];
    destruct (Z.eqb_spec (year mod 100) 0) as [H100|H100];
    destruct (Z.eqb_spec (year mod 4) 0) as [H4|H4];
    cbn [andb orb negb]; try reflexivity;
    exfalso; Z.div_mod_to_equations; lia.
Qed.

Lemma days_before_month_loop (year month : Z) :
  2 <= month <= 13 ->
  add_months (days_in_month year) 1 (Z.to_nat (month - 1)) 0
  = Some (days_before_month_spec year month).
Proof.
  intros Hm.
  assert (month = 2 \/ month = 3 \/ month = 4 \/ month = 5 \/
          month = 6 \/ month = 7 \/ month = 8 \/ month = 9 \/
          month = 10 \/ month = 11 \/ month = 12 \/ month = 13)
    as Hcases by lia.
  unfold days_in_month, days_before_month_spec.
  rewrite <- (_is_leap_year_calendar year).
  destruct (_is_leap_year year);
    repeat (destruct Hcases as [->|Hcases]; [vm_compute; reflexivity|]);
    subst month; vm_compute; reflexivity.
Qed.

(** The loop over the month table computes the day number, and raises
    from month 14 on. *)
Lemma _day_of_year_spec (year month day : Z) :
  _day_of_year year month day
  = if month <=? 13 then Some (day_number_spec year month day) else None.
Proof.
  unfold _day_of_year. destruct (month <=? 13) eqn:Hm.
  - apply Z.leb_le in Hm. unfold day_number_spec.
    destruct (decide (month <= 1)) as [Hlow|Hhigh].
    + replace (Z.to_nat (month - 1)) with 0%nat by lia.
      unfold days_before_month_spec.
      apply Z.leb_le in Hlow. rewrite Hlow. cbn. f_equal. lia.
    + rewrite add_months_acc, days_before_month_loop by lia. reflexivity.
  - apply Z.leb_gt in Hm. apply add_months_overrun.
    assert (length (days_in_month year) = 13%nat) as ->
      by (unfold days_in_month; destruct (_is_leap_year year); reflexivity).
    lia.
Qed.


Lemma due_by_policy (p : Program) (days_since : Z) :
  (let recurrence := default "giornaliero" (recurrence p) in
   if String.eqb recurrence "giornaliero" then Some (1 <=? days_since)
   else if String.eqb recurrence "giorni_alterni"
   then Some (2 <=? days_since)
   else if String.eqb recurrence "personalizzata"
   then
     let interval_days := default 1 (interval_days p) in
     let interval_days :=
       if interval_days <=? 0 then 1 else interval_days in
     Some (interval_days <=? days_since)
   else Some false)
  = Some (due_spec (policy_of_spec p) days_since).
Proof.
  unfold policy_of_spec. cbv zeta.
  destruct (recurrence p) as [r|]; unfold default at 1;
    cbn [from_option id]; [|reflexivity].
  destruct (String.eqb r "giornaliero"); [reflexivity|].
  destruct (String.eqb r "giorni_alterni"); [reflexivity|].
  destruct (String.eqb r "personalizzata"); [|reflexivity].
  cbn [due_spec]. f_equal. f_equal.
  destruct (default 1 (interval_days p) <=? 0) eqn:E;
    [apply Z.leb_le in E | apply Z.leb_gt in E]; lia.
Qed.

(** The table of the days before a month adds up the months of the
    calendar. *)
Lemma days_before_month_next (year month : Z) :
  1 <= month <= 12 ->
  days_before_month_spec year (month + 1)
  = days_before_month_spec year month + month_length_spec year month.
Proof.
  intros Hm.
  assert (month = 1 \/ month = 2 \/ month = 3 \/ month = 4 \/
          month = 5 \/ month = 6 \/ month = 7 \/ month = 8 \/
          month = 9 \/ month = 10 \/ month = 11 \/ month = 12)
    as Hcases by lia.
  unfold days_before_month_spec, month_length_spec.
  destruct (leap_year_spec year);
    repeat (destruct Hcases as [->|Hcases]; [reflexivity|]);
    subst month; reflexivity.
Qed.







End ProgramClaims.

(** ** The executor *)

Section ExecutorFacts.

Import program_manager.

Variable env : nat -> State -> State.

Lemma quiet_no_update evs : Forall quiet_event evs -> Forall no_update evs.
Proof.
  intros Hq. eapply Forall_impl; [exact Hq|]. intros e. by destruct e.
Qed.

Lemma quiet_not_polled evs : Forall quiet_event evs -> ~ polled_false evs.
Proof.
  intros Hq [site Hin]. rewrite Forall_forall in Hq. by apply Hq in Hin.
Qed.

Lemma quiet_not_advanced evs : Forall quiet_event evs -> ~ advanced evs.
Proof.
  intros Hq (pid & date & Hin). rewrite Forall_forall in Hq.
  by apply Hq in Hin.
Qed.

Lemma quiet_step_polls evs : Forall quiet_event evs -> step_polls evs = 0%nat.
Proof.
  induction 1 as [|e evs He _ IH]; [done|]. by destruct e.
Qed.

Lemma step_polls_app a b :
  step_polls (a ++ b) = (step_polls a + step_polls b)%nat.
Proof.
  induction a as [|e a IH]; [done|].
  destruct e as [| |[] ?|]; cbn; rewrite ?IH; done.
Qed.

Lemma polled_false_app a b :
  polled_false (a ++ b) <-> polled_false a \/ polled_false b.
Proof.
  split.
  - intros (site & [H|H]%elem_of_app); [left|right]; by exists site.
  - intros [[site H]|[site H]]; exists site; apply elem_of_app; auto.
Qed.

Lemma advanced_app a b : advanced (a ++ b) <-> advanced a \/ advanced b.
Proof.
  split.
  - intros (pid & date & [H|H]%elem_of_app); [left|right];
      by exists pid, date.
  - intros [(pid & date & H)|(pid & date & H)]; exists pid, date;
      apply elem_of_app; auto.
Qed.

Lemma no_update_not_advanced evs : Forall no_update evs -> ~ advanced evs.
Proof.
  intros Hq (pid & date & Hin). rewrite Forall_forall in Hq.
  by apply Hq in Hin.
Qed.

(** A step of the store or of the zones, inside a run. *)
Lemma quiet_run_rel s s' :
  quiet_step s s' ->
  exists evs, run_rel env s s' evs /\ Forall quiet_event evs /\
              pm s' = pm s /\ today s' = today s.
Proof.
  intros (_ & Hpm & Hprog & Htoday & _ & _ & _ & _ & _ & evs & Hlog & Hq).
  exists evs. split; [|done].
  split; [done|]. split; [by apply quiet_no_update|].
  split; [intros Hp; by apply quiet_not_polled in Hp|].
  split; [by rewrite Hpm | done].
Qed.

Lemma run_rel_refl s : run_rel env s s [].
Proof.
  split; [by rewrite app_nil_r|]. split; [constructor|].
  split; [intros [? Hin]; by apply elem_of_nil in Hin|]. done.
Qed.

Lemma run_rel_trans s1 s2 s3 e1 e2 :
  run_rel env s1 s2 e1 -> run_rel env s2 s3 e2 ->
  run_rel env s1 s3 (e1 ++ e2).
Proof.
  intros (L1 & U1 & P1 & F1 & K1) (L2 & U2 & P2 & F2 & K2).
  split; [by rewrite L2, L1, app_assoc|].
  split; [by apply Forall_app|].
  split; [|split; [auto|]].
  - intros [H|H]%polled_false_app; auto.
  - intros Hk. rewrite K2, K1; done.
Qed.

Lemma sleep_log s : log (sleep env s) = log s.
Proof. reflexivity. Qed.

Lemma sleep_programs s :
  keeps_programs env -> programs (sleep env s) = programs s.
Proof. intros Hk. unfold sleep. cbn. apply Hk. Qed.

(** A reload and a test of [program_running]. *)
Lemma poll_spec site s :
  exists q,
    Forall quiet_event q /\
    log (poll site s).2 = log s ++ q ++ [EvPoll site (poll site s).1] /\
    (poll site s).1 = pm_program_running (pm (poll site s).2) /\
    pm (poll site s).2 = pm s /\
    programs (poll site s).2 = programs s.
Proof.
  unfold poll. cbn [fst snd].
  destruct (load_quiet s)
    as (_ & Hpm & Hprog & _ & _ & _ & _ & _ & _ & q & Hlog & Hq).
  exists q. split; [done|]. proj. rewrite Hlog, Hpm, Hprog.
  split; [by rewrite app_assoc | done].
Qed.

(** A reload and a test, as one step of a run that was running. *)
Lemma poll_run_rel site s s0 :
  (pm_program_running (pm s) = false ->
   pm_program_running (pm s0) = false) ->
  log s0 = log s -> (keeps_programs env -> programs s0 = programs s) ->
  exists evs,
    run_rel env s (poll site s0).2 evs /\
    (poll site s0).1 = pm_program_running (pm (poll site s0).2) /\
    step_polls evs = (match site with AtStep => 1 | InWait => 0 end)%nat /\
    pm (poll site s0).2 = pm s0.
Proof.
  intros Hoff Hlog0 Hprog0.
  destruct (poll_spec site s0) as (q & Hq & Hlog & Hr & Hpm & Hprog).
  exists (q ++ [EvPoll site (poll site s0).1]).
  split; [|split; [done|split; [|done]]].
  - split; [by rewrite Hlog, Hlog0|].
    split; [apply Forall_app; split;
            [by apply quiet_no_update | by repeat constructor]|].
    split; [|split].
    + intros [Hp|Hp]%polled_false_app; [by apply quiet_not_polled in Hp|].
      destruct Hp as [site' Hin]. apply list_elem_of_singleton in Hin.
      injection Hin as _ Hfalse. by rewrite <- Hr.
    + intros Hfalse. rewrite Hpm. by apply Hoff.
    + intros Hk. rewrite Hprog. by apply Hprog0.
  - rewrite step_polls_app, quiet_step_polls by done.
    by destruct site.
Qed.

(** The interruptible wait never runs out of fuel. *)
Lemma wait_loop_spec fuel remaining s :
  (Z.to_nat remaining <= fuel)%nat ->
  exists s' evs,
    wait_loop env fuel remaining s = Some s' /\
    run_rel env s s' evs /\ step_polls evs = 0%nat.
Proof.
  revert remaining s.
  induction fuel as [|fuel IH]; intros remaining s Hfuel; cbn [wait_loop];
    destruct ((0 <? remaining) && pm_program_running (pm s)) eqn:Hc;
    try (exists s, []; split; [done|]; split; [apply run_rel_refl|done]).
  - apply andb_true_iff in Hc as [Hpos _]. apply Z.ltb_lt in Hpos. lia.
  - apply andb_true_iff in Hc as [Hpos Hrun]. apply Z.ltb_lt in Hpos.
    destruct (poll_run_rel InWait s (sleep env s))
      as (e1 & R1 & Hr & Hsp & _).
    { intros Hoff. congruence. }
    { apply sleep_log. }
    { apply sleep_programs. }
    destruct (poll InWait (sleep env s)) as [running s1].
    cbn [fst snd] in *. destruct running; cbn [negb].
    + destruct (IH (remaining - Z.min 10 remaining) s1)
        as (s' & e2 & Hw & R2 & Hsp2); [lia|].
      exists s', (e1 ++ e2). split; [done|].
      split; [by eapply run_rel_trans|].
      by rewrite step_polls_app, Hsp, Hsp2.
    + exists s1, e1. done.
Qed.

Lemma wait_spec seconds s :
  exists s' evs,
    wait env seconds s = Some s' /\
    run_rel env s s' evs /\ step_polls evs = 0%nat.
Proof. by apply wait_loop_spec. Qed.

(** The loop over the steps: it always returns; once a test has found
    [program_running] False it leaves with it False; and if it leaves
    with it True, the head of every step was reached. *)
Lemma run_steps_spec delay steps s :
  exists s' evs,
    run_steps env delay steps s = Some s' /\
    run_rel env s s' evs /\
    (pm_program_running (pm s') = true ->
     step_polls evs = length steps).
Proof.
  revert s. induction steps as [|step rest IH]; intros s.
  { exists s, []. split; [done|]. split; [apply run_rel_refl|done]. }
  cbn [run_steps].
  destruct (poll_run_rel AtStep s s) as (e0 & R0 & Hr & Hsp0 & Hpm0);
    [done|done|done|].
  destruct (poll AtStep s) as [running s0]. cbn [fst snd] in *.
  destruct running; cbn [negb].
  2: { exists s0, e0. split; [done|]. split; [done|]. congruence. }
  assert (forall s1 e1,
             run_rel env s0 s1 e1 -> step_polls e1 = 0%nat ->
             exists s' evs,
               run_steps env delay rest s1 = Some s' /\
               run_rel env s s' evs /\
               (pm_program_running (pm s') = true ->
                step_polls evs = S (length rest))) as Hcont.
  { intros s1 e1 R1 Hsp1.
    destruct (IH s1) as (s' & e2 & Hrun & R2 & Hcount).
    exists s', (e0 ++ e1 ++ e2). split; [done|].
    split; [eapply run_rel_trans; [exact R0|by eapply run_rel_trans]|].
    intros Hon. rewrite !step_polls_app, Hsp0, Hsp1, Hcount by done.
    done. }
  destruct (zone_id step) as [z|];
    [|apply (Hcont s0 []); [apply run_rel_refl|done]].
  pose proof (start_zone_quiet z (step_duration step) s0) as Hstart.
  destruct (zone_manager.start_zone z (step_duration step) s0)
    as [result s1].
  cbn [snd] in Hstart.
  destruct (quiet_run_rel _ _ Hstart) as (e1 & R1 & Q1 & _).
  apply quiet_step_polls in Q1.
  destruct result; cbn [negb]; [|by apply (Hcont s1 e1)].
  destruct (wait_spec (step_duration step * 60) s1)
    as (s2 & e2 & Hw & R2 & Hsp2).
  rewrite Hw.
  pose proof (run_rel_trans _ _ _ _ _ R1 R2) as R12.
  destruct (pm_program_running (pm s2)) eqn:Hrun2; cbn [negb].
  2: { exists s2, (e0 ++ e1 ++ e2). split; [done|].
       split; [by eapply run_rel_trans|]. congruence. }
  destruct (stop_zone_stops (fun _ => True) z s2) as [Hstop _]; [done|].
  set (s3 := (zone_manager.stop_zone z s2).2) in *.
  destruct (quiet_run_rel _ _ Hstop) as (e3 & R3 & Q3 & _).
  apply quiet_step_polls in Q3.
  pose proof (run_rel_trans _ _ _ _ _ R12 R3) as R123.
  destruct ((0 <? delay) && negb (bool_decide (rest = []))).
  - destruct (wait_spec delay s3) as (s4 & e4 & Hw4 & R4 & Hsp4).
    rewrite Hw4. apply (Hcont s4 ((e1 ++ e2) ++ e3 ++ e4)).
    + rewrite app_assoc. by eapply run_rel_trans.
    + by rewrite !step_polls_app, Q1, Hsp2, Q3, Hsp4.
  - apply (Hcont s3 ((e1 ++ e2) ++ e3)); [done|].
    by rewrite !step_polls_app, Q1, Hsp2, Q3.
Qed.

(** *** Before the steps and after them *)

Lemma pre_rel_refl s : pre_rel env s s.
Proof. exists []. split; [by rewrite app_nil_r|]. split; [constructor|done]. Qed.

Lemma pre_rel_trans s1 s2 s3 :
  pre_rel env s1 s2 -> pre_rel env s2 s3 -> pre_rel env s1 s3.
Proof.
  intros (e1 & L1 & Q1 & K1) (e2 & L2 & Q2 & K2). exists (e1 ++ e2).
  split; [by rewrite L2, L1, app_assoc|].
  split; [by apply Forall_app|].
  intros Hk. by rewrite K2, K1.
Qed.

Lemma quiet_pre_rel s s' : quiet_step s s' -> pre_rel env s s'.
Proof.
  intros (_ & _ & Hprog & _ & _ & _ & _ & _ & _ & evs & Hlog & Hq).
  by exists evs.
Qed.

Lemma sleep_pre_rel s : pre_rel env s (sleep env s).
Proof.
  exists []. split; [by rewrite app_nil_r|]. split; [constructor|].
  apply sleep_programs.
Qed.

Lemma set_state_pre_rel r i s : pre_rel env s (set_state r i s).
Proof.
  exists []. split; [by rewrite app_nil_r|]. split; [constructor|done].
Qed.

Lemma claim_retry_pre_rel n program_id s :
  pre_rel env s (claim_retry env n program_id s).
Proof.
  revert s. induction n as [|n IH]; intros s; cbn [claim_retry].
  { apply pre_rel_refl. }
  pose proof (quiet_pre_rel _ _ (load_quiet s)) as H0.
  set (s0 := program_state.load_program_state s) in *.
  destruct (_ && _); [exact H0|].
  eapply pre_rel_trans; [exact H0|].
  eapply pre_rel_trans; [apply set_state_pre_rel|].
  eapply pre_rel_trans; [apply quiet_pre_rel, save_quiet|].
  eapply pre_rel_trans; [apply sleep_pre_rel|]. apply IH.
Qed.

(** The [finally] block: the save comes first and records the zones that
    are energized when the run ends; the pin writes follow. *)
Lemma cleanup_spec s :
  exists evs,
    log (cleanup s)
    = log s ++ EvSave (ps_program_running (ps s))
                      (ps_current_program_id (ps s))
                      (energized_zones s) :: evs /\
    Forall quiet_event evs /\
    programs (cleanup s) = programs s /\ today (cleanup s) = today s.
Proof.
  unfold cleanup.
  set (s1 := program_state.save_program_state (set_state false None s)).
  assert (log s1 = log s ++ [EvSave (ps_program_running (ps s))
                                    (ps_current_program_id (ps s))
                                    (energized_zones s)]) as Hlog1
    by (subst s1; rewrite save_log; reflexivity).
  destruct (save_quiet (set_state false None s))
    as (_ & _ & Hprog1 & Htoday1 & _).
  fold s1 in Hprog1, Htoday1.
  destruct (stop_all_zones_stops s1)
    as ((_ & _ & Hprog2 & Htoday2 & _ & _ & _ & _ & _ & evs & Hlog2 & Hq) & _).
  exists evs. rewrite Hlog2, Hlog1, <- app_assoc.
  split; [done|]. split; [done|].
  rewrite Hprog2, Hprog1, Htoday2, Htoday1. done.
Qed.

Lemma update_last_run_date_entries program_id s pid p :
  has_program program_id s = true ->
  (pid, p) ∈ programs (update_last_run_date program_id s) ->
  pid = program_id ->
  last_run_date p = Some (_get_formatted_date s).
Proof.
  intros Hhas Hin ->. unfold update_last_run_date in Hin.
  rewrite Hhas in Hin. proj.
  apply list_elem_of_fmap in Hin as ([k v] & Heq & _).
  cbn [fst snd] in Heq. destruct (String.eqb k program_id) eqn:E.
  - injection Heq as _ ->. reflexivity.
  - injection Heq as -> _. by rewrite String.eqb_refl in E.
Qed.

Lemma new_events_app s s' evs :
  log s' = log s ++ evs -> new_events s s' = evs.
Proof. intros H. unfold new_events. rewrite H. apply drop_app_length. Qed.

Lemma formatted_date_today s s' :
  today s' = today s -> _get_formatted_date s' = _get_formatted_date s.
Proof. unfold _get_formatted_date. by intros ->. Qed.

(** A return before the first step: nothing polled, nothing advanced. *)
Lemma early_return (program : Program) s s' :
  pre_rel env s s' ->
  (polled_false (new_events s s') ->
   false = false /\ ~ advanced (new_events s s') /\
   (keeps_programs env -> programs s' = programs s)) /\
  (advanced (new_events s s') ->
   false = true /\ ~ polled_false (new_events s s') /\
   step_polls (new_events s s') = length (steps program) /\
   EvLastRun (prog_id program) (_get_formatted_date s')
     ∈ new_events s s' /\
   forall pid p, (pid, p) ∈ programs s' -> pid = prog_id program ->
                 last_run_date p = Some (_get_formatted_date s')).
Proof.
  intros (evs & Hlog & Hq & Hk). rewrite (new_events_app _ _ _ Hlog).
  split; intros H; exfalso.
  - by apply quiet_not_polled in H.
  - by apply quiet_not_advanced in H.
Qed.

(** Interruption and the last run date.  [execute_program] always
    returns.  If any test of [program_running], at the head of a step or
    after a sleep of a wait, found it False, the call returns False and
    writes no last run date: the program file is as the other tasks left
    it.  If a last run date is written, then no test found
    [program_running] False, the head of every step of the program was
    reached, the call returns True, and the date written for the program
    is the current date. *)
Theorem execute_program_last_run_date
    (program : Program) (manual : bool) (s : State) :
  exists r s',
    execute_program env program manual s = Some (r, s') /\
    (polled_false (new_events s s') ->
     r = false /\ ~ advanced (new_events s s') /\
     (keeps_programs env -> programs s' = programs s)) /\
    (advanced (new_events s s') ->
     r = true /\ ~ polled_false (new_events s s') /\
     step_polls (new_events s s') = length (steps program) /\
     EvLastRun (prog_id program) (_get_formatted_date s')
       ∈ new_events s s' /\
     forall pid p, (pid, p) ∈ programs s' -> pid = prog_id program ->
                   last_run_date p = Some (_get_formatted_date s')).
Proof.
  unfold execute_program.
  pose proof (quiet_pre_rel _ _ (load_quiet s)) as H0.
  set (s0 := program_state.load_program_state s) in *.
  destruct (pm_program_running (pm s0)).
  { exists false, s0. split; [done|]. by apply early_return. }
  set (s1 := if 0 <? zone_manager.get_active_zones_count s0
             then sleep env (zone_manager.stop_all_zones s0).2 else s0).
  assert (pre_rel env s s1) as H1.
  { subst s1. destruct (0 <? _); [|done].
    eapply pre_rel_trans; [exact H0|].
    eapply pre_rel_trans; [|apply sleep_pre_rel].
    apply quiet_pre_rel, stop_all_zones_stops. }
  pose proof (stop_all_zones_stops s1) as [H2 _].
  destruct (zone_manager.stop_all_zones s1) as [stopped s2].
  cbn [snd] in H2. apply quiet_pre_rel in H2.
  pose proof (pre_rel_trans _ _ _ H1 H2) as H12.
  destruct stopped; cbn [negb].
  2: { exists false, s2. split; [done|]. by apply early_return. }
  set (s4 := claim_retry env 3 (prog_id program) _).
  assert (pre_rel env s s4) as (epre & Lpre & Qpre & Kpre).
  { eapply pre_rel_trans; [exact H12|].
    eapply pre_rel_trans; [apply set_state_pre_rel|].
    eapply pre_rel_trans; [apply quiet_pre_rel, save_quiet|].
    apply claim_retry_pre_rel. }
  destruct (run_steps_spec (activation_delay (settings s4))
                           (steps program) s4)
    as (s5 & e5 & Hrun & (L5 & U5 & P5 & _ & K5) & Hcount).
  rewrite Hrun.
  destruct (pm_program_running (pm s5)) eqn:Hon.
  - unfold update_last_run_date.
    destruct (has_program (prog_id program) s5) eqn:Hhas.
    + set (date := _get_formatted_date s5).
      set (s6 := emit (EvLastRun (prog_id program) date) _).
      destruct (cleanup_spec s6) as (ec & Lc & Qc & Kc & Tc).
      exists true, (cleanup s6). split; [done|].
      assert (log (cleanup s6)
              = log s ++ epre ++ e5 ++ [EvLastRun (prog_id program) date]
                  ++ EvSave (ps_program_running (ps s6))
                            (ps_current_program_id (ps s6))
                            (energized_zones s6) :: ec) as Hlog.
      { rewrite Lc. subst s6. proj. rewrite L5, Lpre.
        by rewrite <- !app_assoc. }
      rewrite (new_events_app _ _ _ Hlog).
      assert (Forall quiet_event
                (EvSave (ps_program_running (ps s6))
                        (ps_current_program_id (ps s6))
                        (energized_zones s6) :: ec)) as Qc'
        by (by constructor).
      assert (~ polled_false
                (epre ++ e5 ++ [EvLastRun (prog_id program) date]
                   ++ EvSave (ps_program_running (ps s6))
                             (ps_current_program_id (ps s6))
                             (energized_zones s6) :: ec)) as Hnp.
      { intros [Hp|[Hp|[Hp|Hp]%polled_false_app]%polled_false_app]
                 %polled_false_app.
        - by apply quiet_not_polled in Hp.
        - apply P5 in Hp. congruence.
        - destruct Hp as [site Hin].
          by apply list_elem_of_singleton in Hin.
        - by apply quiet_not_polled in Hp. }
      assert (_get_formatted_date (cleanup s6) = date) as Hdate
        by (by apply formatted_date_today).
      split; [intros Hp; by apply Hnp in Hp|]. intros _.
      split; [done|]. split; [done|]. split; [|split].
      * rewrite !step_polls_app, Hcount by done.
        rewrite (quiet_step_polls _ Qpre), (quiet_step_polls _ Qc').
        cbn. lia.
      * rewrite Hdate, !elem_of_app. right. right. left.
        apply list_elem_of_here.
      * intros pid p Hin Hpid. rewrite Hdate. rewrite Kc in Hin.
        eapply (update_last_run_date_entries (prog_id program) s5);
          [exact Hhas| |exact Hpid].
        unfold update_last_run_date. rewrite Hhas. exact Hin.
    + destruct (cleanup_spec s5) as (ec & Lc & Qc & Kc & Tc).
      exists true, (cleanup s5). split; [done|].
      assert (log (cleanup s5)
              = log s ++ epre ++ e5
                  ++ EvSave (ps_program_running (ps s5))
                            (ps_current_program_id (ps s5))
                            (energized_zones s5) :: ec) as Hlog.
      { rewrite Lc, L5, Lpre. by rewrite <- !app_assoc. }
      rewrite (new_events_app _ _ _ Hlog).
      assert (Forall quiet_event
                (EvSave (ps_program_running (ps s5))
                        (ps_current_program_id (ps s5))
                        (energized_zones s5) :: ec)) as Qc'
        by (by constructor).
      split.
      * intros [Hp|[Hp|Hp]%polled_false_app]%polled_false_app; exfalso.
        -- by apply quiet_not_polled in Hp.
        -- apply P5 in Hp. congruence.
        -- by apply quiet_not_polled in Hp.
      * intros [Ha|[Ha|Ha]%advanced_app]%advanced_app; exfalso.
        -- by apply quiet_not_advanced in Ha.
        -- by apply no_update_not_advanced in Ha.
        -- by apply quiet_not_advanced in Ha.
  - destruct (cleanup_spec s5) as (ec & Lc & Qc & Kc & Tc).
    exists false, (cleanup s5). split; [done|].
    assert (log (cleanup s5)
            = log s ++ epre ++ e5
                ++ EvSave (ps_program_running (ps s5))
                          (ps_current_program_id (ps s5))
                          (energized_zones s5) :: ec) as Hlog.
    { rewrite Lc, L5, Lpre. by rewrite <- !app_assoc. }
    rewrite (new_events_app _ _ _ Hlog).
    assert (Forall quiet_event
              (EvSave (ps_program_running (ps s5))
                      (ps_current_program_id (ps s5))
                      (energized_zones s5) :: ec)) as Qc'
      by (by constructor).
    assert (~ advanced
              (epre ++ e5
                 ++ EvSave (ps_program_running (ps s5))
                           (ps_current_program_id (ps s5))
                           (energized_zones s5) :: ec)) as Hna.
    { intros [Ha|[Ha|Ha]%advanced_app]%advanced_app.
      - by apply quiet_not_advanced in Ha.
      - by apply no_update_not_advanced in Ha.
      - by apply quiet_not_advanced in Ha. }
    split; [|intros Ha; by apply Hna in Ha].
    intros _. split; [done|]. split; [done|].
    intros Hk. rewrite Kc, K5, Kpre; done.
Qed.

End ExecutorFacts.

(** ** Claims on the executor *)

Section ExecutorClaims.

Import program_manager.

(** C2.  Program "1" runs its only step on zone 0; the write that
    releases zone 0 at the end of the step raises.  In the cleanup the
    state file is written as not running while zone 0 is still energized
    (the save records [0]); only after that does [stop_all_zones] release
    pin 5 and the relay. *)
Theorem cleanup_saves_before_stopping :
  match execute_program quiet one_step false stop_fault with
  | Some (r, s') =>
      r = true /\
      new_events stop_fault s'
      = [EvSave false None []; EvPoll AtStep true;
         EvPin 4 0 true; EvPin 5 0 true;
         EvPoll InWait true; EvPoll InWait true; EvPoll InWait true;
         EvPoll InWait true; EvPoll InWait true; EvPoll InWait true;
         EvPin 5 1 false; EvLastRun "1" "2024-06-15";
         EvSave false None [0];
         EvPin 5 1 true; EvPin 4 1 true; EvPin 4 1 true] /\
      disk s' = FileDict (JBool false) None
  | None => False
  end.
Proof. vm_compute. repeat split. Qed.

(** A run that [stop_program] interrupts during its third await: a poll
    finds [program_running] False, so the run returns False and writes no
    last run date. *)
Lemma execute_program_last_run_date_witness :
  exists r s',
    execute_program (interrupt_at 2) one_step false bench = Some (r, s') /\
    polled_false (new_events bench s') /\
    r = false /\ ~ advanced (new_events bench s').
Proof.
  destruct (execute_program_last_run_date (interrupt_at 2) one_step false
              bench) as (r & s' & Heq & Hstop & _).
  exists r, s'. split; [exact Heq|].
  assert (polled_false (new_events bench s')) as Hpoll.
  { vm_compute in Heq. injection Heq as _ <-.
    exists InWait. vm_compute.
    do 6 apply list_elem_of_further. apply list_elem_of_here. }
  split; [exact Hpoll|].
  destruct (Hstop Hpoll) as (Hfalse & Hnone & _). split; assumption.
Defined.

(** C5.  The only step of program "1" names zone 7, which is not
    configured: [start_zone] refuses, the loop goes on to the end, and
    since [program_running] is still True the run returns True and writes
    today as the last run date, with no pin written and no zone run.  The
    same happens to the program on zone 0 when every pin write raises: the
    relay cannot be energized, the step is skipped, and the date is
    written. *)
Theorem execute_program_advances_after_skipped_step :
  zone_pins (zm bench_unknown_zone) !! 7 = None /\
  match execute_program quiet unknown_zone_step false bench_unknown_zone with
  | Some (r, s') =>
      r = true /\
      new_events bench_unknown_zone s'
      = [EvSave false None []; EvPoll AtStep true;
         EvLastRun "1" "2024-06-15"; EvSave false None []] /\
      hw s' = hw bench_unknown_zone /\
      (last_run_date <$> (snd <$> programs s')) = [Some "2024-06-15"]
  | None => False
  end /\
  match execute_program quiet one_step false dead_hardware with
  | Some (r, s') =>
      r = true /\
      new_events dead_hardware s'
      = [EvSave false None []; EvPoll AtStep true; EvPin 4 0 false;
         EvLastRun "1" "2024-06-15"; EvSave false None []] /\
      levels (hw s') = levels (hw dead_hardware) /\
      (last_run_date <$> (snd <$> programs s')) = [Some "2024-06-15"]
  | None => False
  end.
Proof. vm_compute. repeat split. Qed.

(** The sibling path: [stop_program], called while zone 0 is energized,
    releases pin 5 and the relay first and writes the state file last,
    with no zone energized. *)
Lemma stop_program_stops_first :
  energized_zones mid_step = [0] /\
  (stop_program mid_step).1 = true /\
  new_events mid_step (stop_program mid_step).2
  = [EvPin 5 1 true; EvPin 4 1 true; EvPin 4 1 true;
     EvSave false None []].
Proof. vm_compute. repeat split. Qed.

(** A run that [stop_program] interrupts during its third await returns
    False and leaves the last run date unset; a run that nothing
    interrupts returns True and sets it to the current date. *)
Lemma execute_program_examples :
  match execute_program (interrupt_at 2) one_step false bench with
  | Some (r, s') =>
      r = false /\ programs s' = programs bench /\
      EvPoll InWait false ∈ new_events bench s'
  | None => False
  end /\
  match execute_program quiet one_step false bench with
  | Some (r, s') =>
      r = true /\
      (last_run_date <$> (snd <$> programs s')) = [Some "2024-06-15"]
  | None => False
  end.
Proof.
  split.
  - vm_compute. split; [reflexivity|]. split; [reflexivity|].
    do 4 apply list_elem_of_further. apply list_elem_of_further.
    apply list_elem_of_further. apply list_elem_of_here.
  - vm_compute. split; reflexivity.
Qed.

End ExecutorClaims.

(** ** More on the run-state store *)

Section StoreExtras.

Import program_state.

Ltac store_proj :=
  unfold set_running, set_id, set_last_saved; proj;
  cbn [ps_program_running ps_current_program_id ps_last_saved_state] in *.

(** What a load makes of a file that holds an object. *)
Lemma load_dict (s : State) (r : json) (i : option string) :
  disk s = FileDict r i ->
  ps_program_running (ps (load_program_state s))
  = (match r with
     | JNull => ps_program_running (ps s)
     | _ => truthy r || ps_program_running (ps s)
     end) /\
  ps_current_program_id (ps (load_program_state s))
  = (match i with
     | Some _ => i
     | None => if truthy r then ps_current_program_id (ps s) else None
     end) /\
  disk (load_program_state s)
  = (match r with
     | JNull => FileDict r i
     | _ => if negb (truthy r) && ps_program_running (ps s)
            then FileDict (JBool true) (ps_current_program_id (ps s))
            else FileDict r i
     end).
Proof.
  intros Hdisk.
  pose proof (save_disk s) as Hsd. pose proof (save_ps s) as [Hsr Hsi].
  unfold load_program_state. rewrite Hdisk.
  destruct r as [|b|n|str]; cbn [truthy];
    [ | destruct b | destruct (n =? 0) | destruct (String.eqb str "") ];
    cbn [negb andb orb];
    destruct (ps_program_running (ps s)) eqn:Hrun;
    destruct i; store_proj;
    cbn [negb andb orb]; rewrite ?Hsr, ?Hsi, ?Hsd, ?Hrun, ?Hdisk; done.
Qed.

(** X1.  What [save_program_state] writes is what [load_program_state]
    reads back: a load right after a save leaves [program_running],
    [current_program_id] and the file as they were saved. *)
Theorem save_load_round_trip (s : State) :
  ps_program_running (ps (load_program_state (save_program_state s)))
  = ps_program_running (ps s) /\
  ps_current_program_id (ps (load_program_state (save_program_state s)))
  = ps_current_program_id (ps s) /\
  disk (load_program_state (save_program_state s))
  = FileDict (JBool (ps_program_running (ps s)))
             (ps_current_program_id (ps s)).
Proof.
  destruct (load_dict _ _ _ (save_disk s)) as (Hr & Hi & Hd).
  destruct (save_ps s) as [Hsr Hsi].
  rewrite Hr, Hi, Hd, Hsr, Hsi. cbn [truthy].
  destruct (ps_program_running (ps s)), (ps_current_program_id (ps s)); done.
Qed.

(** X2.  A load never clears [program_running]: whatever the file is
    (missing, unreadable, saying false), a state that is running in memory
    is still running after the load. *)
Theorem load_keeps_running (s : State) :
  ps_program_running (ps s) = true ->
  ps_program_running (ps (load_program_state s)) = true.
Proof.
  intros Hrun. destruct (disk s) as [| |r i] eqn:Hdisk.
  1,2: unfold load_program_state; rewrite Hdisk, Hrun;
       by rewrite (proj1 (save_ps s)).
  destruct (load_dict s r i Hdisk) as (Hr & _). rewrite Hr, Hrun.
  destruct r; [done|apply orb_true_r..].
Qed.

Lemma load_keeps_running_witness :
  ps_program_running (ps running_in_memory) = true /\
  ps_program_running (ps (load_program_state running_in_memory)) = true.
Proof.
  split; [reflexivity | apply (load_keeps_running running_in_memory)].
  reflexivity.
Defined.

(** X3.  With the file missing or unreadable, a load writes a new file
    from memory: an idle memory is reset to no id, a running memory is kept
    as it is, and afterwards the file holds exactly what memory holds. *)
Theorem load_without_file (s : State) :
  disk s = FileMissing \/ disk s = FileCorrupt ->
  ps_program_running (ps (load_program_state s)) = ps_program_running (ps s)
  /\ ps_current_program_id (ps (load_program_state s))
     = (if ps_program_running (ps s) then ps_current_program_id (ps s)
        else None)
  /\ disk (load_program_state s)
     = FileDict (JBool (ps_program_running (ps (load_program_state s))))
                (ps_current_program_id (ps (load_program_state s))).
Proof.
  intros Hdisk.
  assert (load_program_state s
          = save_program_state
              (if ps_program_running (ps s) then s
               else set_id None (set_running false s))) as ->.
  { unfold load_program_state. by destruct Hdisk as [-> | ->]. }
  set (s0 := if ps_program_running (ps s) then s else _).
  rewrite save_disk. destruct (save_ps s0) as [-> ->].
  subst s0. by destruct (ps_program_running (ps s)) eqn:Hrun.
Qed.

Lemma load_without_file_witness :
  disk (with_disk FileMissing owned_by_program) = FileMissing /\
  disk (load_program_state (with_disk FileMissing owned_by_program))
  = FileDict (JBool true) (Some "1").
Proof.
  split; [reflexivity|].
  destruct (load_without_file (with_disk FileMissing owned_by_program))
    as (_ & _ & Hd); [left; reflexivity|].
  rewrite Hd. reflexivity.
Defined.

(** X4.  The id that a load drops when memory is running and the file says
    not running is back after the next load: the first load has rewritten
    the file from memory, and the second reads the id from it. *)
Theorem second_load_restores_id
    (s : State) (r : json) (i : option string) (id : string) :
  ps_program_running (ps s) = true ->
  ps_current_program_id (ps s) = Some id ->
  disk s = FileDict r i -> r <> JNull -> truthy r = false ->
  ps_program_running (ps (load_program_state (load_program_state s))) = true
  /\ ps_current_program_id (ps (load_program_state (load_program_state s)))
     = Some id
  /\ disk (load_program_state (load_program_state s))
     = FileDict (JBool true) (Some id).
Proof.
  intros Hrun Hid Hdisk Hnull Hfalse.
  destruct (load_regression_general s r i Hrun Hdisk Hnull Hfalse)
    as (Hr1 & Hd1 & _).
  rewrite Hid in Hd1.
  destruct (load_dict _ _ _ Hd1) as (Hr2 & Hi2 & Hd2).
  rewrite Hr2, Hi2, Hd2. done.
Qed.

Lemma second_load_restores_id_witness :
  ps_current_program_id (ps (load_program_state running_in_memory)) = None /\
  ps_current_program_id
    (ps (load_program_state (load_program_state running_in_memory)))
  = Some "3".
Proof.
  split; [reflexivity|].
  apply (second_load_restores_id running_in_memory (JBool false) None "3");
    (reflexivity || discriminate).
Defined.

(** X5.  [verify_save] leaves a file that agrees with the last saved
    state, whatever the file was: a missing or unreadable file or one with
    other values is rewritten, a file that agrees is left alone. *)
Theorem verify_save_repairs
    (s : State) (r : bool) (i : option string) :
  ps_last_saved_state (ps s) = Some (r, i) ->
  (exists r', disk (verify_save s) = FileDict r' i /\
              json_is_bool r' r = true) /\
  (forall r', disk s = FileDict r' i -> json_is_bool r' r = true ->
              verify_save s = s).
Proof.
  intros Hsaved. unfold verify_save. rewrite Hsaved. split.
  - destruct (disk s) as [| |r' i'] eqn:Hdisk;
      try (exists (JBool r); split; [reflexivity | apply Bool.eqb_reflx]).
    destruct (negb (json_is_bool r' r) || negb (id_eqb i' i)) eqn:Hbad.
    + exists (JBool r). split; [reflexivity | apply Bool.eqb_reflx].
    + apply orb_false_iff in Hbad as [Hr Hi].
      apply negb_false_iff in Hr, Hi. apply bool_decide_eq_true in Hi.
      subst i'. exists r'. by rewrite Hdisk.
  - intros r' Hdisk Hok. rewrite Hdisk, Hok. unfold id_eqb.
    by rewrite bool_decide_true.
Qed.

Lemma verify_save_repairs_witness :
  exists r',
    disk (verify_save
            (set_last_saved (Some (true, Some "1"))
                            (with_disk FileCorrupt bench)))
    = FileDict r' (Some "1") /\ json_is_bool r' true = true.
Proof.
  apply (verify_save_repairs
           (set_last_saved (Some (true, Some "1"))
                           (with_disk FileCorrupt bench))
           true (Some "1")).
  reflexivity.
Defined.

End StoreExtras.

(** ** More on the zone controller *)

Section ZoneExtras.

Import zone_manager.

Lemma releases_refl s : releases s s.
Proof. intros q. by left. Qed.

Lemma releases_trans s1 s2 s3 :
  releases s1 s2 -> releases s2 s3 -> releases s1 s3.
Proof.
  intros H12 H23 q. destruct (H23 q) as [->|H]; [apply H12 | by right].
Qed.

Lemma releases_same_hw s s' : hw s' = hw s -> releases s s'.
Proof. intros H q. left. by rewrite H. Qed.

Lemma pin_release_releases p s ok s' :
  pin_write p 1 s = (ok, s') -> releases s s'.
Proof.
  intros E q. apply pin_write_inv in E as (_ & _ & _ & _ & _ & Hl & _).
  rewrite Hl. destruct ok; [|by left].
  destruct (decide (p = q)) as [->|Hne].
  - right. apply lookup_insert_eq.
  - left. by apply lookup_insert_ne.
Qed.

(** Once released, an output stays released through steps that only
    release. *)
Lemma releases_keeps s s' q :
  releases s s' -> levels (hw s) !! q = Some 1 ->
  levels (hw s') !! q = Some 1.
Proof. intros H Hq. destruct (H q) as [->|]; done. Qed.

(** What a call of [stop_zone] that returns True has done. *)
Lemma stop_zone_true z s :
  (stop_zone z s).1 = true ->
  exists pin,
    zone_pins (zm s) !! z = Some pin /\
    levels (hw (stop_zone z s).2) !! pin = Some 1 /\
    active_zones (zm (stop_zone z s).2) = delete z (active_zones (zm s)) /\
    (forall zd, active_zones (zm s) !! z = Some zd ->
                task zd <> current_task (tasks s) ->
                task zd ∈ cancelled (tasks (stop_zone z s).2)) /\
    (forall relay,
        safety_relay (zm s) = Some relay ->
        is_Some (active_zones (zm s) !! z) ->
        size (active_zones (zm s)) = 1%nat ->
        levels (hw (stop_zone z s).2) !! relay = Some 1).
Proof.
  unfold stop_zone.
  destruct (zone_pins (zm s) !! z) as [pin|] eqn:Ep; [|done].
  destruct (pin_write pin 1 s) as [ok s1] eqn:E1.
  apply pin_write_inv in E1 as (Hz1 & _ & Ht1 & _ & _ & Hl1 & _).
  destruct ok; proj; [|done]. rewrite Hz1.
  set (s2 := match active_zones (zm s) !! z with
             | Some _ => _ | None => _ end).
  assert (hw s2 = hw s1 /\
          active_zones (zm s2) = delete z (active_zones (zm s)) /\
          safety_relay (zm s2) = safety_relay (zm s) /\
          (forall zd, active_zones (zm s) !! z = Some zd ->
                      task zd <> current_task (tasks s) ->
                      task zd ∈ cancelled (tasks s2)))
    as (Hh2 & Ha2 & Hr2 & Hc2).
  { subst s2. destruct (active_zones (zm s) !! z) as [zd|] eqn:Ea.
    - rewrite Ht1.
      destruct (negb (task zd =? current_task (tasks s))%nat) eqn:Hcur;
        proj; rewrite ?Hz1; (split; [done|]); (split; [done|]);
        (split; [done|]); intros zd' [= <-] Hne.
      + set_solver.
      + apply negb_false_iff, Nat.eqb_eq in Hcur. done.
    - split; [done|]. split; [by rewrite Hz1, delete_id|].
      split; [by rewrite Hz1|]. done. }
  assert (levels (hw s2) !! pin = Some 1) as Hpin
    by (rewrite Hh2, Hl1; apply lookup_insert_eq).
  rewrite Hr2.
  destruct (safety_relay (zm s)) as [relay|] eqn:Er.
  2: { intros _. exists pin. split; [done|]. split; [done|].
       split; [done|]. split; [done|]. done. }
  destruct (match active_zones (zm s) !! z with
            | Some _ => bool_decide (size (active_zones (zm s)) = 1%nat)
            | None => false
            end && no_active_zones s2) eqn:Hlast.
  - destruct (pin_write relay 1 s2) as [ok3 s3] eqn:E3. proj.
    pose proof (pin_release_releases _ _ _ _ E3) as Hrel.
    apply pin_write_inv in E3 as (Hz3 & _ & Ht3 & _ & _ & Hl3 & _).
    intros ->. exists pin. split; [done|].
    split; [by eapply releases_keeps|]. split; [by rewrite Hz3|].
    split; [intros zd Hzd Hne; rewrite Ht3; by eapply Hc2|].
    intros relay' [= <-] _ _. rewrite Hl3. apply lookup_insert_eq.
  - intros _. exists pin. split; [done|]. split; [done|].
    split; [done|]. split; [done|].
    intros relay' [= <-] [zd Hzd] Hsize. exfalso.
    rewrite Hzd in Hlast. rewrite bool_decide_true in Hlast by done.
    cbn [andb] in Hlast.
    assert (no_active_zones s2 = true); [|congruence].
    apply no_active_zones_spec. rewrite Ha2.
    apply map_size_empty_iff. rewrite map_size_delete_Some by eauto. lia.
Qed.

Lemma stop_zone_releases z s : releases s (stop_zone z s).2.
Proof.
  unfold stop_zone.
  destruct (zone_pins (zm s) !! z) as [pin|]; [|apply releases_refl].
  destruct (pin_write pin 1 s) as [ok s1] eqn:E1.
  apply pin_release_releases in E1.
  destruct ok; proj; [|exact E1].
  set (s2 := match active_zones (zm s1) !! z with
             | Some _ => _ | None => _ end).
  assert (hw s2 = hw s1) as Hh2.
  { subst s2. destruct (active_zones (zm s1) !! z); [|done].
    destruct (active_zones (zm s) !! z); [|done]. by destruct (negb _). }
  pose proof (releases_trans _ _ _ E1 (releases_same_hw _ _ Hh2)) as H12.
  destruct (safety_relay (zm s2)); [|exact H12].
  destruct (_ && _); [|exact H12].
  destruct (pin_write z0 1 s2) as [ok3 s3] eqn:E3. proj.
  eapply releases_trans; [exact H12|]. by eapply pin_release_releases.
Qed.

Lemma stop_each_releases ids success s :
  releases s (stop_each ids success s).2.
Proof.
  revert success s. induction ids as [|z ids IH]; intros success s.
  - apply releases_refl.
  - cbn [stop_each]. pose proof (stop_zone_releases z s) as H1.
    destruct (stop_zone z s) as [ok s1]. proj.
    eapply releases_trans; [exact H1 | apply IH].
Qed.

Lemma force_stop_releases z success s :
  releases s (force_stop z success s).2.
Proof.
  unfold force_stop.
  set (w := match zone_pins (zm s) !! z with
            | Some pin => _ | None => _ end).
  assert (releases s w.2) as H1.
  { subst w. destruct (zone_pins (zm s) !! z); [|apply releases_refl].
    eapply pin_release_releases, surjective_pairing. }
  destruct w as [ok s1]. proj. destruct ok; proj; [|exact H1].
  destruct (active_zones (zm s1) !! z); proj; [|exact H1].
  eapply releases_trans; [exact H1|]. by apply releases_same_hw.
Qed.

Lemma force_each_releases ids success s :
  releases s (force_each ids success s).2.
Proof.
  revert success s. induction ids as [|z ids IH]; intros success s.
  - apply releases_refl.
  - cbn [force_each]. pose proof (force_stop_releases z success s) as H1.
    destruct (force_stop z success s) as [ok s1]. proj.
    eapply releases_trans; [exact H1 | apply IH].
Qed.

Lemma force_stop_flag z success s :
  (force_stop z success s).1 = true -> success = true.
Proof.
  unfold force_stop.
  destruct (match zone_pins (zm s) !! z with
            | Some pin => _ | None => _ end) as [ok s1].
  destruct ok; proj; [|done].
  by destruct (active_zones (zm s1) !! z).
Qed.

Lemma force_each_flag ids success s :
  (force_each ids success s).1 = true -> success = true.
Proof.
  revert success s. induction ids as [|z ids IH]; intros success s; [done|].
  cbn [force_each]. pose proof (force_stop_flag z success s) as H1.
  destruct (force_stop z success s) as [ok s1]. proj.
  intros H. apply IH in H. by apply H1.
Qed.

(** A first phase that ends with the flag still True has released the
    output of every zone of the snapshot. *)
Lemma stop_each_true ids success s :
  (stop_each ids success s).1 = true ->
  success = true /\
  forall z, z ∈ ids ->
    exists pin, zone_pins (zm s) !! z = Some pin /\
                levels (hw (stop_each ids success s).2) !! pin = Some 1.
Proof.
  revert success s. induction ids as [|z ids IH]; intros success s.
  { intros H. split; [done|]. intros z Hz. by apply elem_of_nil in Hz. }
  cbn [stop_each].
  pose proof (stop_zone_true z s) as Hz.
  pose proof (stop_zone_stops (fun _ => True) z s) as [Hq _]; [done|].
  destruct (stop_zone z s) as [ok s1]. proj. intros Hres.
  destruct (IH _ _ Hres) as [Hflag Hrest].
  destruct ok; [|done]. split; [done|].
  intros z' [->|Hin]%elem_of_cons.
  - destruct (Hz eq_refl) as (pin & Hpin & Hlev & _).
    exists pin. split; [done|].
    eapply releases_keeps; [apply stop_each_releases | done].
  - destruct (Hrest z' Hin) as (pin & Hpin & Hlev).
    exists pin. split; [|done].
    destruct Hq as (_ & _ & _ & _ & _ & Hzp & _). by rewrite <- Hzp.
Qed.

(** What a True result of [stop_all_zones] stands for. *)
Lemma stop_all_zones_released (s : State) :
  (stop_all_zones s).1 = true ->
  (forall z, is_Some (active_zones (zm s) !! z) ->
     exists pin, zone_pins (zm s) !! z = Some pin /\
                 levels (hw (stop_all_zones s).2) !! pin = Some 1) /\
  (forall relay, safety_relay (zm s) = Some relay ->
     active_zones (zm s) <> ∅ ->
     levels (hw (stop_all_zones s).2) !! relay = Some 1).
Proof.
  destruct (no_active_zones s) eqn:Hguard.
  { apply no_active_zones_spec in Hguard. intros _. split.
    - intros z [zd Hz]. rewrite Hguard in Hz. by rewrite lookup_empty in Hz.
    - intros relay _ Hne. done. }
  rewrite (stop_all_zones_unfold s Hguard). cbv zeta. cbn [fst snd].
  pose proof (stop_phases_stops s) as H2. cbv zeta in H2.
  pose proof (stop_each_true (active_ids s) true s) as H1.
  pose proof (stop_each_releases (active_ids s) true s) as R1.
  set (p1 := stop_each (active_ids s) true s) in *.
  assert (releases p1.2 (if negb (no_active_zones p1.2)
                         then force_each (active_ids p1.2) p1.1 p1.2
                         else p1).2) as R2.
  { destruct (negb _); [apply force_each_releases | apply releases_refl]. }
  assert ((if negb (no_active_zones p1.2)
           then force_each (active_ids p1.2) p1.1 p1.2 else p1).1 = true
          -> p1.1 = true) as F2.
  { destruct (negb _); [apply force_each_flag | done]. }
  set (p2 := if negb (no_active_zones p1.2) then _ else p1) in *.
  destruct H2 as ((_&_&_&_&_&_&Hr&_)&_).
  intros Hres.
  assert (p2.1 = true /\
          releases p2.2
            (match safety_relay (zm p2.2) with
             | Some relay =>
                 (if (pin_write relay 1 p2.2).1 then p2.1 else false,
                  (pin_write relay 1 p2.2).2)
             | None => p2
             end).2 /\
          forall relay, safety_relay (zm s) = Some relay ->
            levels (hw (match safety_relay (zm p2.2) with
                        | Some relay =>
                            (if (pin_write relay 1 p2.2).1 then p2.1
                             else false,
                             (pin_write relay 1 p2.2).2)
                        | None => p2
                        end).2) !! relay = Some 1)
    as (Hp2 & R3 & Hrelay).
  { rewrite Hr in *. destruct (safety_relay (zm s)) as [relay|].
    - cbn [fst snd] in *.
      destruct (pin_write relay 1 p2.2) as [ok s3] eqn:E3.
      cbn [fst snd] in *. destruct ok; [|done].
      split; [done|]. split; [by eapply pin_release_releases|].
      intros relay' [= <-].
      apply pin_write_inv in E3 as (_&_&_&_&_&Hl&_).
      rewrite Hl. apply lookup_insert_eq.
    - split; [done|]. split; [apply releases_refl | done]. }
  split.
  - intros z Hz. apply active_ids_spec in Hz.
    destruct (H1 (F2 Hp2)) as [_ Hall].
    destruct (Hall z Hz) as (pin & Hpin & Hlev).
    exists pin. split; [done|]. proj.
    eapply releases_keeps; [exact R3|].
    eapply releases_keeps; [exact R2|]. done.
  - intros relay Hrel _. proj. by apply Hrelay.
Qed.

(** X6.  A True result of [stop_all_zones] can be trusted: the output of
    every zone that was recorded active at entry is then released, and so
    is the relay if a zone was recorded active. *)
Theorem stop_all_zones_true (s : State) :
  (stop_all_zones s).1 = true ->
  (forall z, is_Some (active_zones (zm s) !! z) ->
     exists pin, zone_pins (zm s) !! z = Some pin /\
                 levels (hw (stop_all_zones s).2) !! pin = Some 1) /\
  (forall relay, safety_relay (zm s) = Some relay ->
     active_zones (zm s) <> ∅ ->
     levels (hw (stop_all_zones s).2) !! relay = Some 1).
Proof. apply stop_all_zones_released. Qed.

Lemma stop_all_zones_true_witness :
  (stop_all_zones zone0_running).1 = true /\
  levels (hw (stop_all_zones zone0_running).2) !! 5 = Some 1.
Proof.
  assert ((stop_all_zones zone0_running).1 = true) as Hres
    by (vm_compute; reflexivity).
  split; [exact Hres|].
  destruct (stop_all_zones_true zone0_running Hres) as [Hzones _].
  destruct (Hzones 0) as (pin & Hpin & Hlev).
  { vm_compute. eauto. }
  vm_compute in Hpin. injection Hpin as <-. exact Hlev.
Defined.

(** X7.  [stop_zone] on a zone that is not configured returns False and
    changes nothing.  When it returns True, the output of the zone is
    released, the zone is out of the bookkeeping, its timer is cancelled
    (unless it is the calling task), and the relay is released if the zone
    was the only one recorded active. *)
Theorem stop_zone_effect (z : Z) (s : State) :
  (zone_pins (zm s) !! z = None -> stop_zone z s = (false, s)) /\
  ((stop_zone z s).1 = true ->
   exists pin,
     zone_pins (zm s) !! z = Some pin /\
     levels (hw (stop_zone z s).2) !! pin = Some 1 /\
     active_zones (zm (stop_zone z s).2) = delete z (active_zones (zm s)) /\
     (forall zd, active_zones (zm s) !! z = Some zd ->
                 task zd <> current_task (tasks s) ->
                 task zd ∈ cancelled (tasks (stop_zone z s).2)) /\
     (forall relay,
         safety_relay (zm s) = Some relay ->
         is_Some (active_zones (zm s) !! z) ->
         size (active_zones (zm s)) = 1%nat ->
         levels (hw (stop_zone z s).2) !! relay = Some 1)).
Proof.
  split; [|apply stop_zone_true].
  intros Hnone. unfold stop_zone. by rewrite Hnone.
Qed.

Lemma stop_zone_effect_witness :
  (stop_zone 0 zone0_running).1 = true /\
  levels (hw (stop_zone 0 zone0_running).2) !! 5 = Some 1 /\
  levels (hw (stop_zone 0 zone0_running).2) !! 4 = Some 1 /\
  stop_zone 7 zone0_running = (false, zone0_running).
Proof.
  assert ((stop_zone 0 zone0_running).1 = true) as Hres
    by (vm_compute; reflexivity).
  destruct (stop_zone_effect 0 zone0_running) as [_ Htrue].
  destruct (Htrue Hres) as (pin & Hpin & Hlev & _ & _ & Hrelay).
  vm_compute in Hpin. injection Hpin as <-.
  split; [exact Hres|]. split; [exact Hlev|]. split.
  - apply Hrelay; [reflexivity | vm_compute; eauto | vm_compute; reflexivity].
  - apply (stop_zone_effect 7 zone0_running). vm_compute. reflexivity.
Defined.

(** X8.  Stopping twice is stopping once: after a [stop_zone] that
    returned True, a second [stop_zone] of the same zone changes no output
    level, no bookkeeping and no timer, whether its write raises or not. *)
Theorem stop_zone_twice (z : Z) (s : State) :
  (stop_zone z s).1 = true ->
  levels (hw (stop_zone z (stop_zone z s).2).2)
  = levels (hw (stop_zone z s).2) /\
  zm (stop_zone z (stop_zone z s).2).2 = zm (stop_zone z s).2 /\
  tasks (stop_zone z (stop_zone z s).2).2 = tasks (stop_zone z s).2.
Proof.
  intros Hres.
  destruct (stop_zone_true z s Hres) as (pin & Hpin & Hlev & Hact & _).
  destruct (stop_zone_stops (fun _ => True) z s) as [Hq _]; [done|].
  destruct Hq as (_ & _ & _ & _ & _ & Hzp & _).
  set (s1 := (stop_zone z s).2) in *.
  assert (active_zones (zm s1) !! z = None) as Hgone
    by (rewrite Hact; apply lookup_delete_eq).
  unfold stop_zone. rewrite Hzp, Hpin, Hgone.
  destruct (pin_write pin 1 s1) as [ok s2] eqn:E2.
  apply pin_write_inv in E2 as (Hz2 & _ & Ht2 & _ & _ & Hl2 & _).
  assert (levels (hw s2) = levels (hw s1)) as Hsame.
  { rewrite Hl2. destruct ok; [|done]. by apply insert_id. }
  destruct ok; proj; [|done].
  rewrite ?Hz2, ?Hgone. destruct (safety_relay (zm s2)); cbn [andb]; proj; done.
Qed.

Lemma stop_zone_twice_witness :
  (stop_zone 0 zone0_running).1 = true /\
  zm (stop_zone 0 (stop_zone 0 zone0_running).2).2
  = zm (stop_zone 0 zone0_running).2.
Proof.
  assert ((stop_zone 0 zone0_running).1 = true) as Hres
    by (vm_compute; reflexivity).
  split; [exact Hres|]. apply (stop_zone_twice 0 zone0_running Hres).
Defined.

(** What a call of [start_zone] that returns True has checked and done. *)
Lemma start_zone_true z d s :
  (start_zone z d s).1 = true ->
  exists pin,
    zone_pins (zm s) !! z = Some pin /\
    zm_program_running (zm s) = false /\
    0 < d <= max_zone_duration (settings s) /\
    (get_active_zones_count s < max_active_zones (settings s) \/
     is_Some (active_zones (zm s) !! z)) /\
    levels (hw (start_zone z d s).2)
    = <[pin := 0]>
        (match safety_relay (zm s) with
         | Some relay => if no_active_zones s
                         then <[relay := 0]> (levels (hw s))
                         else levels (hw s)
         | None => levels (hw s)
         end) /\
    active_zones (zm (start_zone z d s).2)
    = <[z := {| start_time := clock s; duration := d;
                task := next_task (tasks s) |}]> (active_zones (zm s)) /\
    (forall zd, active_zones (zm s) !! z = Some zd ->
                task zd ∈ cancelled (tasks (start_zone z d s).2)).
Proof.
  unfold start_zone.
  destruct (load_frame s)
    as (Hzm & Hhw & Htasks & Hset & _ & _ & Hclock & _).
  set (s0 := program_state.load_program_state s) in *.
  destruct (zm_program_running (zm s0)) eqn:Hgate; [done|].
  destruct (zone_pins (zm s0) !! z) as [pin|] eqn:Hpin; [|done].
  destruct ((d <=? 0) || (max_zone_duration (settings s0) <? d)) eqn:Hd;
    [done|].
  destruct (_ && _) eqn:Hcap; [done|].
  apply orb_false_iff in Hd as [Hd1 Hd2].
  apply Z.leb_gt in Hd1. apply Z.ltb_ge in Hd2.
  assert (get_active_zones_count s < max_active_zones (settings s) \/
          is_Some (active_zones (zm s) !! z)) as Hroom.
  { apply andb_false_iff in Hcap as [Hc|Hc].
    - left. apply Z.leb_gt in Hc.
      unfold get_active_zones_count in *. rewrite <- Hzm, <- Hset. lia.
    - right. apply negb_false_iff, is_active_spec in Hc. congruence. }
  assert (no_active_zones s0 = no_active_zones s) as Hna
    by (unfold no_active_zones; by rewrite Hzm).
  set (relay_step := match safety_relay (zm s0) with
                     | Some relay => _ | None => _ end).
  assert (relay_step.1 = true ->
          zm relay_step.2 = zm s /\ tasks relay_step.2 = tasks s /\
          clock relay_step.2 = clock s /\
          levels (hw relay_step.2)
          = match safety_relay (zm s) with
            | Some relay => if no_active_zones s
                            then <[relay := 0]> (levels (hw s))
                            else levels (hw s)
            | None => levels (hw s)
            end) as Hrelay.
  { subst relay_step. rewrite Hzm, Hna.
    destruct (safety_relay (zm s)) as [relay|];
      [|cbn [fst snd]; intros _; by rewrite Hhw].
    destruct (no_active_zones s); [|cbn [fst snd]; intros _; by rewrite Hhw].
    destruct (pin_write relay 0 s0) as [ok s1] eqn:E1.
    apply pin_write_inv in E1 as (Hz1 & _ & Ht1 & Hc1 & _ & Hl1 & _).
    cbn [fst snd]. intros ->. rewrite Hz1, Ht1, Hc1, Hl1, Hhw. done. }
  destruct relay_step as [relay_ok s1]. cbn [fst snd] in Hrelay.
  destruct relay_ok; proj; [|done].
  destruct (Hrelay eq_refl) as (Hz1 & Ht1 & Hc1 & Hl1).
  destruct (pin_write pin 0 s1) as [zone_ok s2] eqn:E2.
  apply pin_write_inv in E2 as (Hz2 & _ & Ht2 & Hc2 & _ & Hl2 & _).
  destruct zone_ok; proj; [|done]. intros _.
  rewrite Hzm in Hgate, Hpin. rewrite Hset in Hd2.
  exists pin. split; [done|]. split; [done|]. split; [lia|].
  split; [done|]. rewrite Hzm.
  destruct (active_zones (zm s) !! z) as [old|] eqn:Hold;
    cbn [fmap option_fmap option_map]; proj;
    rewrite Hl2, Hl1, ?Hc2, ?Hc1, ?Ht2, ?Ht1, ?Hz2, ?Hz1, ?Hzm.
  - split; [done|]. split; [done|]. intros zd [= <-].
    apply elem_of_union. left. by apply elem_of_singleton.
  - split; [done|]. split; [done|]. done.
Qed.



(** X10.  [start_zone] on a zone that is not configured, or with a
    duration outside (0, max_zone_duration], returns False without writing
    a pin, touching the bookkeeping or creating a timer. *)
Theorem start_zone_rejects (z d : Z) (s : State) :
  zone_pins (zm s) !! z = None \/ d <= 0 \/
  max_zone_duration (settings s) < d ->
  (start_zone z d s).1 = false /\
  hw (start_zone z d s).2 = hw s /\
  zm (start_zone z d s).2 = zm s /\
  tasks (start_zone z d s).2 = tasks s.
Proof.
  intros Hbad. unfold start_zone.
  destruct (load_frame s) as (Hzm & Hhw & Htasks & Hset & _).
  set (s0 := program_state.load_program_state s) in *.
  destruct (zm_program_running (zm s0)); [done|].
  rewrite Hzm.
  destruct (zone_pins (zm s) !! z) as [pin|] eqn:Hpin; [|done].
  assert ((d <=? 0) || (max_zone_duration (settings s0) <? d) = true) as ->;
    [|done].
  rewrite Hset. destruct Hbad as [?|[H|H]]; [done| |].
  - apply Z.leb_le in H. by rewrite H.
  - apply Z.ltb_lt in H. rewrite H. apply orb_true_r.
Qed.

Lemma start_zone_rejects_witness :
  (start_zone 7 5 bench).1 = false /\ (start_zone 0 181 bench).1 = false /\
  hw (start_zone 0 0 bench).2 = hw bench.
Proof.
  split; [|split].
  - apply (start_zone_rejects 7 5 bench). left. reflexivity.
  - apply (start_zone_rejects 0 181 bench). right. right.
    vm_compute. reflexivity.
  - apply (start_zone_rejects 0 0 bench). right. left.
    vm_compute. discriminate.
Defined.

(** *** Hardware without faults *)

Lemma pin_write_fault_free p v s :
  fault_free s ->
  exists s', pin_write p v s = (true, s') /\
             zm s' = zm s /\ tasks s' = tasks s /\
             levels (hw s') = <[p := v]> (levels (hw s)) /\
             fault_free s'.
Proof.
  intros Hff. destruct (pin_write p v s) as [ok s'] eqn:E.
  apply pin_write_inv in E as (Hz & _ & Ht & _ & Hok & Hl & Hf & _).
  rewrite Hff in Hok. cbn in Hok. subst ok.
  exists s'. split; [done|]. split; [done|]. split; [done|].
  split; [done|]. intros n. rewrite Hf. apply Hff.
Qed.

Lemma quiet_step_fault_free s s' :
  quiet_step s s' -> fault_free s -> fault_free s'.
Proof.
  intros (_&_&_&_&_&_&_&_&Hf&_) Hff n. rewrite Hf. apply Hff.
Qed.

Lemma quiet_step_wired s s' : quiet_step s s' -> wired s -> wired s'.
Proof.
  intros (_&_&_&_&_&Hp&Hr&_) [Hinj Hrel]. unfold wired.
  rewrite Hp, Hr. done.
Qed.

(** Without faults, a [start_zone] that returns False has changed neither
    hardware nor bookkeeping. *)
Lemma start_zone_false_fault_free z d s :
  fault_free s -> (start_zone z d s).1 = false ->
  hw (start_zone z d s).2 = hw s /\ zm (start_zone z d s).2 = zm s.
Proof.
  intros Hff. unfold start_zone.
  destruct (load_frame s) as (Hzm & Hhw & _).
  set (s0 := program_state.load_program_state s) in *.
  assert (fault_free s0) as Hff0 by (intros n; rewrite Hhw; apply Hff).
  destruct (zm_program_running (zm s0)); [done|].
  destruct (zone_pins (zm s0) !! z) as [pin|]; [|done].
  destruct (_ || _); [done|]. destruct (_ && _); [done|].
  set (relay_step := match safety_relay (zm s0) with
                     | Some relay => _ | None => _ end).
  assert (relay_step.1 = true /\ fault_free relay_step.2) as [Hok Hff1].
  { subst relay_step. destruct (safety_relay (zm s0)); [|done].
    destruct (no_active_zones s0); [|done].
    destruct (pin_write_fault_free z0 0 s0 Hff0) as (s1 & -> & _ & _ & _ & H).
    done. }
  destruct relay_step as [relay_ok s1]. cbn [fst snd] in *. subst relay_ok.
  proj.
  destruct (pin_write_fault_free pin 0 s1 Hff1) as (s2 & -> & _).
  proj. done.
Qed.

Lemma stop_zone_fault_free z s :
  fault_free s -> is_Some (zone_pins (zm s) !! z) ->
  (stop_zone z s).1 = true.
Proof.
  intros Hff [pin Hpin]. unfold stop_zone. rewrite Hpin.
  destruct (pin_write_fault_free pin 1 s Hff) as (s1 & -> & _ & _ & _ & Hff1).
  proj.
  set (s2 := match active_zones (zm s1) !! z with
             | Some _ => _ | None => _ end).
  assert (fault_free s2) as Hff2.
  { subst s2. destruct (active_zones (zm s1) !! z); [|done].
    destruct (active_zones (zm s) !! z); [|done]. by destruct (negb _). }
  destruct (safety_relay (zm s2)); [|done]. destruct (_ && _); [|done].
  by destruct (pin_write_fault_free z0 1 s2 Hff2) as (s3 & -> & _).
Qed.

(** The levels after zone [z] on [pin] has been released without faults. *)
Lemma released_consistent z pin s s' :
  wired s -> consistent s ->
  zone_pins (zm s) !! z = Some pin ->
  zone_pins (zm s') = zone_pins (zm s) ->
  safety_relay (zm s') = safety_relay (zm s) ->
  active_zones (zm s') = delete z (active_zones (zm s)) ->
  levels (hw s')
  = (match safety_relay (zm s), active_zones (zm s) !! z with
     | Some relay, Some _ =>
         if bool_decide (size (active_zones (zm s)) = 1%nat)
         then <[relay := 1]> (<[pin := 1]> (levels (hw s)))
         else <[pin := 1]> (levels (hw s))
     | _, _ => <[pin := 1]> (levels (hw s))
     end) ->
  consistent s'.
Proof.
  intros [Hinj Hnot] (C1 & C2 & C3) Hpin Hzp Hsr Hact Hlev.
  unfold consistent. rewrite Hzp, Hsr, Hact.
  assert (forall z' pin', zone_pins (zm s) !! z' = Some pin' -> z' <> z ->
            levels (hw s') !! pin' = levels (hw s) !! pin') as Hframe.
  { intros z' pin' Hp' Hne. rewrite Hlev.
    assert (pin' <> pin) as Hpp by (intros ->; eauto).
    destruct (safety_relay (zm s)) as [relay|] eqn:Er;
      [|by rewrite lookup_insert_ne].
    assert (pin' <> relay) as Hpr by (intros ->; by eapply Hnot).
    destruct (active_zones (zm s) !! z); [|by rewrite lookup_insert_ne].
    case_bool_decide; by rewrite !lookup_insert_ne. }
  assert (levels (hw s') !! pin = Some 1) as Hreleased.
  { rewrite Hlev.
    destruct (safety_relay (zm s)) as [relay|] eqn:Er;
      [|apply lookup_insert_eq].
    assert (pin <> relay) as Hpr by (intros ->; by eapply Hnot).
    destruct (active_zones (zm s) !! z); [|apply lookup_insert_eq].
    case_bool_decide; [rewrite lookup_insert_ne by done|];
      apply lookup_insert_eq. }
  split; [|split].
  - intros z' [zd Hz']. apply lookup_delete_Some in Hz' as [_ Hz']. eauto.
  - intros z' pin' Hp'. destruct (decide (z' = z)) as [->|Hne].
    + assert (pin' = pin) as -> by congruence.
      rewrite Hreleased, lookup_delete_eq. split; [done|].
      intros [? ?]. done.
    + rewrite (Hframe _ _ Hp' Hne), lookup_delete_ne by done. by apply C2.
  - intros relay Hrelay. rewrite Hlev, Hrelay.
    assert (pin <> relay) as Hpr by (intros ->; by eapply Hnot).
    destruct (active_zones (zm s) !! z) as [zd|] eqn:Ez.
    2: { rewrite lookup_insert_ne, delete_id by done. by apply C3. }
    case_bool_decide as Hsize.
    + rewrite lookup_insert_eq. split; [done|]. intros Hne. exfalso.
      apply Hne, map_size_empty_iff.
      rewrite map_size_delete_Some by eauto. lia.
    + rewrite lookup_insert_ne by done.
      assert (active_zones (zm s) <> ∅) as Hne0.
      { intros H0. rewrite H0 in Ez. by rewrite lookup_empty in Ez. }
      assert (delete z (active_zones (zm s)) <> ∅) as Hne1.
      { intros H0%map_size_empty_iff.
        rewrite map_size_delete_Some in H0 by eauto.
        apply map_size_non_empty_iff in Hne0. lia. }
      pose proof (C3 relay Hrelay) as C. tauto.
Qed.

Lemma stop_zone_exact z pin s :
  fault_free s -> zone_pins (zm s) !! z = Some pin ->
  active_zones (zm (stop_zone z s).2) = delete z (active_zones (zm s)) /\
  levels (hw (stop_zone z s).2)
  = (match safety_relay (zm s), active_zones (zm s) !! z with
     | Some relay, Some _ =>
         if bool_decide (size (active_zones (zm s)) = 1%nat)
         then <[relay := 1]> (<[pin := 1]> (levels (hw s)))
         else <[pin := 1]> (levels (hw s))
     | _, _ => <[pin := 1]> (levels (hw s))
     end).
Proof.
  intros Hff Hpin. unfold stop_zone. rewrite Hpin.
  destruct (pin_write_fault_free pin 1 s Hff)
    as (s1 & -> & Hz1 & _ & Hl1 & Hff1).
  proj. rewrite Hz1.
  set (s2 := match active_zones (zm s) !! z with
             | Some _ => _ | None => _ end).
  assert (hw s2 = hw s1 /\ safety_relay (zm s2) = safety_relay (zm s) /\
          active_zones (zm s2) = delete z (active_zones (zm s)))
    as (Hh2 & Hr2 & Ha2).
  { subst s2. destruct (active_zones (zm s) !! z) eqn:Ez.
    - destruct (negb _); proj; by rewrite Hz1.
    - by rewrite Hz1, delete_id. }
  assert (fault_free s2) as Hff2 by (intros n; rewrite Hh2; apply Hff1).
  rewrite Hr2. destruct (safety_relay (zm s)) as [relay|];
    [|proj; by rewrite Hh2, Hl1; destruct (_ !! z)].
  destruct (active_zones (zm s) !! z) as [zd|] eqn:Ez;
    [|cbn [andb]; proj; by rewrite Hh2, Hl1].
  case_bool_decide as Hsize; cbn [andb];
    [|proj; by rewrite Hh2, Hl1].
  assert (no_active_zones s2 = true) as ->.
  { apply no_active_zones_spec. rewrite Ha2. apply map_size_empty_iff.
    rewrite map_size_delete_Some by eauto. lia. }
  destruct (pin_write_fault_free relay 1 s2 Hff2)
    as (s3 & -> & Hz3 & _ & Hl3 & _).
  proj. by rewrite Hz3, Hl3, Hh2, Hl1.
Qed.

Lemma _safe_stop_zone_exact z pin s :
  fault_free s -> zone_pins (zm s) !! z = Some pin ->
  is_Some (active_zones (zm s) !! z) ->
  zone_pins (zm (_safe_stop_zone z s)) = zone_pins (zm s) /\
  safety_relay (zm (_safe_stop_zone z s)) = safety_relay (zm s) /\
  active_zones (zm (_safe_stop_zone z s)) = delete z (active_zones (zm s)) /\
  levels (hw (_safe_stop_zone z s))
  = (match safety_relay (zm s), active_zones (zm s) !! z with
     | Some relay, Some _ =>
         if bool_decide (size (active_zones (zm s)) = 1%nat)
         then <[relay := 1]> (<[pin := 1]> (levels (hw s)))
         else <[pin := 1]> (levels (hw s))
     | _, _ => <[pin := 1]> (levels (hw s))
     end).
Proof.
  intros Hff Hpin Hact. unfold _safe_stop_zone. rewrite Hpin.
  assert (is_active z s = true) as -> by by apply is_active_spec.
  cbn [negb].
  destruct (pin_write_fault_free pin 1 s Hff)
    as (s1 & -> & Hz1 & _ & Hl1 & Hff1).
  proj. rewrite Hz1. destruct Hact as [zd Hzd]. rewrite Hzd.
  destruct (safety_relay (zm s)) as [relay|] eqn:Er;
    [|proj; by rewrite ?Hz1, ?Hl1, ?Er].
  case_bool_decide; [|proj; by rewrite ?Hz1, ?Hl1, ?Er].
  set (s2 := set_active_zones _ s1).
  assert (fault_free s2) as Hff2 by done.
  destruct (pin_write_fault_free relay 1 s2 Hff2)
    as (s3 & -> & Hz3 & _ & Hl3 & _).
  proj. rewrite Hz3, Hl3. subst s2. proj. by rewrite ?Hz1, ?Hl1, ?Er.
Qed.

Lemma consistent_same s s' :
  hw s' = hw s -> zm s' = zm s -> consistent s -> consistent s'.
Proof. unfold consistent. by intros -> ->. Qed.

Lemma start_zone_consistent z d s :
  fault_free s -> wired s -> consistent s ->
  consistent (start_zone z d s).2.
Proof.
  intros Hff [Hinj Hnot] (C1 & C2 & C3).
  destruct (start_zone z d s).1 eqn:Hres.
  2: { destruct (start_zone_false_fault_free z d s Hff Hres) as [Hh Hz].
       by apply (consistent_same s). }
  destruct (start_zone_true z d s Hres)
    as (pin & Hpin & _ & _ & _ & Hlev & Hact & _).
  destruct (start_zone_quiet z d s) as (_&_&_&_&_&Hzp&Hsr&_).
  unfold consistent. rewrite Hzp, Hsr, Hact, Hlev.
  split; [|split].
  - intros z' Hz'. destruct (decide (z' = z)) as [->|Hne]; [eauto|].
    rewrite lookup_insert_ne in Hz' by done. by apply C1.
  - intros z' pin' Hp'. destruct (decide (z' = z)) as [->|Hne].
    + assert (pin' = pin) as -> by congruence.
      rewrite !lookup_insert_eq. split; eauto.
    + assert (pin' <> pin) as Hpp by (intros ->; eauto).
      rewrite !lookup_insert_ne by done.
      destruct (safety_relay (zm s)) as [relay|] eqn:Er; [|by apply C2].
      destruct (no_active_zones s); [|by apply C2].
      assert (pin' <> relay) as Hpr by (intros ->; by eapply Hnot).
      rewrite lookup_insert_ne by done. by apply C2.
  - intros relay Hrelay. rewrite Hrelay.
    assert (pin <> relay) as Hpr by (intros ->; by eapply Hnot).
    rewrite lookup_insert_ne by done.
    split; [intros _; apply insert_non_empty|]. intros _.
    destruct (no_active_zones s) eqn:Hna; [apply lookup_insert_eq|].
    apply C3; [done|]. intros Hempty.
    apply no_active_zones_spec in Hempty. congruence.
Qed.

Lemma stop_zone_consistent z s :
  fault_free s -> wired s -> consistent s -> consistent (stop_zone z s).2.
Proof.
  intros Hff Hw Hc.
  destruct (zone_pins (zm s) !! z) as [pin|] eqn:Hpin.
  2: { unfold stop_zone. by rewrite Hpin. }
  destruct (stop_zone_exact z pin s Hff Hpin) as [Hact Hlev].
  destruct (stop_zone_stops (fun _ => True) z s)
    as [(_&_&_&_&_&Hzp&Hsr&_) _]; [done|].
  by eapply released_consistent.
Qed.

Lemma _zone_timer_consistent z s :
  fault_free s -> wired s -> consistent s -> consistent (_zone_timer z s).
Proof.
  intros Hff Hw Hc. unfold _zone_timer.
  destruct (is_active z s) eqn:Ha; [|done].
  apply is_active_spec in Ha.
  destruct (proj1 Hc z Ha) as [pin Hpin].
  destruct (_safe_stop_zone_exact z pin s Hff Hpin Ha)
    as (Hzp & Hsr & Hact & Hlev).
  by eapply released_consistent.
Qed.

Lemma stop_each_fault_free ids s :
  fault_free s ->
  (forall z, z ∈ ids -> is_Some (zone_pins (zm s) !! z)) ->
  (stop_each ids true s).1 = true.
Proof.
  revert s. induction ids as [|z ids IH]; intros s Hff Hall; [done|].
  cbn [stop_each].
  pose proof (stop_zone_fault_free z s Hff
                (Hall z (list_elem_of_here _ _))) as Hok.
  pose proof (stop_zone_stops (fun _ => True) z s) as [Hq _]; [done|].
  destruct (stop_zone z s) as [ok s1]. cbn [fst snd] in *. subst ok.
  apply IH; [by eapply quiet_step_fault_free|].
  intros z' Hz'. destruct Hq as (_&_&_&_&_&Hzp&_). rewrite Hzp.
  apply Hall. by apply list_elem_of_further.
Qed.

Lemma force_each_fault_free ids success s :
  fault_free s -> (force_each ids success s).1 = success.
Proof.
  revert success s. induction ids as [|z ids IH]; intros success s Hff;
    [done|].
  cbn [force_each].
  pose proof (force_stop_stops (fun _ => True) z success s) as [Hq _];
    [done|].
  assert ((force_stop z success s).1 = success) as Hflag.
  { unfold force_stop. destruct (zone_pins (zm s) !! z) as [pin|].
    - destruct (pin_write_fault_free pin 1 s Hff) as (s1 & -> & _).
      proj. by destruct (active_zones (zm s1) !! z).
    - proj. by destruct (active_zones (zm s) !! z). }
  destruct (force_stop z success s) as [ok s1]. cbn [fst snd] in *.
  subst ok. apply IH. by eapply quiet_step_fault_free.
Qed.

Lemma stop_all_zones_fault_free s :
  fault_free s ->
  (forall z, is_Some (active_zones (zm s) !! z) ->
             is_Some (zone_pins (zm s) !! z)) ->
  (stop_all_zones s).1 = true.
Proof.
  intros Hff Hconf. destruct (no_active_zones s) eqn:Hguard.
  { unfold stop_all_zones. by rewrite Hguard. }
  rewrite (stop_all_zones_unfold s Hguard). cbv zeta. cbn [fst snd].
  pose proof (stop_phases_stops s) as [Hq2 _]. cbv zeta in Hq2.
  assert ((stop_each (active_ids s) true s).1 = true) as H1.
  { apply stop_each_fault_free; [done|].
    intros z Hz. apply Hconf. by apply active_ids_spec. }
  pose proof (stop_each_stops (fun _ => True) (active_ids s) true s)
    as [Hq1 _]; [done|].
  set (p1 := stop_each (active_ids s) true s) in *.
  assert ((if negb (no_active_zones p1.2)
           then force_each (active_ids p1.2) p1.1 p1.2 else p1).1 = true)
    as H2.
  { destruct (negb _); [|done].
    rewrite force_each_fault_free; [done|].
    by eapply quiet_step_fault_free. }
  set (p2 := if negb (no_active_zones p1.2) then _ else p1) in *.
  destruct (safety_relay (zm p2.2)) as [relay|]; [|done].
  destruct (pin_write_fault_free relay 1 p2.2) as (s3 & -> & _);
    [by eapply quiet_step_fault_free|].
  done.
Qed.

Lemma stop_all_zones_releases s : releases s (stop_all_zones s).2.
Proof.
  destruct (no_active_zones s) eqn:Hguard.
  { unfold stop_all_zones. rewrite Hguard. apply releases_refl. }
  rewrite (stop_all_zones_unfold s Hguard). cbv zeta. cbn [snd].
  pose proof (stop_each_releases (active_ids s) true s) as R1.
  set (p1 := stop_each (active_ids s) true s) in *.
  assert (releases p1.2 (if negb (no_active_zones p1.2)
                         then force_each (active_ids p1.2) p1.1 p1.2
                         else p1).2) as R2.
  { destruct (negb _); [apply force_each_releases | apply releases_refl]. }
  set (p2 := if negb (no_active_zones p1.2) then _ else p1) in *.
  eapply releases_trans; [exact R1|].
  eapply releases_trans; [exact R2|].
  set (p3 := match safety_relay (zm p2.2) with
             | Some relay => _ | None => p2 end).
  apply (releases_trans _ p3.2); [|by apply releases_same_hw].
  subst p3. destruct (safety_relay (zm p2.2)); [|apply releases_refl].
  cbn [snd]. eapply pin_release_releases, surjective_pairing.
Qed.

Lemma stop_all_zones_consistent s :
  fault_free s -> consistent s -> consistent (stop_all_zones s).2.
Proof.
  intros Hff (C1 & C2 & C3).
  pose proof (stop_all_zones_fault_free s Hff C1) as Hres.
  destruct (stop_all_zones_released s Hres) as [Hzones Hrelay].
  pose proof (stop_all_zones_releases s) as Hrel.
  destruct (stop_all_zones_stops s) as [(_&_&_&_&_&Hzp&Hsr&_) _].
  assert (active_zones (zm (stop_all_zones s).2) = ∅) as Hempty.
  { destruct (no_active_zones s) eqn:Hguard.
    - unfold stop_all_zones. rewrite Hguard.
      by apply no_active_zones_spec.
    - by rewrite (stop_all_zones_unfold s Hguard). }
  unfold consistent. rewrite Hzp, Hsr, Hempty.
  split; [|split].
  - intros z [zd Hz]. by rewrite lookup_empty in Hz.
  - intros z pin Hpin. rewrite lookup_empty. split; [|intros [? ?]; done].
    intros Hon. exfalso.
    destruct (active_zones (zm s) !! z) as [zd|] eqn:Hz.
    + destruct (Hzones z) as (pin' & Hpin' & Hlev); [eauto|].
      congruence.
    + destruct (Hrel pin) as [Hsame|Hone]; [|congruence].
      rewrite Hsame in Hon. apply (C2 z pin Hpin) in Hon.
      rewrite Hz in Hon. by destruct Hon.
  - intros relay Hr. split; [|done]. intros Hon. exfalso.
    destruct (decide (active_zones (zm s) = ∅)) as [He|Hne].
    + rewrite (stop_all_zones_no_active s He) in Hon. cbn [snd] in Hon.
      by apply (C3 relay Hr) in Hon.
    + rewrite (Hrelay relay Hr Hne) in Hon. done.
Qed.

Lemma run_op_consistent o s :
  fault_free s -> wired s -> consistent s ->
  fault_free (run_op o s) /\ wired (run_op o s) /\ consistent (run_op o s).
Proof.
  intros Hff Hw Hc.
  assert (quiet_step s (run_op o s)) as Hq.
  { destruct o as [z d|z| |z]; cbn [run_op].
    - apply start_zone_quiet.
    - apply (stop_zone_stops (fun _ => True)). done.
    - apply stop_all_zones_stops.
    - unfold _zone_timer. destruct (is_active z s);
        [apply _safe_stop_zone_stops | apply quiet_step_refl]. }
  split; [by eapply quiet_step_fault_free|].
  split; [by eapply quiet_step_wired|].
  destruct o as [z d|z| |z]; cbn [run_op].
  - by apply start_zone_consistent.
  - by apply stop_zone_consistent.
  - by apply stop_all_zones_consistent.
  - by apply _zone_timer_consistent.
Qed.

(** X11.  With hardware that does not fail and every zone on a pin of its
    own, apart from the relay, bookkeeping and outputs stay in step through
    any sequence of starts, stops, stop-all and timer expiries: an output
    is energized exactly when its zone is recorded active, and the relay
    exactly when some zone is. *)
Theorem zone_outputs_follow_bookkeeping (ops : list zone_op) (s : State) :
  fault_free s -> wired s -> consistent s ->
  Forall consistent (run_ops ops s).
Proof.
  revert s. induction ops as [|o ops IH]; intros s Hff Hw Hc;
    cbn [run_ops]; [constructor|].
  destruct (run_op_consistent o s Hff Hw Hc) as (Hff' & Hw' & Hc').
  constructor; [done | by apply IH].
Qed.

Lemma bench_wired : wired bench.
Proof.
  split.
  - intros z1 z2 pin H1 H2. cbn in H1, H2.
    apply lookup_insert_Some in H1 as [[<- <-]|[? H1]];
      apply lookup_insert_Some in H2 as [[<- ?]|[? H2]]; try done.
    + apply lookup_singleton_Some in H2 as [<- ?]. done.
    + apply lookup_singleton_Some in H1 as [<- <-]. done.
    + apply lookup_singleton_Some in H1 as [<- <-].
      apply lookup_singleton_Some in H2 as [<- _]. done.
  - intros relay z [= <-] H. cbn in H.
    apply lookup_insert_Some in H as [[_ ?]|[_ H]]; [done|].
    apply lookup_singleton_Some in H as [_ ?]. done.
Qed.

Lemma bench_consistent : consistent bench.
Proof.
  split; [|split].
  - intros z [zd Hz]. cbn in Hz. by rewrite lookup_empty in Hz.
  - intros z pin H. cbn in H. cbn [bench zm hw levels active_zones].
    rewrite lookup_empty.
    split; [|intros [? ?]; done]. intros Hl. exfalso.
    apply lookup_insert_Some in H as [[_ <-]|[_ H]]; [done|].
    apply lookup_singleton_Some in H as [_ <-]. done.
  - intros relay [= <-]. cbn [bench zm hw levels active_zones].
    split; done.
Qed.

Lemma zone_outputs_follow_bookkeeping_witness :
  Forall consistent
    (run_ops [OpStart 0 10; OpStart 1 5; OpStop 0; OpTimer 1; OpStart 0 3;
              OpStopAll] bench).
Proof.
  apply zone_outputs_follow_bookkeeping.
  - intros n. reflexivity.
  - exact bench_wired.
  - exact bench_consistent.
Defined.

End ZoneExtras.

(** ** The sweep of [stop_all_zones] *)

Section SweepClaim.

Import zone_manager.

Lemma failed_releases_app pin evs1 evs2 :
  failed_releases pin (evs1 ++ evs2)
  = (failed_releases pin evs1 + failed_releases pin evs2)%nat.
Proof. unfold failed_releases. by rewrite List.filter_app, length_app. Qed.

Lemma failed_releases_one pin :
  failed_releases pin [EvPin pin 1 false] = 1%nat.
Proof.
  unfold failed_releases. cbn [List.filter failed_release].
  by rewrite Z.eqb_refl.
Qed.

Lemma new_events_log s s' evs :
  log s' = log s ++ evs -> new_events s s' = evs.
Proof. intros H. unfold new_events. rewrite H. apply drop_app_length. Qed.

(** After its first write [stop_zone] only releases. *)
Lemma stop_zone_after_write z pin s :
  zone_pins (zm s) !! z = Some pin ->
  releases (pin_write pin 1 s).2 (stop_zone z s).2.
Proof.
  intros Hpin. unfold stop_zone. rewrite Hpin.
  destruct (pin_write pin 1 s) as [ok s1] eqn:E1.
  destruct ok; proj; [|apply releases_refl].
  set (s2 := match active_zones (zm s1) !! z with
             | Some _ => _ | None => _ end).
  assert (hw s2 = hw s1) as Hh2.
  { subst s2. destruct (active_zones (zm s1) !! z); [|done].
    destruct (active_zones (zm s) !! z); [|done]. by destruct (negb _). }
  pose proof (releases_same_hw _ _ Hh2) as H12.
  destruct (safety_relay (zm s2)) as [relay|]; [|exact H12].
  destruct (_ && _); [|exact H12].
  destruct (pin_write relay 1 s2) as [ok3 s3] eqn:E3. proj.
  eapply releases_trans; [exact H12|]. by eapply pin_release_releases.
Qed.

(** The bookkeeping after [stop_zone]: as before, or without the zone. *)
Lemma stop_zone_entries z s :
  active_zones (zm (stop_zone z s).2) = active_zones (zm s) \/
  active_zones (zm (stop_zone z s).2) = delete z (active_zones (zm s)).
Proof.
  unfold stop_zone.
  destruct (zone_pins (zm s) !! z) as [pin|]; [|by left].
  destruct (pin_write pin 1 s) as [ok s1] eqn:E1.
  apply pin_write_inv in E1 as (Hz1 & _).
  destruct ok; proj; [|left; by rewrite Hz1].
  set (s2 := match active_zones (zm s1) !! z with
             | Some _ => _ | None => _ end).
  assert (active_zones (zm s2) = active_zones (zm s) \/
          active_zones (zm s2) = delete z (active_zones (zm s))) as H2.
  { subst s2. rewrite Hz1.
    destruct (active_zones (zm s) !! z); [|left; by rewrite Hz1].
    right. destruct (negb _); proj; by rewrite Hz1. }
  destruct (safety_relay (zm s2)) as [relay|]; [|exact H2].
  destruct (_ && _); [|exact H2].
  destruct (pin_write relay 1 s2) as [ok3 s3] eqn:E3. proj.
  apply pin_write_inv in E3 as (Hz3 & _). by rewrite Hz3.
Qed.

(** One per-zone stop: the output is released, or the write has raised
    and the zone is recorded as before. *)
Lemma stop_zone_sweep z pin s :
  zone_pins (zm s) !! z = Some pin ->
  levels (hw (stop_zone z s).2) !! pin = Some 1 \/
  (log (stop_zone z s).2 = log s ++ [EvPin pin 1 false] /\
   active_zones (zm (stop_zone z s).2) = active_zones (zm s)).
Proof.
  intros Hpin. pose proof (stop_zone_after_write z pin s Hpin) as Hrel.
  destruct (pin_write pin 1 s) as [ok s1] eqn:E1. cbn [snd] in Hrel.
  destruct ok.
  - left. eapply releases_keeps; [exact Hrel|].
    apply pin_write_inv in E1 as (_&_&_&_&_&Hl&_).
    rewrite Hl. apply lookup_insert_eq.
  - right. unfold stop_zone. rewrite Hpin, E1. proj.
    apply pin_write_inv in E1 as (Hz&_&_&_&_&_&_&_&Hlog).
    by rewrite Hlog, Hz.
Qed.

Lemma stop_zone_log z s :
  exists evs, log (stop_zone z s).2 = log s ++ evs.
Proof.
  destruct (stop_zone_stops (fun _ => True) z s)
    as [(_&_&_&_&_&_&_&_&_&evs&Hlog&_) _]; [done|]. by exists evs.
Qed.

(** The per-zone stops: the output of a zone of the snapshot is released,
    or a write to it has raised and the zone is still recorded. *)
Lemma stop_each_sweep z pin ids success s :
  zone_pins (zm s) !! z = Some pin ->
  is_Some (active_zones (zm s) !! z) ->
  exists evs,
    log (stop_each ids success s).2 = log s ++ evs /\
    (z ∈ ids ->
     levels (hw (stop_each ids success s).2) !! pin = Some 1 \/
     ((1 <= failed_releases pin evs)%nat /\
      is_Some (active_zones (zm (stop_each ids success s).2) !! z))) /\
    (z ∉ ids ->
     is_Some (active_zones (zm (stop_each ids success s).2) !! z)).
Proof.
  revert success s. induction ids as [|z0 ids IH]; intros success s Hpin Hz.
  { exists []. split; [by rewrite app_nil_r|]. split; [|done].
    intros Hin. by apply elem_of_nil in Hin. }
  cbn [stop_each].
  pose proof (stop_zone_stops (fun _ => True) z0 s) as [Hq _]; [done|].
  destruct (stop_zone_log z0 s) as [e0 Hlog0].
  pose proof (stop_zone_entries z0 s) as Hent.
  pose proof (stop_each_releases ids
                (if (stop_zone z0 s).1 then success else false)
                (stop_zone z0 s).2) as Hrel.
  assert (zone_pins (zm (stop_zone z0 s).2) !! z = Some pin) as Hpin1.
  { destruct Hq as (_&_&_&_&_&Hzp&_). by rewrite Hzp. }
  destruct (decide (z0 = z)) as [->|Hne].
  - pose proof (stop_zone_sweep z pin s Hpin) as Hsweep.
    destruct (stop_zone z s) as [ok s1]. cbn [fst snd] in *.
    destruct Hsweep as [Hlev|[Hfail Hsame]].
    + destruct (stop_zone_log z s) as [_ _].
      assert (exists evs, log (stop_each ids (if ok then success else false)
                                         s1).2 = log s1 ++ evs)
        as [e1 Hlog1].
      { destruct (stop_each_stops (fun _ => True) ids
                    (if ok then success else false) s1)
          as [(_&_&_&_&_&_&_&_&_&evs&Hl&_) _]; [done|]. by exists evs. }
      exists (e0 ++ e1). split; [by rewrite Hlog1, Hlog0, app_assoc|].
      split; [intros _; left; by eapply releases_keeps|].
      intros Hnot. exfalso. apply Hnot, list_elem_of_here.
    + assert (is_Some (active_zones (zm s1) !! z)) as Hz1
        by (by rewrite Hsame).
      destruct (IH (if ok then success else false) s1 Hpin1 Hz1)
        as (e1 & Hlog1 & Hin1 & Hout1).
      exists ([EvPin pin 1 false] ++ e1).
      split; [by rewrite Hlog1, Hfail, app_assoc|].
      split; [|intros Hnot; exfalso; apply Hnot, list_elem_of_here].
      intros _. rewrite failed_releases_app, failed_releases_one.
      destruct (decide (z ∈ ids)) as [Hin|Hnin].
      * destruct (Hin1 Hin) as [?|[_ ?]]; [by left|].
        right. split; [lia | done].
      * right. split; [lia | by apply Hout1].
  - destruct (stop_zone z0 s) as [ok s1]. cbn [fst snd] in *.
    assert (is_Some (active_zones (zm s1) !! z)) as Hz1.
    { destruct Hent as [-> | ->]; [done|].
      by rewrite lookup_delete_ne. }
    destruct (IH (if ok then success else false) s1 Hpin1 Hz1)
      as (e1 & Hlog1 & Hin1 & Hout1).
    exists (e0 ++ e1). split; [by rewrite Hlog1, Hlog0, app_assoc|].
    split.
    + intros [?|Hin]%elem_of_cons; [done|].
      destruct (Hin1 Hin) as [?|[Hcount ?]]; [by left|].
      right. split; [|done]. rewrite failed_releases_app. lia.
    + intros Hnot. apply Hout1. intros Hin.
      apply Hnot. by apply list_elem_of_further.
Qed.

(** One round of the sweep: the output is released, or the write has
    raised. *)
Lemma force_stop_sweep z pin success s :
  zone_pins (zm s) !! z = Some pin ->
  exists evs,
    log (force_stop z success s).2 = log s ++ evs /\
    (levels (hw (force_stop z success s).2) !! pin = Some 1 \/
     (1 <= failed_releases pin evs)%nat).
Proof.
  intros Hpin. unfold force_stop. rewrite Hpin.
  destruct (pin_write pin 1 s) as [ok s1] eqn:E1.
  apply pin_write_inv in E1 as (_&_&_&_&_&Hl&_&_&Hlog).
  destruct ok; proj.
  - exists [EvPin pin 1 true].
    destruct (active_zones (zm s1) !! z); proj;
      (split; [done|]); left; rewrite Hl; apply lookup_insert_eq.
  - exists [EvPin pin 1 false]. split; [done|]. right.
    by rewrite failed_releases_one.
Qed.

Lemma force_each_log ids success s :
  exists evs, log (force_each ids success s).2 = log s ++ evs.
Proof.
  destruct (force_each_stops (fun _ => True) ids success s)
    as [(_&_&_&_&_&_&_&_&_&evs&Hl&_) _]; [done|]. by exists evs.
Qed.

(** The sweep: the output of each of its zones is released, or the write
    to it has raised. *)
Lemma force_each_sweep z pin ids success s :
  zone_pins (zm s) !! z = Some pin -> z ∈ ids ->
  exists evs,
    log (force_each ids success s).2 = log s ++ evs /\
    (levels (hw (force_each ids success s).2) !! pin = Some 1 \/
     (1 <= failed_releases pin evs)%nat).
Proof.
  revert success s. induction ids as [|z0 ids IH]; intros success s Hpin Hin.
  { by apply elem_of_nil in Hin. }
  cbn [force_each].
  pose proof (force_stop_stops (fun _ => True) z0 success s) as [Hq _];
    [done|].
  destruct (decide (z0 = z)) as [->|Hne].
  - destruct (force_stop_sweep z pin success s Hpin)
      as (e0 & Hlog0 & Hsweep).
    destruct (force_stop z success s) as [ok s1]. cbn [fst snd] in *.
    destruct (force_each_log ids ok s1) as [e1 Hlog1].
    pose proof (force_each_releases ids ok s1) as Hrel.
    exists (e0 ++ e1). split; [by rewrite Hlog1, Hlog0, app_assoc|].
    destruct Hsweep as [Hlev|Hcount].
    + left. by eapply releases_keeps.
    + right. rewrite failed_releases_app. lia.
  - apply elem_of_cons in Hin as [?|Hin]; [done|].
    assert (exists e0, log (force_stop z0 success s).2 = log s ++ e0)
      as [e0 Hlog0].
    { destruct Hq as (_&_&_&_&_&_&_&_&_&evs&Hl&_). by exists evs. }
    assert (zone_pins (zm (force_stop z0 success s).2) !! z = Some pin)
      as Hpin1.
    { destruct Hq as (_&_&_&_&_&Hzp&_). by rewrite Hzp. }
    destruct (force_stop z0 success s) as [ok s1]. cbn [fst snd] in *.
    destruct (IH ok s1 Hpin1 Hin) as (e1 & Hlog1 & Hsweep).
    exists (e0 ++ e1). split; [by rewrite Hlog1, Hlog0, app_assoc|].
    destruct Hsweep as [?|Hcount]; [by left|].
    right. rewrite failed_releases_app. lia.
Qed.

(** The output of a zone recorded active at entry is written off by its
    per-zone stop and, if that write raises, once more by the sweep. *)
Lemma stop_all_zones_sweep s z pin :
  is_Some (active_zones (zm s) !! z) ->
  zone_pins (zm s) !! z = Some pin ->
  levels (hw (stop_all_zones s).2) !! pin = Some 1 \/
  (2 <= failed_releases pin (new_events s (stop_all_zones s).2))%nat.
Proof.
  intros Hz Hpin.
  assert (no_active_zones s = false) as Hguard.
  { destruct (no_active_zones s) eqn:E; [|done].
    apply no_active_zones_spec in E. rewrite E in Hz.
    destruct Hz as [? Hz]. by rewrite lookup_empty in Hz. }
  rewrite (stop_all_zones_unfold s Hguard). cbv zeta. cbn [snd].
  destruct (stop_each_sweep z pin (active_ids s) true s Hpin Hz)
    as (e1 & Hlog1 & Hin1 & _).
  specialize (Hin1 (proj2 (active_ids_spec s z) Hz)).
  pose proof (stop_each_stops (fun _ => True) (active_ids s) true s)
    as [Hq1 _]; [done|].
  set (p1 := stop_each (active_ids s) true s) in *.
  assert (zone_pins (zm p1.2) !! z = Some pin) as Hpin1.
  { destruct Hq1 as (_&_&_&_&_&Hzp&_). by rewrite Hzp. }
  assert (exists e2,
             log (if negb (no_active_zones p1.2)
                  then force_each (active_ids p1.2) p1.1 p1.2
                  else p1).2 = log p1.2 ++ e2 /\
             (levels (hw (if negb (no_active_zones p1.2)
                          then force_each (active_ids p1.2) p1.1 p1.2
                          else p1).2) !! pin = Some 1 \/
              (2 <= failed_releases pin (e1 ++ e2))%nat))
    as (e2 & Hlog2 & H2).
  { destruct Hin1 as [Hlev|[Hcount Hstill]].
    - destruct (negb (no_active_zones p1.2)).
      + destruct (force_each_log (active_ids p1.2) p1.1 p1.2) as [e2 Hl].
        exists e2. split; [done|]. left.
        eapply releases_keeps; [apply force_each_releases | done].
      + exists []. split; [by rewrite app_nil_r | by left].
    - assert (no_active_zones p1.2 = false) as ->.
      { destruct (no_active_zones p1.2) eqn:E; [|done].
        apply no_active_zones_spec in E. rewrite E in Hstill.
        destruct Hstill as [? Hs]. by rewrite lookup_empty in Hs. }
      cbn [negb].
      destruct (force_each_sweep z pin (active_ids p1.2) p1.1 p1.2 Hpin1
                  (proj2 (active_ids_spec p1.2 z) Hstill))
        as (e2 & Hl & Hsweep).
      exists e2. split; [done|].
      destruct Hsweep as [?|Hc2]; [by left|].
      right. rewrite failed_releases_app. lia. }
  set (p2 := if negb (no_active_zones p1.2) then _ else p1) in *.
  assert (exists e3,
             log (match safety_relay (zm p2.2) with
                  | Some relay =>
                      (if (pin_write relay 1 p2.2).1 then p2.1 else false,
                       (pin_write relay 1 p2.2).2)
                  | None => p2
                  end).2 = log p2.2 ++ e3 /\
             releases p2.2
               (match safety_relay (zm p2.2) with
                | Some relay =>
                    (if (pin_write relay 1 p2.2).1 then p2.1 else false,
                     (pin_write relay 1 p2.2).2)
                | None => p2
                end).2) as (e3 & Hlog3 & Hrel3).
  { destruct (safety_relay (zm p2.2)) as [relay|].
    - cbn [snd]. destruct (pin_write relay 1 p2.2) as [ok s3] eqn:E3.
      cbn [snd]. pose proof (pin_release_releases _ _ _ _ E3) as R.
      apply pin_write_inv in E3 as (_&_&_&_&_&_&_&_&Hl).
      by exists [EvPin relay 1 ok].
    - exists []. split; [by rewrite app_nil_r | apply releases_refl]. }
  set (p3 := match safety_relay (zm p2.2) with
             | Some relay => _ | None => p2 end) in *.
  proj. destruct H2 as [Hlev|Hcount].
  - left. by eapply releases_keeps.
  - right.
    assert (log p3.2 = log s ++ (e1 ++ e2) ++ e3) as Hlog
      by (by rewrite Hlog3, Hlog2, Hlog1, <- !app_assoc).
    unfold new_events. proj. rewrite Hlog, drop_app_length.
    rewrite failed_releases_app. lia.
Qed.

(** C3, as amended.  After [stop_all_zones] the active-zone count is 0,
    whatever the state before and whatever the pin writes do.  With no
    zone recorded active at entry it returns True at once and nothing is
    written.  Otherwise the output of every zone recorded active at entry
    is written off by its per-zone stop and, when that write raises, once
    more by the forced sweep over the zones still recorded: it is released
    on return unless both writes raised.  The last write releases the
    configured relay, which is then released on return unless that very
    write raises.  Only the outputs of zones recorded active at entry, and
    the relay, are ever written. *)
Theorem stop_all_zones_guarantee (s : State) :
  get_active_zones_count (stop_all_zones s).2 = 0 /\
  (active_zones (zm s) = ∅ -> stop_all_zones s = (true, s)) /\
  (forall z pin,
      is_Some (active_zones (zm s) !! z) ->
      zone_pins (zm s) !! z = Some pin ->
      levels (hw (stop_all_zones s).2) !! pin = Some 1 \/
      (2 <= failed_releases pin (new_events s (stop_all_zones s).2))%nat) /\
  (active_zones (zm s) <> ∅ ->
   forall relay, safety_relay (zm s) = Some relay ->
   exists n,
     writes (hw (stop_all_zones s).2) = S n /\
     last (log (stop_all_zones s).2)
     = Some (EvPin relay 1 (negb (faults (hw s) n))) /\
     (faults (hw s) n = false ->
      levels (hw (stop_all_zones s).2) !! relay = Some 1)) /\
  (forall q, ~ active_or_relay s q ->
   levels (hw (stop_all_zones s).2) !! q = levels (hw s) !! q).
Proof.
  split; [|split; [|split; [|split]]].
  - destruct (no_active_zones s) eqn:Hguard.
    + unfold stop_all_zones. rewrite Hguard. cbn [snd].
      apply no_active_zones_spec in Hguard.
      unfold get_active_zones_count. by rewrite Hguard, map_size_empty.
    + rewrite (stop_all_zones_unfold s Hguard). cbv zeta. cbn [snd].
      unfold get_active_zones_count. proj. by rewrite map_size_empty.
  - apply stop_all_zones_no_active.
  - intros z pin. apply stop_all_zones_sweep.
  - intros Hne relay Hrelay. by apply stop_all_zones_relay.
  - apply stop_all_zones_stops.
Qed.

(** C3, as stated, fails.  After a [stop_all_zones] during which every
    write raised, the bookkeeping is empty while both zones and the relay
    are still energized; a second [stop_all_zones], with the hardware
    working again, returns True and writes nothing: the relay stays
    energized and no configured output is swept.  And when the sweep does
    run, because the stop of the recorded zone 0 has raised, it writes the
    output of zone 0 and the relay only: the output of zone 1, energized
    and not recorded, stays energized. *)
Lemma stop_all_zones_skips_sweep :
  get_active_zones_count after_failed_stop_all = 0 /\
  (stop_all_zones after_failed_stop_all).1 = true /\
  faults (hw after_failed_stop_all) (writes (hw after_failed_stop_all))
  = false /\
  ~ relay_de_energized (stop_all_zones after_failed_stop_all).2 /\
  0 ∈ energized_zones (stop_all_zones after_failed_stop_all).2 /\
  1 ∈ energized_zones (stop_all_zones after_failed_stop_all).2 /\
  writes (hw (stop_all_zones after_failed_stop_all).2)
  = writes (hw after_failed_stop_all) /\
  energized_zones unrecorded_zone = [1; 0] /\
  active_ids unrecorded_zone = [0] /\
  new_events unrecorded_zone (stop_all_zones unrecorded_zone).2
  = [EvPin 5 1 false; EvPin 5 1 true; EvPin 4 1 true] /\
  energized_zones (stop_all_zones unrecorded_zone).2 = [1].
Proof.
  assert (active_zones (zm after_failed_stop_all) = ∅) as Hempty
    by (vm_compute; reflexivity).
  rewrite (stop_all_zones_no_active _ Hempty). cbn [fst snd].
  split; [vm_compute; reflexivity|]. split; [reflexivity|].
  split; [vm_compute; reflexivity|].
  split; [intros H; vm_compute in H; discriminate|].
  assert (energized_zones after_failed_stop_all = [1; 0]) as ->
    by (vm_compute; reflexivity).
  split; [apply list_elem_of_further, list_elem_of_here|].
  split; [apply list_elem_of_here|]. split; [reflexivity|].
  vm_compute. repeat split.
Qed.

(** With zone 0 running and hardware that works, [stop_all_zones] ends
    with no zone active, the output of zone 0 released and the relay
    released.  When the write of the per-zone stop raises, the call
    returns False, and the sweep has released the output of zone 0 all the
    same. *)
Lemma stop_all_zones_guarantee_witness :
  active_zones (zm zone0_running) <> ∅ /\
  safety_relay (zm zone0_running) = Some 4 /\
  get_active_zones_count (stop_all_zones zone0_running).2 = 0 /\
  (levels (hw (stop_all_zones zone0_running).2) !! 5 = Some 1 \/
   (2 <= failed_releases 5
           (new_events zone0_running
                       (stop_all_zones zone0_running).2))%nat) /\
  levels (hw (stop_all_zones zone0_running).2) !! 4 = Some 1 /\
  (stop_all_zones stop_raises).1 = false /\
  new_events stop_raises (stop_all_zones stop_raises).2
  = [EvPin 5 1 false; EvPin 5 1 true; EvPin 4 1 true] /\
  levels (hw (stop_all_zones stop_raises).2) !! 5 = Some 1.
Proof.
  destruct (stop_all_zones_guarantee zone0_running)
    as (Hcount & _ & Hsweep & Hrelay & _).
  assert (active_zones (zm zone0_running) <> ∅) as Hne.
  { intros Hempty.
    assert (active_zones (zm zone0_running) !! 0 = None) as Hnone
      by (rewrite Hempty; apply lookup_empty).
    vm_compute in Hnone. discriminate Hnone. }
  assert (safety_relay (zm zone0_running) = Some 4) as Hfour by reflexivity.
  assert (is_Some (active_zones (zm zone0_running) !! 0)) as Hzone
    by (vm_compute; eauto).
  assert (zone_pins (zm zone0_running) !! 0 = Some 5) as Hpin
    by (vm_compute; reflexivity).
  destruct (Hrelay Hne 4 Hfour) as (n & _ & _ & Hlevel).
  split; [exact Hne|]. split; [exact Hfour|]. split; [exact Hcount|].
  split; [exact (Hsweep 0 5 Hzone Hpin)|].
  split; [apply Hlevel; reflexivity|].
  split; [by vm_compute|].
  assert (new_events stop_raises (stop_all_zones stop_raises).2
          = [EvPin 5 1 false; EvPin 5 1 true; EvPin 4 1 true]) as Hevs
    by (by vm_compute).
  split; [exact Hevs|].
  destruct (stop_all_zones_guarantee stop_raises) as (_ & _ & Hsweep' & _).
  destruct (Hsweep' 0 5) as [Hreleased|Htwice].
  - vm_compute. eauto.
  - vm_compute. reflexivity.
  - exact Hreleased.
  - rewrite Hevs in Htwice. vm_compute in Htwice. lia.
Defined.

End SweepClaim.

(** ** Status and initialisation of the zones *)

Section StatusExtras.

Import zone_manager.

Lemma zone_status_of_Some zone s st :
  zone_status_of zone s = Some st ->
  cfg_status zone = Some "show" /\
  cfg_id zone = Some (st_id st) /\
  st_active st = is_active (st_id st) s /\
  st_remaining_time st
  = match active_zones (zm s) !! st_id st with
    | Some zd => Z.max 0 (duration zd * 60 - (clock s - start_time zd))
    | None => 0
    end.
Proof.
  unfold zone_status_of. case_bool_decide as Hshow; [|done].
  destruct (cfg_id zone) as [zone_id|]; [|done].
  intros [= <-]. done.
Qed.

(** X12.  [get_zones_status] reports only configured zones whose status is
    "show", says a zone is active exactly when it is in the bookkeeping,
    and gives a remaining time that is never negative, is 0 for a zone
    that is not active, and is no more than the duration once the clock
    has reached the start time. *)
Theorem get_zones_status_entries (configured_zones : list zone_config)
    (s : State) (st : zone_status) :
  st ∈ get_zones_status configured_zones s ->
  (exists zone, zone ∈ configured_zones /\
                cfg_status zone = Some "show" /\
                cfg_id zone = Some (st_id st)) /\
  (st_active st = true <-> is_Some (active_zones (zm s) !! st_id st)) /\
  0 <= st_remaining_time st /\
  (st_active st = false -> st_remaining_time st = 0) /\
  (forall zd, active_zones (zm s) !! st_id st = Some zd ->
              0 <= duration zd -> start_time zd <= clock s ->
              st_remaining_time st <= duration zd * 60).
Proof.
  unfold get_zones_status. intros Hin.
  apply list_elem_of_omap in Hin as (zone & Hzone & Hst).
  apply zone_status_of_Some in Hst as (Hshow & Hid & Hact & Hrem).
  split; [by exists zone|].
  split; [rewrite Hact; apply is_active_spec|].
  rewrite Hrem, Hact. split; [|split].
  - destruct (active_zones (zm s) !! st_id st); lia.
  - intros Hna. destruct (active_zones (zm s) !! st_id st) eqn:Hz; [|done].
    assert (is_active (st_id st) s = true) by (apply is_active_spec; eauto).
    congruence.
  - intros zd -> Hd Ht. lia.
Qed.

Lemma get_zones_status_entries_witness :
  0 <= st_remaining_time
         {| st_id := 0; st_name := "Zona 1"; st_active := true;
            st_remaining_time := 600 |}.
Proof.
  assert ({| st_id := 0; st_name := "Zona 1"; st_active := true;
             st_remaining_time := 600 |}
          ∈ get_zones_status
              [{| cfg_id := Some 0; cfg_pin := Some 5; cfg_name := None;
                  cfg_status := Some "show" |}]
              (start_zone 0 10 bench).2) as Hin.
  { vm_compute. apply list_elem_of_here. }
  exact (proj1 (proj2 (proj2 (get_zones_status_entries _ _ _ Hin)))).
Defined.



(** The loop of [initialize_pins]: it only releases outputs, every pin it
    has kept is released, it has counted the zones it has kept, and each
    comes from the configuration. *)
Lemma init_zone_pins_spec zones pins n s :
  let r := init_zone_pins zones pins n s in
  zm r.2 = zm s /\ releases s r.2 /\
  ((forall z pin, pins !! z = Some pin -> levels (hw s) !! pin = Some 1) ->
   forall z pin, r.1.1 !! z = Some pin ->
                 levels (hw r.2) !! pin = Some 1) /\
  ((n = 0%nat <-> pins = ∅) -> (r.1.2 = 0%nat <-> r.1.1 = ∅)) /\
  (forall z pin, r.1.1 !! z = Some pin ->
     pins !! z = Some pin \/
     exists zone, zone ∈ zones /\ cfg_id zone = Some z /\
                  cfg_pin zone = Some pin).
Proof.
  revert pins n s. induction zones as [|zone rest IH]; intros pins n s.
  { cbn. split; [done|]. split; [apply releases_refl|]. eauto. }
  cbn [init_zone_pins].
  assert (forall pins' n' s',
    zm s' = zm s -> releases s s' ->
    ((forall z pin, pins !! z = Some pin -> levels (hw s) !! pin = Some 1) ->
     forall z pin, pins' !! z = Some pin ->
                   levels (hw s') !! pin = Some 1) ->
    ((n = 0%nat <-> pins = ∅) -> (n' = 0%nat <-> pins' = ∅)) ->
    (forall z pin, pins' !! z = Some pin ->
       pins !! z = Some pin \/
       cfg_id zone = Some z /\ cfg_pin zone = Some pin) ->
    let r := init_zone_pins rest pins' n' s' in
    zm r.2 = zm s /\ releases s r.2 /\
    ((forall z pin, pins !! z = Some pin -> levels (hw s) !! pin = Some 1) ->
     forall z pin, r.1.1 !! z = Some pin ->
                   levels (hw r.2) !! pin = Some 1) /\
    ((n = 0%nat <-> pins = ∅) -> (r.1.2 = 0%nat <-> r.1.1 = ∅)) /\
    (forall z pin, r.1.1 !! z = Some pin ->
       pins !! z = Some pin \/
       exists zone', zone' ∈ zone :: rest /\ cfg_id zone' = Some z /\
                     cfg_pin zone' = Some pin)) as Hstep.
  { intros pins' n' s' Hzm Hrel Hlev Hcnt Hprov r.
    destruct (IH pins' n' s') as (Hzm' & Hrel' & Hlev' & Hcnt' & Hprov').
    fold r in Hzm', Hrel', Hlev', Hcnt', Hprov'.
    split; [congruence|]. split; [by eapply releases_trans|].
    split; [intros H; apply Hlev', Hlev, H|].
    split; [intros H; apply Hcnt', Hcnt, H|].
    intros z pin Hz. destruct (Hprov' z pin Hz) as [Hold|(z' & Hin & ? & ?)].
    - destruct (Hprov z pin Hold) as [?|[? ?]]; [by left|].
      right. exists zone. split; [apply list_elem_of_here | done].
    - right. exists z'. split; [by apply list_elem_of_further | done]. }
  destruct (cfg_id zone) as [zone_id|] eqn:Eid;
    [destruct (cfg_pin zone) as [pin_number|] eqn:Epin|].
  2,3: apply Hstep; eauto using releases_refl.
  destruct (pin_write pin_number 1 s) as [ok s1] eqn:E1.
  pose proof (pin_release_releases _ _ _ _ E1) as R1.
  apply pin_write_inv in E1 as (Hz1 & _ & _ & _ & _ & Hl1 & _).
  destruct ok.
  - apply Hstep; [done|done| | |].
    + intros Hlev z pin Hz.
      apply lookup_insert_Some in Hz as [[<- <-]|[_ Hz]].
      * rewrite Hl1. apply lookup_insert_eq.
      * eapply releases_keeps; [exact R1 | by eapply Hlev].
    + intros _. split; [done|]. intros H.
      by apply insert_non_empty in H.
    + intros z pin Hz.
      apply lookup_insert_Some in Hz as [[<- <-]|[_ Hz]]; eauto.
  - apply Hstep; [done|done| | |].
    + intros Hlev z pin Hz. eapply releases_keeps; [exact R1 | by eapply Hlev].
    + done.
    + eauto.
Qed.

Lemma initialize_pins_spec zones safety_relay_pin s :
  let r := initialize_pins (Some (zones, safety_relay_pin)) s in
  active_zones (zm r.2) = active_zones (zm s) /\
  releases s r.2 /\
  (forall z pin, zone_pins (zm r.2) !! z = Some pin ->
     levels (hw r.2) !! pin = Some 1 /\
     exists zone, zone ∈ zones /\ cfg_id zone = Some z /\
                  cfg_pin zone = Some pin) /\
  (r.1 = true <-> zone_pins (zm r.2) <> ∅) /\
  match safety_relay_pin with
  | Some pin => safety_relay (zm r.2) = None \/
                safety_relay (zm r.2) = Some pin /\
                levels (hw r.2) !! pin = Some 1
  | None => safety_relay (zm r.2) = safety_relay (zm s)
  end.
Proof.
  unfold initialize_pins.
  pose proof (init_zone_pins_spec zones ∅ 0%nat s) as H. cbv zeta in H.
  destruct (init_zone_pins zones ∅ 0%nat s) as [[pins n] s1].
  cbn [fst snd] in H. destruct H as (Hzm & Hrel & Hlev & Hcnt & Hprov).
  specialize (Hlev ltac:(intros ? ? Hx; by rewrite lookup_empty in Hx)).
  specialize (Hcnt ltac:(done)).
  set (s2 := match safety_relay_pin with
             | Some pin => _ | None => s1 end).
  assert (active_zones (zm s2) = active_zones (zm s1) /\
          releases s1 s2 /\
          match safety_relay_pin with
          | Some pin => safety_relay (zm s2) = None \/
                        safety_relay (zm s2) = Some pin /\
                        levels (hw s2) !! pin = Some 1
          | None => safety_relay (zm s2) = safety_relay (zm s1)
          end) as (Hact2 & Hrel2 & Hrelay).
  { subst s2. destruct safety_relay_pin as [pin|];
      [|split; [done|]; split; [apply releases_refl | done]].
    destruct (pin_write pin 1 s1) as [ok s'] eqn:E.
    pose proof (pin_release_releases _ _ _ _ E) as R.
    apply pin_write_inv in E as (Hz & _ & _ & _ & _ & Hl & _).
    unfold set_safety_relay. proj.
    split; [by rewrite Hz|]. split; [exact R|].
    destruct ok; [right | by left]. split; [done|].
    rewrite Hl. apply lookup_insert_eq. }
  clearbody s2. cbv zeta. unfold set_zone_pins. proj.
  split; [by rewrite Hact2, Hzm|].
  split; [by eapply releases_trans|].
  split.
  { intros z pin Hz. split.
    - eapply releases_keeps; [exact Hrel2 | by eapply Hlev].
    - destruct (Hprov z pin Hz) as [Hx|?]; [|done].
      by rewrite lookup_empty in Hx. }
  split.
  { rewrite bool_decide_eq_true. rewrite <- Hcnt. lia. }
  destruct safety_relay_pin; [done|]. by rewrite Hrelay, Hzm.
Qed.

(** X14.  With settings that are empty or missing [initialize_pins]
    returns False and changes nothing.  Otherwise, whatever the hardware
    does, afterwards every zone that is configured has its output released
    and comes from an entry of the settings with that id and pin, the
    result is True exactly when some zone is configured, the relay that
    the settings name is either bound and released or not bound at all,
    and the record of the active zones is left as it was. *)
Theorem initialize_pins_result (zones : list zone_config)
    (safety_relay_pin : option Z) (s : State) :
  initialize_pins None s = (false, s) /\
  (forall z pin,
      zone_pins (zm (initialize_pins (Some (zones, safety_relay_pin)) s).2)
        !! z = Some pin ->
      levels (hw (initialize_pins (Some (zones, safety_relay_pin)) s).2)
        !! pin = Some 1 /\
      exists zone, zone ∈ zones /\ cfg_id zone = Some z /\
                   cfg_pin zone = Some pin) /\
  ((initialize_pins (Some (zones, safety_relay_pin)) s).1 = true <->
   zone_pins (zm (initialize_pins (Some (zones, safety_relay_pin)) s).2)
   <> ∅) /\
  (forall pin, safety_relay_pin = Some pin ->
      safety_relay
        (zm (initialize_pins (Some (zones, safety_relay_pin)) s).2) = None \/
      safety_relay
        (zm (initialize_pins (Some (zones, safety_relay_pin)) s).2)
      = Some pin /\
      levels (hw (initialize_pins (Some (zones, safety_relay_pin)) s).2)
        !! pin = Some 1) /\
  active_zones (zm (initialize_pins (Some (zones, safety_relay_pin)) s).2)
  = active_zones (zm s).
Proof.
  split; [reflexivity|].
  destruct (initialize_pins_spec zones safety_relay_pin s)
    as (Hact & _ & Hpins & Hres & Hrelay).
  split; [exact Hpins|]. split; [exact Hres|]. split; [|exact Hact].
  intros pin ->. exact Hrelay.
Qed.

(** X15.  Initialising the pins from settings that are not empty, on a
    controller with no zone recorded active, and with a relay pin in the
    settings or no relay bound before, leaves bookkeeping and outputs in
    agreement, also when writes to pins fail. *)
Theorem initialize_pins_consistent (zones : list zone_config)
    (safety_relay_pin : option Z) (s : State) :
  active_zones (zm s) = ∅ ->
  is_Some safety_relay_pin \/ safety_relay (zm s) = None ->
  consistent (initialize_pins (Some (zones, safety_relay_pin)) s).2.
Proof.
  intros Hidle Hrelay.
  destruct (initialize_pins_spec zones safety_relay_pin s)
    as (Hact & _ & Hpins & _ & Hr).
  cbv zeta in *. unfold consistent. rewrite Hact, Hidle.
  split; [|split].
  - intros z [zd Hz]. by rewrite lookup_empty in Hz.
  - intros z pin Hz. destruct (Hpins z pin Hz) as [Hl _].
    rewrite Hl, lookup_empty. split; [done | intros [? ?]; done].
  - intros relay Hsr. split; [|done]. intros Hon. exfalso.
    destruct safety_relay_pin as [pin|].
    + destruct Hr as [Hr|[Hr Hl]]; congruence.
    + destruct Hrelay as [[? ?]|Hnone]; [done|]. congruence.
Qed.

Lemma initialize_pins_consistent_witness :
  consistent
    (initialize_pins
       (Some ([{| cfg_id := Some 0; cfg_pin := Some 5; cfg_name := None;
                  cfg_status := Some "show" |};
               {| cfg_id := Some 1; cfg_pin := Some 6; cfg_name := None;
                  cfg_status := Some "hide" |}],
              Some 4))
       (with_faults (fun n => Nat.eqb n 1) bench)).2.
Proof.
  apply initialize_pins_consistent.
  - reflexivity.
  - left. eauto.
Defined.

End StatusExtras.

(** ** Months, times and dates of the programs *)

Section ProgramExtras.

Import program_manager.

Lemma dict_get_elem_of {A} (d : list (string * A)) (k : string)
    (default v : A) :
  dict_get d k default = v -> v <> default -> (k, v) ∈ d.
Proof.
  unfold dict_get. induction d as [|[k' v'] d IH]; cbn [find]; [congruence|].
  cbn [fst]. destruct (String.eqb k' k) eqn:E.
  - apply String.eqb_eq in E as ->. cbn [snd]. intros -> _.
    apply list_elem_of_here.
  - intros H1 H2. apply list_elem_of_further. by apply IH.
Qed.

Lemma months_map_get (name : string) (month : Z) :
  (name, month) ∈ months_map -> dict_get months_map name 0 = month.
Proof.
  unfold months_map. rewrite !elem_of_cons, elem_of_nil.
  intros H. repeat destruct H as [[= -> ->]|H]; done.
Qed.

(** X16.  In a month of the calendar a program is active exactly when its
    list of months has the Italian name of the month, written as in the
    table of the function; a program with no months is never active, and
    names that the table does not have count for nothing. *)
Theorem is_program_active_in_current_month_iff (program : Program)
    (s : State) (year month day : Z) :
  today s = (year, month, day) -> 1 <= month <= 12 ->
  (is_program_active_in_current_month program s = true <->
   exists name, (name, month) ∈ months_map /\ name ∈ months program).
Proof.
  intros Htoday Hmonth. unfold is_program_active_in_current_month.
  rewrite Htoday.
  destruct (months program) as [|m0 ms] eqn:Hms.
  { split; [done|]. intros (name & _ & Hin). by apply elem_of_nil in Hin. }
  rewrite bool_decide_eq_true, list_elem_of_In, in_map_iff.
  split.
  - intros (name & Hget & Hin). exists name. split.
    + apply (dict_get_elem_of _ _ 0); [done | lia].
    + by apply list_elem_of_In.
  - intros (name & Htab & Hin). exists name. split.
    + by apply months_map_get.
    + by apply list_elem_of_In.
Qed.

Lemma is_program_active_in_current_month_iff_witness :
  is_program_active_in_current_month one_step bench = true <->
  exists name, (name, 6) ∈ months_map /\ name ∈ months one_step.
Proof.
  apply (is_program_active_in_current_month_iff one_step bench 2024 6 15).
  - reflexivity.
  - lia.
Defined.

(** X17.  The time test of [check_programs] holds exactly in the minute of
    the activation time and in the minute before it, counted within the
    day: the minute after the activation time does not match, and 23:59
    does not match a program of 00:00. *)
Theorem time_match_iff
    (current_hour current_minute activation_hour activation_minute : Z) :
  0 <= current_minute <= 59 -> 0 <= activation_minute <= 59 ->
  (time_match current_hour current_minute activation_hour activation_minute
   = true <->
   0 <= (activation_hour * 60 + activation_minute)
        - (current_hour * 60 + current_minute) <= 1).
Proof.
  intros Hc Ha. unfold time_match.
  destruct (Z.eqb_spec current_hour activation_hour);
    destruct (Z.eqb_spec current_minute activation_minute);
    destruct (Z.eqb_spec current_minute (activation_minute - 1));
    destruct (Z.eqb_spec activation_minute 0);
    destruct (Z.eqb_spec current_minute 59);
    destruct (Z.eqb_spec current_hour (activation_hour - 1));
    cbn [andb]; split; (done || lia).
Qed.

Lemma time_match_iff_witness :
  time_match 5 59 6 0 = true <-> 0 <= (6 * 60 + 0) - (5 * 60 + 59) <= 1.
Proof. apply time_match_iff; lia. Defined.

(** *** Days of the year *)

Lemma days_in_month_step (year month : Z) :
  1 <= month <= 12 ->
  exists n,
    days_in_month year !! Z.to_nat month = Some n /\ 28 <= n <= 31 /\
    days_before_month_spec year (month + 1)
    = days_before_month_spec year month + n.
Proof.
  intros Hm.
  assert (month = 1 \/ month = 2 \/ month = 3 \/ month = 4 \/
          month = 5 \/ month = 6 \/ month = 7 \/ month = 8 \/
          month = 9 \/ month = 10 \/ month = 11 \/ month = 12)
    as Hcases by lia.
  unfold days_in_month, days_before_month_spec.
  rewrite <- (_is_leap_year_calendar year).
  destruct (_is_leap_year year);
    repeat (destruct Hcases as [->|Hcases];
            [eexists; split; [reflexivity|]; split; [lia|reflexivity]|]);
    subst month; eexists; (split; [reflexivity|]); split;
    (lia || reflexivity).
Qed.

Lemma days_before_month_le (year a b : Z) :
  1 <= a <= b -> b <= 13 ->
  days_before_month_spec year a <= days_before_month_spec year b.
Proof.
  intros Hab Hb. remember (Z.to_nat (b - a)) as k eqn:Hk.
  revert b Hab Hb Hk. induction k as [|k IH]; intros b Hab Hb Hk.
  - assert (b = a) as -> by lia. lia.
  - destruct (days_in_month_step year (b - 1)) as (n & _ & Hn & Hstep);
      [lia|].
    replace (b - 1 + 1) with b in Hstep by lia.
    specialize (IH (b - 1)). lia.
Qed.

Lemma days_before_month_13 (year : Z) :
  days_before_month_spec year 13 = if _is_leap_year year then 366 else 365.
Proof.
  unfold days_before_month_spec. rewrite <- (_is_leap_year_calendar year).
  by destruct (_is_leap_year year).
Qed.

(** The day number of a date of the calendar. *)
Lemma valid_day_of_year (year month day : Z) :
  valid_date (year, month, day) ->
  exists n b len,
    _day_of_year year month day = Some n /\ n = day + b /\
    b = days_before_month_spec year month /\
    days_in_month year !! Z.to_nat month = Some len /\
    1 <= day <= len /\ 0 <= b /\
    b + len <= (if _is_leap_year year then 366 else 365).
Proof.
  intros (_ & Hm & len & Hlen & Hd).
  exists (day + days_before_month_spec year month),
         (days_before_month_spec year month), len.
  rewrite _day_of_year_spec.
  assert ((month <=? 13) = true) as -> by (apply Z.leb_le; lia).
  split; [done|]. split; [done|]. split; [done|]. split; [done|].
  split; [done|].
  destruct (days_in_month_step year month Hm) as (n & Hn & _ & Hstep).
  assert (n = len) as -> by congruence.
  pose proof (days_before_month_le year 1 month ltac:(lia) ltac:(lia)) as H0.
  pose proof (days_before_month_le year (month + 1) 13
                ltac:(lia) ltac:(lia)) as H1.
  rewrite days_before_month_13 in H1.
  assert (days_before_month_spec year 1 = 0) as E0 by reflexivity.
  lia.
Qed.

Lemma day_of_year_order (year month1 day1 month2 day2 : Z) :
  valid_date (year, month1, day1) -> valid_date (year, month2, day2) ->
  exists n1 n2,
    _day_of_year year month1 day1 = Some n1 /\
    _day_of_year year month2 day2 = Some n2 /\
    1 <= n1 <= (if _is_leap_year year then 366 else 365) /\
    (n1 < n2 <-> earlier month1 day1 month2 day2).
Proof.
  intros V1 V2.
  destruct (valid_day_of_year _ _ _ V1)
    as (n1 & b1 & l1 & E1 & -> & Hb1 & Hl1 & Hd1 & Hpos1 & Hend1).
  destruct (valid_day_of_year _ _ _ V2)
    as (n2 & b2 & l2 & E2 & -> & Hb2 & Hl2 & Hd2 & Hpos2 & Hend2).
  exists (day1 + b1), (day2 + b2).
  split; [done|]. split; [done|]. split; [lia|].
  destruct V1 as (_ & Hm1 & _), V2 as (_ & Hm2 & _).
  unfold earlier.
  destruct (Z.lt_trichotomy month1 month2) as [Hlt|[->|Hgt]].
  - destruct (days_in_month_step year month1 Hm1) as (n & Hn & _ & Hstep).
    assert (n = l1) as -> by congruence.
    pose proof (days_before_month_le year (month1 + 1) month2
                  ltac:(lia) ltac:(lia)).
    lia.
  - assert (b1 = b2) by congruence. lia.
  - destruct (days_in_month_step year month2 Hm2) as (n & Hn & _ & Hstep).
    assert (n = l2) as -> by congruence.
    pose proof (days_before_month_le year (month2 + 1) month1
                  ltac:(lia) ltac:(lia)).
    lia.
Qed.

(** X18.  On the dates of one year [_day_of_year] never fails, gives a
    number from 1 to the length of the year (365, or 366 in a leap year),
    and keeps the order of the calendar: an earlier date has the smaller
    number. *)
Theorem day_of_year_calendar (year month1 day1 month2 day2 : Z) :
  valid_date (year, month1, day1) -> valid_date (year, month2, day2) ->
  exists n1 n2,
    _day_of_year year month1 day1 = Some n1 /\
    _day_of_year year month2 day2 = Some n2 /\
    1 <= n1 <= (if _is_leap_year year then 366 else 365) /\
    (n1 < n2 <-> earlier month1 day1 month2 day2).
Proof. apply day_of_year_order. Qed.

Lemma valid_date_2024_02_29 : valid_date (2024, 2, 29).
Proof.
  split; [lia|]. split; [lia|]. exists 29. split; [reflexivity | lia].
Qed.

Lemma valid_date_2024_03_01 : valid_date (2024, 3, 1).
Proof.
  split; [lia|]. split; [lia|]. exists 31. split; [reflexivity | lia].
Qed.

Lemma day_of_year_calendar_witness :
  exists n1 n2,
    _day_of_year 2024 2 29 = Some n1 /\ _day_of_year 2024 3 1 = Some n2 /\
    1 <= n1 <= (if _is_leap_year 2024 then 366 else 365) /\
    (n1 < n2 <-> earlier 2 29 3 1).
Proof.
  exact (day_of_year_calendar 2024 2 29 3 1
           valid_date_2024_02_29 valid_date_2024_03_01).
Defined.

(** X19.  [_day_of_year] raises exactly for a month of 14 or more: the
    table has thirteen entries.  A month of 13 is accepted, and for a
    month of 1 or less the loop does not run and the result is the day. *)
Theorem day_of_year_raises (year month day : Z) :
  (_day_of_year year month day = None <-> 14 <= month) /\
  (month <= 1 -> _day_of_year year month day = Some day).
Proof.
  split.
  - rewrite _day_of_year_spec. destruct (Z.leb_spec month 13); split;
      (done || lia).
  - intros Hm. unfold _day_of_year.
    replace (Z.to_nat (month - 1)) with 0%nat by lia. reflexivity.
Qed.

(** *** The date that is written and read back *)

Lemma append_cons (c : ascii) (a b : string) :
  String c a +:+ b = String c (a +:+ b).
Proof. reflexivity. Qed.

Lemma no_dash_append (a b : string) :
  no_dash a = true -> no_dash b = true -> no_dash (a +:+ b) = true.
Proof.
  induction a as [|c a IH]; [done|]. rewrite append_cons. cbn [no_dash].
  intros [Hc Ha]%andb_true_iff Hb. rewrite Hc. cbn [andb]. by apply IH.
Qed.

Lemma digit_char_no_dash (d : Z) :
  0 <= d < 10 -> Ascii.eqb (digit_char d) "-"%char = false.
Proof.
  intros Hd.
  assert (d = 0 \/ d = 1 \/ d = 2 \/ d = 3 \/ d = 4 \/ d = 5 \/
          d = 6 \/ d = 7 \/ d = 8 \/ d = 9) as Hcases by lia.
  repeat (destruct Hcases as [->|Hcases]; [reflexivity|]).
  subst d. reflexivity.
Qed.

Lemma no_dash_fmt_digits (fuel : nat) (n : Z) (acc : string) :
  no_dash acc = true -> no_dash (fmt_digits fuel n acc) = true.
Proof.
  revert n acc. induction fuel as [|fuel IH]; intros n acc Hacc; [done|].
  cbn [fmt_digits].
  assert (no_dash (String (digit_char (n mod 10)) acc) = true) as H.
  { cbn [no_dash]. rewrite digit_char_no_dash, Hacc; [done|].
    apply Z.mod_pos_bound. lia. }
  destruct (n / 10 =? 0); [done | by apply IH].
Qed.

Lemma no_dash_fmt_d (n : Z) : no_dash (fmt_d n) = true.
Proof. by apply no_dash_fmt_digits. Qed.

Lemma no_dash_fmt_02d (n : Z) : no_dash (fmt_02d n) = true.
Proof.
  unfold fmt_02d. pose proof (no_dash_fmt_d n).
  destruct (_ <? _)%nat; [|done]. cbn [no_dash]. by rewrite H.
Qed.

Lemma split_dash_aux_plain (a cur : string) :
  no_dash a = true -> split_dash_aux a cur = [String.rev_app cur a].
Proof.
  revert cur. induction a as [|c a IH]; intros cur; [done|].
  cbn [no_dash split_dash_aux]. intros [Hc Ha]%andb_true_iff.
  apply negb_true_iff in Hc. rewrite Hc. by rewrite IH.
Qed.

Lemma split_dash_aux_dash (a rest cur : string) :
  no_dash a = true ->
  split_dash_aux (a +:+ String "-" rest) cur
  = String.rev_app cur a :: split_dash_aux rest EmptyString.
Proof.
  revert cur. induction a as [|c a IH]; intros cur.
  - intros _. reflexivity.
  - rewrite append_cons. cbn [no_dash split_dash_aux].
    intros [Hc Ha]%andb_true_iff.
    apply negb_true_iff in Hc. rewrite Hc. by rewrite IH.
Qed.

(** The date string of [_get_formatted_date] splits at its dashes into the
    three numbers as they were formatted. *)
Lemma split_formatted_date (s : State) (year month day : Z) :
  today s = (year, month, day) ->
  split_dash (_get_formatted_date s)
  = [fmt_d year; fmt_02d month; fmt_02d day].
Proof.
  intros Htoday. unfold _get_formatted_date, split_dash. rewrite Htoday.
  rewrite !(append_cons "-" EmptyString).
  change (EmptyString +:+ ?x) with x.
  rewrite split_dash_aux_dash by apply no_dash_fmt_d.
  change (EmptyString +:+ ?x) with x.
  rewrite split_dash_aux_dash by apply no_dash_fmt_02d.
  rewrite split_dash_aux_plain by apply no_dash_fmt_02d.
  reflexivity.
Qed.

(** Reading back a last run date that [_get_formatted_date] wrote on a date
    of the calendar. *)
Lemma read_formatted_date (py_int : string -> option Z) (s0 : State)
    (p : Program) (year month day : Z) :
  today s0 = (year, month, day) ->
  last_run_date p = Some (_get_formatted_date s0) ->
  py_int (fmt_d year) = Some year ->
  py_int (fmt_02d month) = Some month ->
  py_int (fmt_02d day) = Some day ->
  valid_date (year, month, day) ->
  exists n, _day_of_year year month day = Some n /\
            read_last_run py_int p = (n, year) /\
            1 <= n <= (if _is_leap_year year then 366 else 365).
Proof.
  intros Htoday Hlast Hy Hm Hd Hvalid.
  destruct (day_of_year_order _ _ _ _ _ Hvalid Hvalid)
    as (n & n' & Hn & _ & Hrange & _).
  exists n. split; [done|]. split; [|done].
  unfold read_last_run.
  rewrite Hlast, (split_formatted_date _ _ _ _ Htoday), Hy, Hm, Hd, Hn.
  reflexivity.
Qed.

Lemma due_daily_after (py_int : string -> option Z) (s0 : State)
    (p : Program) (year0 month0 day0 year month day : Z) :
  today s0 = (year0, month0, day0) ->
  last_run_date p = Some (_get_formatted_date s0) ->
  py_int (fmt_d year0) = Some year0 ->
  py_int (fmt_02d month0) = Some month0 ->
  py_int (fmt_02d day0) = Some day0 ->
  valid_date (year0, month0, day0) -> valid_date (year, month, day) ->
  recurrence p = None \/ recurrence p = Some "giornaliero" ->
  exists due,
    is_program_due_today py_int (year, month, day) p = Some due /\
    (due = true <-> year0 <> year \/ earlier month0 day0 month day).
Proof.
  intros Htoday Hlast Hy Hm Hd V0 V Hrec.
  destruct (read_formatted_date py_int s0 p _ _ _ Htoday Hlast Hy Hm Hd V0)
    as (n0 & Hn0 & Hread & Hr0).
  destruct (day_of_year_order _ _ _ _ _ V V) as (n & _ & Hn & _ & Hr & _).
  unfold is_program_due_today. rewrite Hn, Hread.
  assert ((n0 =? -1) = false) as -> by (apply Z.eqb_neq; lia).
  assert (default "giornaliero" (recurrence p) = "giornaliero") as ->
    by (destruct Hrec as [-> | ->]; reflexivity).
  cbv zeta. rewrite String.eqb_refl.
  eexists. split; [reflexivity|]. rewrite Z.leb_le.
  destruct (Z.eqb_spec year0 year) as [->|Hne].
  - destruct (day_of_year_order _ _ _ _ _ V0 V)
      as (n0' & n' & Hn0' & Hn' & _ & Horder).
    assert (n0' = n0) as -> by congruence.
    assert (n' = n) as -> by congruence.
    rewrite <- Horder. split; [lia|]. intros [?|?]; [done | lia].
  - split; [by left|]. intros _.
    destruct (_is_leap_year year0); lia.
Qed.

(** X20.  A daily program (recurrence "giornaliero", or none) whose last
    run date was written on a date of the calendar is due on every date
    but the day of that run and the days before it in the same year: it
    is due the next day, and in any other year. *)
Theorem daily_program_due (py_int : string -> option Z) (s0 : State)
    (p : Program) (year0 month0 day0 year month day : Z) :
  today s0 = (year0, month0, day0) ->
  last_run_date p = Some (_get_formatted_date s0) ->
  py_int (fmt_d year0) = Some year0 ->
  py_int (fmt_02d month0) = Some month0 ->
  py_int (fmt_02d day0) = Some day0 ->
  valid_date (year0, month0, day0) -> valid_date (year, month, day) ->
  recurrence p = None \/ recurrence p = Some "giornaliero" ->
  exists due,
    is_program_due_today py_int (year, month, day) p = Some due /\
    (due = true <-> year0 <> year \/ earlier month0 day0 month day).
Proof. apply due_daily_after. Qed.

Lemma valid_date_bench : valid_date (today bench).
Proof.
  split; [lia|]. split; [lia|]. exists 30. split; [reflexivity | lia].
Qed.

Lemma valid_date_2024_06_16 : valid_date (2024, 6, 16).
Proof.
  split; [lia|]. split; [lia|]. exists 30. split; [reflexivity | lia].
Qed.

Lemma daily_program_due_witness :
  exists due,
    is_program_due_today decimal (2024, 6, 16)
      (set_last_run (_get_formatted_date bench) one_step) = Some due /\
    (due = true <-> 2024 <> 2024 \/ earlier 6 15 6 16).
Proof.
  exact (daily_program_due decimal bench
           (set_last_run (_get_formatted_date bench) one_step)
           2024 6 15 2024 6 16 eq_refl eq_refl eq_refl eq_refl eq_refl
           valid_date_bench valid_date_2024_06_16 (or_intror eq_refl)).
Defined.

Lemma has_program_elem_of (pid : string) (p : Program) (s : State) :
  (pid, p) ∈ programs s -> has_program pid s = true.
Proof.
  intros Hin. unfold has_program. apply existsb_exists.
  exists (pid, p). split; [by apply list_elem_of_In|].
  apply String.eqb_refl.
Qed.

(** X21.  A program is not due again on the day it has run: once
    [update_last_run_date] has written the date of today, on a date of the
    calendar, [is_program_due_today] is False for the program, whatever
    its recurrence. *)
Theorem run_today_not_due (py_int : string -> option Z) (pid : string)
    (p : Program) (s : State) (year month day : Z) :
  today s = (year, month, day) -> valid_date (year, month, day) ->
  py_int (fmt_d year) = Some year ->
  py_int (fmt_02d month) = Some month ->
  py_int (fmt_02d day) = Some day ->
  (pid, p) ∈ programs (update_last_run_date pid s) ->
  is_program_due_today py_int (today s) p = Some false.
Proof.
  intros Htoday V Hy Hm Hd Hin.
  assert (has_program pid s = true) as Hhas.
  { destruct (has_program pid s) eqn:E; [done|].
    unfold update_last_run_date in Hin. rewrite E in Hin.
    by rewrite (has_program_elem_of _ _ _ Hin) in E. }
  pose proof (update_last_run_date_entries pid s pid p Hhas Hin eq_refl)
    as Hlast.
  destruct (read_formatted_date py_int s p _ _ _ Htoday Hlast Hy Hm Hd V)
    as (n & Hn & Hread & Hr).
  rewrite Htoday. unfold is_program_due_today. rewrite Hn, Hread.
  assert ((n =? -1) = false) as -> by (apply Z.eqb_neq; lia).
  rewrite Z.eqb_refl. cbv zeta. rewrite due_by_policy.
  replace (n - n) with 0 by lia. f_equal.
  unfold due_spec. destruct (policy_of_spec p); try reflexivity.
  apply Z.leb_gt. lia.
Qed.

Lemma run_today_not_due_witness :
  is_program_due_today decimal (today bench)
    (set_last_run (_get_formatted_date bench) one_step) = Some false.
Proof.
  apply (run_today_not_due decimal "1" _ bench 2024 6 15 eq_refl
           valid_date_bench eq_refl eq_refl eq_refl).
  vm_compute. apply list_elem_of_here.
Defined.

(** *** Stopping and resetting *)

Lemma store_kept_refl s : store_kept s s.
Proof. done. Qed.

Lemma store_kept_trans s1 s2 s3 :
  store_kept s1 s2 -> store_kept s2 s3 -> store_kept s1 s3.
Proof. intros [? ?] [? ?]. split; congruence. Qed.

Lemma pin_write_store_kept p v s : store_kept s (pin_write p v s).2.
Proof. done. Qed.

Lemma stop_zone_store_kept z s : store_kept s (zone_manager.stop_zone z s).2.
Proof.
  unfold zone_manager.stop_zone.
  destruct (zone_pins (zm s) !! z) as [pin|]; [|done].
  pose proof (pin_write_store_kept pin 1 s) as H1.
  destruct (pin_write pin 1 s) as [ok s1]. cbn [snd] in H1.
  destruct ok; cbn [negb]; [|done].
  set (s2 := match active_zones (zm s1) !! z with
             | Some _ => _ | None => _ end).
  assert (store_kept s1 s2) as H2.
  { subst s2. destruct (active_zones (zm s1) !! z); [|done].
    destruct (active_zones (zm s) !! z); [|done].
    by destruct (negb _). }
  clearbody s2.
  assert (store_kept s s2) as H by (by eapply store_kept_trans).
  destruct (safety_relay (zm s2)) as [relay|]; [|done].
  destruct (_ && _); [|done].
  pose proof (pin_write_store_kept relay 1 s2) as H3.
  destruct (pin_write relay 1 s2) as [ok3 s3]. cbn [snd] in *.
  by eapply store_kept_trans.
Qed.

Lemma stop_each_store_kept ids success s :
  store_kept s (zone_manager.stop_each ids success s).2.
Proof.
  revert success s. induction ids as [|z ids IH]; intros success s; [done|].
  cbn [zone_manager.stop_each].
  pose proof (stop_zone_store_kept z s) as H1.
  destruct (zone_manager.stop_zone z s) as [ok s1]. cbn [snd] in H1.
  eapply store_kept_trans; [exact H1 | apply IH].
Qed.

Lemma force_stop_store_kept z success s :
  store_kept s (zone_manager.force_stop z success s).2.
Proof.
  unfold zone_manager.force_stop.
  set (w := match zone_pins (zm s) !! z with
            | Some pin => _ | None => _ end).
  assert (store_kept s w.2) as H1.
  { subst w. destruct (zone_pins (zm s) !! z);
      [apply pin_write_store_kept | done]. }
  destruct w as [ok s1]. cbn [snd] in H1.
  destruct ok; cbn [negb]; [|done].
  by destruct (active_zones (zm s1) !! z).
Qed.

Lemma force_each_store_kept ids success s :
  store_kept s (zone_manager.force_each ids success s).2.
Proof.
  revert success s. induction ids as [|z ids IH]; intros success s; [done|].
  cbn [zone_manager.force_each].
  pose proof (force_stop_store_kept z success s) as H1.
  destruct (zone_manager.force_stop z success s) as [ok s1].
  cbn [snd] in H1.
  eapply store_kept_trans; [exact H1 | apply IH].
Qed.

Lemma stop_all_zones_store_kept s :
  store_kept s (zone_manager.stop_all_zones s).2.
Proof.
  destruct (zone_manager.no_active_zones s) eqn:Hguard.
  { unfold zone_manager.stop_all_zones. by rewrite Hguard. }
  rewrite (stop_all_zones_unfold s Hguard). cbv zeta. cbn [snd].
  pose proof (stop_each_store_kept (zone_manager.active_ids s) true s) as H1.
  set (p1 := zone_manager.stop_each (zone_manager.active_ids s) true s) in *.
  assert (store_kept p1.2
            (if negb (zone_manager.no_active_zones p1.2)
             then zone_manager.force_each (zone_manager.active_ids p1.2)
                    p1.1 p1.2
             else p1).2) as H2.
  { destruct (negb _); [apply force_each_store_kept | done]. }
  set (p2 := if negb (zone_manager.no_active_zones p1.2) then _ else p1)
    in *.
  eapply store_kept_trans; [exact H1|].
  eapply store_kept_trans; [exact H2|].
  destruct (safety_relay (zm p2.2)) as [relay|]; [|done].
  cbn [snd]. exact (pin_write_store_kept relay 1 p2.2).
Qed.

Lemma stop_all_zones_clears s :
  active_zones (zm (zone_manager.stop_all_zones s).2) = ∅.
Proof.
  destruct (zone_manager.no_active_zones s) eqn:Hguard.
  - unfold zone_manager.stop_all_zones. rewrite Hguard.
    by apply no_active_zones_spec.
  - by rewrite (stop_all_zones_unfold s Hguard).
Qed.

(** A load of the file that a save has just written changes neither the
    file nor the flag and the id in memory. *)
Lemma load_after_save s :
  let s1 := program_state.save_program_state s in
  let s2 := program_state.load_program_state s1 in
  disk s2 = disk s1 /\
  ps_program_running (ps s2) = ps_program_running (ps s) /\
  ps_current_program_id (ps s2) = ps_current_program_id (ps s).
Proof.
  cbv zeta.
  pose proof (save_disk s) as Hd. destruct (save_ps s) as [Hr Hi].
  destruct (load_dict _ _ _ Hd) as (Lr & Li & Ld).
  rewrite Lr, Li, Ld, Hd, Hr, Hi. cbn [truthy].
  destruct (ps_program_running (ps s)), (ps_current_program_id (ps s));
    done.
Qed.

Lemma release_retry_after_save n s :
  release_retry (S n) (program_state.save_program_state s)
  = program_state.load_program_state (program_state.save_program_state s).
Proof.
  cbn [release_retry].
  destruct (load_frame (program_state.save_program_state s))
    as (_ & _ & _ & _ & Hpm & _).
  rewrite Hpm. unfold program_state.id_eqb.
  rewrite Bool.eqb_reflx, bool_decide_eq_true_2 by done. reflexivity.
Qed.

(** The three steps that [stop_program] and [reset_program_state] share:
    stop every zone, clear the flag and the id of [program_manager], save
    and read back. *)
Lemma release_spec s :
  let s1 := (zone_manager.stop_all_zones s).2 in
  let s2 := program_state.save_program_state (set_state false None s1) in
  pm s2 = {| pm_program_running := false; pm_current_program_id := None |}
  /\ active_zones (zm s2) = ∅ /\
  disk s2 = FileDict (JBool (ps_program_running (ps s)))
                     (ps_current_program_id (ps s)) /\
  ps_program_running (ps s2) = ps_program_running (ps s) /\
  ps_current_program_id (ps s2) = ps_current_program_id (ps s) /\
  hw s2 = hw s1.
Proof.
  cbv zeta.
  destruct (stop_all_zones_store_kept s) as [Hps _].
  set (s1 := (zone_manager.stop_all_zones s).2) in *.
  pose proof (stop_all_zones_clears s) as Hclear. fold s1 in Hclear.
  destruct (save_frame (set_state false None s1))
    as (Hzm & Hhw & _ & _ & Hpm & _).
  destruct (save_ps (set_state false None s1)) as [Hr Hi].
  rewrite save_disk, Hpm, Hzm, Hhw, Hr, Hi. proj. rewrite Hps.
  done.
Qed.

(** What [stop_program] returns and leaves behind. *)
Lemma stop_program_spec (s : State) :
  (stop_program s).1 = pm_program_running (pm s) /\
  (pm_program_running (pm s) = false ->
   hw (stop_program s).2 = hw s /\ zm (stop_program s).2 = zm s /\
   pm (stop_program s).2 = pm s /\ tasks (stop_program s).2 = tasks s) /\
  (pm_program_running (pm s) = true ->
   pm (stop_program s).2
   = {| pm_program_running := false; pm_current_program_id := None |} /\
   active_zones (zm (stop_program s).2) = ∅ /\
   let loaded := program_state.load_program_state s in
   disk (stop_program s).2
   = FileDict (JBool (ps_program_running (ps loaded)))
              (ps_current_program_id (ps loaded)) /\
   ps_program_running (ps (stop_program s).2)
   = ps_program_running (ps loaded)).
Proof.
  unfold stop_program.
  destruct (load_frame s) as (Hzm & Hhw & Htasks & _ & Hpm & _).
  set (s0 := program_state.load_program_state s) in *.
  rewrite Hpm.
  destruct (pm_program_running (pm s)) eqn:Hrun; cbn [negb andb].
  - rewrite Hpm, Hrun. cbn [negb fst snd].
    split; [done|]. split; [done|]. intros _.
    rewrite release_retry_after_save.
    destruct (release_spec s0) as (Rpm & Rz & Rd & Rr & Ri & _).
    cbv zeta in *.
    set (s2 := program_state.save_program_state _) in *.
    destruct (load_frame s2) as (Lzm & _ & _ & _ & Lpm & _).
    rewrite Lpm, Lzm.
    split; [done|]. split; [done|].
    destruct (load_dict _ _ _ Rd) as (Lr & _ & Ld).
    rewrite Lr, Ld, Rr. cbn [truthy].
    by destruct (ps_program_running (ps s0)).
  - rewrite Hpm, Hrun. cbn [negb fst snd]. done.
Qed.

(** X22.  [stop_program] answers with the flag of [program_manager]: when
    it is False the call returns False and writes no pin and no
    bookkeeping; when it is True the call returns True with no zone
    recorded active and the flag and the id of [program_manager] cleared.
    The file is written from the flag and the id of [program_state], as
    the first load has left them, which [stop_program] does not clear. *)
Theorem stop_program_outcome (s : State) :
  (stop_program s).1 = pm_program_running (pm s) /\
  (pm_program_running (pm s) = false ->
   hw (stop_program s).2 = hw s /\ zm (stop_program s).2 = zm s /\
   pm (stop_program s).2 = pm s /\ tasks (stop_program s).2 = tasks s) /\
  (pm_program_running (pm s) = true ->
   pm (stop_program s).2
   = {| pm_program_running := false; pm_current_program_id := None |} /\
   active_zones (zm (stop_program s).2) = ∅ /\
   let loaded := program_state.load_program_state s in
   disk (stop_program s).2
   = FileDict (JBool (ps_program_running (ps loaded)))
              (ps_current_program_id (ps loaded)) /\
   ps_program_running (ps (stop_program s).2)
   = ps_program_running (ps loaded)).
Proof. apply stop_program_spec. Qed.

Lemma stop_program_outcome_witness :
  active_zones (zm (stop_program mid_step).2) = ∅.
Proof.
  assert (pm_program_running (pm mid_step) = true) as Hrun by reflexivity.
  exact (proj1 (proj2
           (proj2 (proj2 (stop_program_outcome mid_step)) Hrun))).
Defined.

(** X23.  [reset_program_state] leaves no zone recorded active and the
    flag and the id of [program_manager] cleared; the file it writes holds
    the flag and the id of [program_state], which it does not touch. *)
Theorem reset_program_state_outcome (s : State) :
  pm (reset_program_state s)
  = {| pm_program_running := false; pm_current_program_id := None |} /\
  active_zones (zm (reset_program_state s)) = ∅ /\
  disk (reset_program_state s)
  = FileDict (JBool (ps_program_running (ps s)))
             (ps_current_program_id (ps s)) /\
  ps_program_running (ps (reset_program_state s))
  = ps_program_running (ps s) /\
  ps_current_program_id (ps (reset_program_state s))
  = ps_current_program_id (ps s).
Proof.
  unfold reset_program_state.
  destruct (release_spec s) as (Rpm & Rz & Rd & Rr & Ri & _).
  done.
Qed.

End ProgramExtras.

(** ** Runs of a program *)

Section ExecutorExtras.

Import program_manager.

Variable env : nat -> State -> State.

Lemma cleanup_idle s :
  active_zones (zm (cleanup s)) = ∅ /\
  pm (cleanup s)
  = {| pm_program_running := false; pm_current_program_id := None |}.
Proof.
  unfold cleanup. split; [apply stop_all_zones_clears|].
  destruct (stop_all_zones_stops
              (program_state.save_program_state (set_state false None s)))
    as [(_ & Hpm & _) _].
  destruct (save_frame (set_state false None s))
    as (_ & _ & _ & _ & Hpm' & _).
  by rewrite Hpm, Hpm'.
Qed.

(** X24.  While the flag of [program_manager] says that a program runs,
    [execute_program] returns False at once: it reloads the state file and
    does nothing else, so no pin is written, no zone is started or
    stopped, no task is made to wait and no last run date is written. *)
Theorem execute_program_busy (program : Program) (manual : bool)
    (s : State) :
  pm_program_running (pm s) = true ->
  execute_program env program manual s
  = Some (false, program_state.load_program_state s) /\
  hw (program_state.load_program_state s) = hw s /\
  zm (program_state.load_program_state s) = zm s /\
  tasks (program_state.load_program_state s) = tasks s /\
  programs (program_state.load_program_state s) = programs s /\
  awaits (program_state.load_program_state s) = awaits s.
Proof.
  intros Hrun. unfold execute_program.
  destruct (load_frame s)
    as (Hzm & Hhw & Htasks & _ & Hpm & Hprog & _ & _ & Haw).
  rewrite Hpm, Hrun. done.
Qed.

(** X25.  Started while the flag of [program_manager] is False,
    [execute_program] always returns, whatever the other tasks do at its
    awaits, and on return no zone is recorded active; when it returns
    True the flag and the id of [program_manager] are cleared again. *)
Theorem execute_program_ends_idle (program : Program) (manual : bool)
    (s : State) :
  pm_program_running (pm s) = false ->
  exists r s',
    execute_program env program manual s = Some (r, s') /\
    active_zones (zm s') = ∅ /\
    (r = true ->
     pm s' = {| pm_program_running := false;
                pm_current_program_id := None |}).
Proof.
  intros Hidle. unfold execute_program.
  destruct (load_frame s) as (_ & _ & _ & _ & Hpm & _).
  rewrite Hpm, Hidle.
  set (s1 := if 0 <? zone_manager.get_active_zones_count _
             then _ else _).
  pose proof (stop_all_zones_clears s1) as Hclear.
  destruct (zone_manager.stop_all_zones s1) as [stopped s2].
  cbn [snd] in Hclear.
  destruct stopped; cbn [negb].
  2: { exists false, s2. split; [done|]. split; [done|]. done. }
  set (s4 := claim_retry env 3 (prog_id program) _).
  destruct (run_steps_spec env (activation_delay (settings s4))
                           (steps program) s4) as (s5 & e5 & Hrun & _).
  rewrite Hrun.
  destruct (pm_program_running (pm s5)).
  - destruct (cleanup_idle (update_last_run_date (prog_id program) s5))
      as [Hz Hp].
    eexists _, _. split; [reflexivity|]. done.
  - destruct (cleanup_idle s5) as [Hz Hp].
    eexists _, _. split; [reflexivity|]. done.
Qed.

End ExecutorExtras.

Section ExecutorExamples.

Import program_manager.

Lemma execute_program_busy_witness :
  execute_program quiet one_step false mid_step
  = Some (false, program_state.load_program_state mid_step).
Proof.
  assert (pm_program_running (pm mid_step) = true) as Hrun by reflexivity.
  exact (proj1 (execute_program_busy quiet one_step false mid_step Hrun)).
Defined.

Lemma execute_program_ends_idle_witness :
  exists r s',
    execute_program (interrupt_at 2) one_step false bench = Some (r, s') /\
    active_zones (zm s') = ∅ /\
    (r = true ->
     pm s' = {| pm_program_running := false;
                pm_current_program_id := None |}).
Proof.
  apply (execute_program_ends_idle (interrupt_at 2)). reflexivity.
Defined.

End ExecutorExamples.

(** ** Changes to the file of the programs *)

Section ProgramFileExtras.

Import program_manager.

Lemma check_conflicts_spec (program : Program)
    (programs : list (string * Program)) (exclude_id : option string) :
  (check_program_conflicts program programs exclude_id).1 = true
  <-> activation_time program <> "" /\
      exists pid existing,
        (pid, existing) ∈ programs /\
        is_excluded exclude_id pid = false /\
        months_intersect (months program) (months existing) = true /\
        activation_time existing = activation_time program.
Proof.
  unfold check_program_conflicts.
  destruct (months program) as [|m0 ms] eqn:Hmonths.
  { cbn [fst]. split; [done|].
    intros (_ & pid & existing & _ & _ & Hm & _). done. }
  destruct (String.eqb (activation_time program) "") eqn:Htime.
  { cbn [fst]. apply String.eqb_eq in Htime. split; [done|].
    intros [Hne _]. done. }
  apply String.eqb_neq in Htime. rewrite conflict_scan_spec.
  split; [intros H; by split | by intros [_ H]].
Qed.

Lemma months_intersect_sym (a b : list string) :
  months_intersect a b = true -> months_intersect b a = true.
Proof.
  rewrite !months_intersect_spec. intros (m & Ha & Hb). by exists m.
Qed.

Lemma conflict_scan_with_id program_months program_time exclude_id
    (programs : list (string * Program)) :
  conflict_scan program_months program_time exclude_id
    (map (fun e : string * Program => (e.1, with_id e.1 e.2)) programs)
  = conflict_scan program_months program_time exclude_id programs.
Proof.
  induction programs as [|[pid existing] rest IH]; [done|].
  cbn [map conflict_scan fst snd]. rewrite IH. reflexivity.
Qed.

Lemma check_load_programs (program : Program) (exclude_id : option string)
    (s : State) :
  check_program_conflicts program (load_programs s) exclude_id
  = check_program_conflicts program (programs s) exclude_id.
Proof.
  unfold check_program_conflicts, load_programs.
  by rewrite conflict_scan_with_id.
Qed.

Lemma load_programs_elem_of (pid : string) (p : Program) (s : State) :
  (pid, p) ∈ load_programs s <->
  exists p0, (pid, p0) ∈ programs s /\ p = with_id pid p0.
Proof.
  unfold load_programs. rewrite list_elem_of_In, in_map_iff. split.
  - intros ([k v] & [= <- <-] & Hin). exists v.
    split; [by apply list_elem_of_In | done].
  - intros (p0 & Hin & ->). exists (pid, p0).
    split; [done | by apply list_elem_of_In].
Qed.

Lemma conflict_free_load_programs (s : State) :
  conflict_free (programs s) -> conflict_free (load_programs s).
Proof.
  intros Hfree pid p (p0 & Hin & ->)%load_programs_elem_of.
  rewrite check_load_programs. exact (Hfree pid p0 Hin).
Qed.

Lemma has_key_spec (pid : string) (programs : list (string * Program)) :
  has_key pid programs = true <-> exists p, (pid, p) ∈ programs.
Proof.
  unfold has_key. rewrite existsb_exists. split.
  - intros ([k v] & Hin & Heq). cbn [fst] in Heq.
    apply String.eqb_eq in Heq as ->. exists v.
    by apply list_elem_of_In.
  - intros (p & Hin). exists (pid, p).
    split; [by apply list_elem_of_In | apply String.eqb_refl].
Qed.

Lemma has_key_load_programs (pid : string) (s : State) :
  has_key pid (load_programs s) = has_program pid s.
Proof.
  unfold has_key, has_program, load_programs.
  induction (programs s) as [|[k v] rest IH]; [done|].
  cbn [map existsb fst snd]. by rewrite IH.
Qed.

(** The entries after a replacement of the program of one key. *)
Lemma replaced_elem_of (pid : string) (new : Program)
    (programs : list (string * Program)) (qid : string) (q : Program) :
  (qid, q) ∈ map (fun e : string * Program =>
                    if String.eqb e.1 pid then (e.1, new) else e) programs
  <-> (qid = pid /\ q = new /\ has_key pid programs = true) \/
      (qid <> pid /\ (qid, q) ∈ programs).
Proof.
  rewrite list_elem_of_In, in_map_iff. split.
  - intros ([k v] & Heq & Hin%list_elem_of_In). cbn [fst] in Heq.
    destruct (String.eqb_spec k pid) as [->|Hne].
    + injection Heq as <- <-. left. split; [done|]. split; [done|].
      apply has_key_spec. eauto.
    + injection Heq as <- <-. by right.
  - intros [(-> & -> & (p0 & Hin)%has_key_spec)|[Hne Hin]].
    + exists (pid, p0). cbn [fst]. rewrite String.eqb_refl.
      split; [done | by apply list_elem_of_In].
    + exists (qid, q). cbn [fst].
      apply String.eqb_neq in Hne. rewrite Hne.
      split; [done | by apply list_elem_of_In].
Qed.

Lemma removed_elem_of (pid : string) (programs : list (string * Program))
    (qid : string) (q : Program) :
  (qid, q) ∈ List.filter (fun e : string * Program =>
                            negb (String.eqb e.1 pid)) programs
  <-> qid <> pid /\ (qid, q) ∈ programs.
Proof.
  rewrite list_elem_of_In, filter_In, <- list_elem_of_In. cbn [fst].
  rewrite negb_true_iff, String.eqb_neq. tauto.
Qed.

Lemma release_retry_programs n s :
  programs (release_retry n s) = programs s.
Proof.
  revert s. induction n as [|n IH]; intros s; [done|].
  cbn [release_retry].
  destruct (load_frame s) as (_ & _ & _ & _ & _ & Hp & _).
  destruct (_ && _); [done|].
  rewrite IH.
  destruct (save_frame
              (set_state (pm_program_running (pm s))
                         (pm_current_program_id (pm s))
                         (program_state.load_program_state s)))
    as (_ & _ & _ & _ & _ & Hp' & _).
  by rewrite Hp'.
Qed.

Lemma stop_program_programs s : programs (stop_program s).2 = programs s.
Proof.
  unfold stop_program.
  destruct (load_frame s) as (_ & _ & _ & _ & _ & Hp0 & _).
  set (s0 := program_state.load_program_state s) in *.
  set (s1 := if negb (pm_program_running (pm s0))
                && pm_program_running (pm s)
             then _ else s0).
  assert (programs s1 = programs s) as Hp1
    by (subst s1; by destruct (_ && _)).
  clearbody s1.
  destruct (negb (pm_program_running (pm s1))); [done|].
  cbn [snd]. rewrite release_retry_programs.
  destruct (save_frame (set_state false None
                          (zone_manager.stop_all_zones s1).2))
    as (_ & _ & _ & _ & _ & Hp3 & _).
  rewrite Hp3. proj.
  destruct (stop_all_zones_stops s1) as [(_ & _ & Hp4 & _) _].
  by rewrite Hp4.
Qed.

(** What [stop_if_running] leaves of a run of the program. *)
Lemma stop_if_running_spec (pid : string) (s : State) :
  programs (stop_if_running pid s) = programs s /\
  (pm_program_running (pm s) = true ->
   pm_current_program_id (pm s) = Some pid ->
   pm (stop_if_running pid s)
   = {| pm_program_running := false; pm_current_program_id := None |} /\
   active_zones (zm (stop_if_running pid s)) = ∅) /\
  (pm_program_running (pm s) = false \/
   pm_current_program_id (pm s) <> Some pid ->
   pm (stop_if_running pid s) = pm s /\
   zm (stop_if_running pid s) = zm s /\
   hw (stop_if_running pid s) = hw s).
Proof.
  unfold stop_if_running.
  destruct (load_frame s) as (Hzm & Hhw & _ & _ & Hpm & Hprog & _).
  set (s0 := program_state.load_program_state s) in *.
  rewrite Hpm. unfold program_state.id_eqb.
  destruct (pm_program_running (pm s)) eqn:Hrun; cbn [andb].
  - case_bool_decide as Hid.
    + destruct (stop_program_spec s0) as (_ & _ & Hstop).
      rewrite Hpm, Hrun in Hstop. destruct (Hstop eq_refl) as (Sp & Sz & _).
      split; [by rewrite stop_program_programs|].
      split; [done|]. intros [?|?]; done.
    + split; [done|]. split; [intros _ ?; done|]. done.
  - split; [done|]. split; [done|]. done.
Qed.

Lemma update_program_unfold (save_ok : bool) (pid : string)
    (updated : Program) (s : State) :
  (update_program save_ok pid updated s).1.1 = true ->
  (check_program_conflicts updated (programs s) (Some pid)).1 = false /\
  has_program pid s = true /\ save_ok = true /\
  programs (update_program save_ok pid updated s).2
  = map (fun e : string * Program =>
           if String.eqb e.1 pid then (e.1, with_id pid updated) else e)
        (load_programs s) /\
  pm (update_program save_ok pid updated s).2 = pm (stop_if_running pid s) /\
  zm (update_program save_ok pid updated s).2 = zm (stop_if_running pid s) /\
  hw (update_program save_ok pid updated s).2 = hw (stop_if_running pid s).
Proof.
  unfold update_program, save_programs.
  rewrite check_load_programs, has_key_load_programs.
  destruct (check_program_conflicts updated (programs s) (Some pid))
    as [has_conflict msg].
  destruct has_conflict; [done|].
  destruct (has_program pid s); [|done]. by destruct save_ok.
Qed.

(** X26.  [update_program] keeps the schedule free of conflicts: when
    every stored program passes [check_program_conflicts] against the
    others, and the id is not the empty string, the same holds of the
    programs stored after an update that was accepted. *)
Theorem update_program_conflict_free (save_ok : bool) (program_id : string)
    (updated_program : Program) (s : State) :
  program_id <> "" ->
  conflict_free (programs s) ->
  (update_program save_ok program_id updated_program s).1.1 = true ->
  conflict_free
    (programs (update_program save_ok program_id updated_program s).2).
Proof.
  intros Hid Hfree Hres.
  destruct (update_program_unfold _ _ _ _ Hres)
    as (Hcheck & _ & _ & Hprogs & _).
  rewrite <- check_load_programs in Hcheck.
  apply conflict_free_load_programs in Hfree.
  rewrite Hprogs. set (old := load_programs s) in *.
  intros qid q Hq. apply not_true_iff_false.
  rewrite check_conflicts_spec.
  intros (Htime & rid & r & Hr & Hex & Hmonths & Hsame).
  pose proof (proj1 (is_excluded_spec _ _) Hex qid eq_refl) as Hex'.
  clear Hex.
  apply replaced_elem_of in Hq as [(-> & -> & _)|[Hqne Hq]];
    apply replaced_elem_of in Hr as [(-> & -> & _)|[Hrne Hr]].
  - destruct Hex'; done.
  - apply not_true_iff_false in Hcheck. apply Hcheck.
    apply check_conflicts_spec. split; [done|].
    exists rid, r. split; [done|]. split; [|done].
    apply is_excluded_spec. intros e [= <-]. by right.
  - apply not_true_iff_false in Hcheck. apply Hcheck.
    apply check_conflicts_spec. cbn [with_id activation_time months] in *.
    split; [congruence|].
    exists qid, q. split; [done|]. split; [|split].
    + apply is_excluded_spec. intros e [= <-]. by right.
    + by apply months_intersect_sym.
    + done.
  - specialize (Hfree qid q Hq). apply not_true_iff_false in Hfree.
    apply Hfree. apply check_conflicts_spec. split; [done|].
    exists rid, r. split; [done|]. split; [|done].
    apply is_excluded_spec. intros e [= <-]. done.
Qed.

Lemma two_programs_conflict_free : conflict_free (programs two_programs).
Proof.
  intros pid p Hin. cbn in Hin.
  apply elem_of_cons in Hin as [[= -> ->]|Hin]; [reflexivity|].
  apply list_elem_of_singleton in Hin. injection Hin as -> ->.
  reflexivity.
Qed.

(** With programs at 06:00 and at 07:00 in June: moving the first to
    08:00 is accepted and leaves no conflict, while moving it to 07:00 is
    refused. *)
Lemma update_program_conflict_free_witness :
  conflict_free
    (programs (update_program true "1" (june_at "9" "08:00" "giornaliero")
                 two_programs).2) /\
  (update_program true "1" (june_at "9" "07:00" "giornaliero")
     two_programs).1.1 = false.
Proof.
  split; [|reflexivity].
  apply update_program_conflict_free.
  - done.
  - exact two_programs_conflict_free.
  - reflexivity.
Defined.

(** X27.  [update_program] is accepted exactly when the id is stored, the
    new program passes [check_program_conflicts] against the others, and
    the file is written.  An update refused for an unknown id or for a
    conflict changes nothing.  An update whose write fails leaves the file
    as it was, after a run of the program that was under way has been
    stopped.  An accepted update stores the new program as given, with the
    id set to the key, in place of the old one, last run date included,
    and keeps the other programs; a run of the program that is under way
    is stopped first. *)
Theorem update_program_outcome (save_ok : bool) (program_id : string)
    (updated_program : Program) (s : State) :
  ((update_program save_ok program_id updated_program s).1.1 = true <->
   has_program program_id s = true /\
   (check_program_conflicts updated_program (programs s)
                            (Some program_id)).1 = false /\
   save_ok = true) /\
  (has_program program_id s = false \/
   (check_program_conflicts updated_program (programs s)
                            (Some program_id)).1 = true ->
   (update_program save_ok program_id updated_program s).1.1 = false /\
   (update_program save_ok program_id updated_program s).2 = s) /\
  (has_program program_id s = true ->
   (check_program_conflicts updated_program (programs s)
                            (Some program_id)).1 = false ->
   (save_ok = false ->
    (update_program save_ok program_id updated_program s).1
    = (false,
       "Errore durante il salvataggio del programma " +:+ program_id) /\
    programs (update_program save_ok program_id updated_program s).2
    = programs s) /\
   (save_ok = true ->
    forall qid q,
      (qid, q) ∈ programs
                   (update_program save_ok program_id updated_program s).2
      <-> (qid = program_id /\ q = with_id program_id updated_program) \/
          (qid <> program_id /\
           exists q0, (qid, q0) ∈ programs s /\ q = with_id qid q0)) /\
   (pm_program_running (pm s) = true ->
    pm_current_program_id (pm s) = Some program_id ->
    pm_program_running
      (pm (update_program save_ok program_id updated_program s).2)
    = false /\
    active_zones
      (zm (update_program save_ok program_id updated_program s).2) = ∅)).
Proof.
  split; [|split].
  - split.
    + intros Hres.
      destruct (update_program_unfold _ _ _ _ Hres) as (Hc & Hh & Hs & _).
      done.
    + intros (Hh & Hc & ->). unfold update_program, save_programs.
      rewrite check_load_programs, has_key_load_programs, Hh.
      destruct (check_program_conflicts updated_program (programs s)
                                        (Some program_id))
        as [has_conflict msg].
      cbn [fst] in Hc. by subst has_conflict.
  - intros Hbad. unfold update_program.
    rewrite check_load_programs, has_key_load_programs.
    destruct (check_program_conflicts updated_program (programs s)
                                      (Some program_id))
      as [has_conflict msg].
    cbn [fst] in Hbad. destruct has_conflict; [done|].
    destruct Hbad as [-> |?]; done.
  - intros Hh Hc.
    destruct (stop_if_running_spec program_id s) as (Hprog & Hstop & _).
    unfold update_program, save_programs.
    rewrite check_load_programs, has_key_load_programs, Hh.
    destruct (check_program_conflicts updated_program (programs s)
                                      (Some program_id))
      as [has_conflict msg].
    cbn [fst] in Hc. subst has_conflict.
    split; [|split].
    + intros ->. done.
    + intros -> qid q. proj. rewrite replaced_elem_of.
      rewrite has_key_load_programs, load_programs_elem_of, Hh. split.
      * intros [(? & ? & _)|?]; [by left | by right].
      * intros [[? ?]|?]; [by left | by right].
    + intros Hrun Hcur. destruct (Hstop Hrun Hcur) as [Sp Sz].
      destruct save_ok; proj; by rewrite ?Sp, ?Sz.
Qed.

Lemma update_program_outcome_witness :
  (update_program false "1" (june_at "9" "08:00" "giornaliero")
     two_programs).1
  = (false, "Errore durante il salvataggio del programma 1") /\
  programs (update_program false "1" (june_at "9" "08:00" "giornaliero")
              two_programs).2
  = programs two_programs.
Proof.
  assert (has_program "1" two_programs = true) as Hh by reflexivity.
  assert ((check_program_conflicts (june_at "9" "08:00" "giornaliero")
             (programs two_programs) (Some "1")).1 = false) as Hc
    by reflexivity.
  exact (proj1 (proj2 (proj2
           (update_program_outcome false "1"
              (june_at "9" "08:00" "giornaliero") two_programs))
           Hh Hc) eq_refl).
Defined.

Lemma delete_program_unfold (save_ok : bool) (pid : string) (s : State) :
  (delete_program save_ok pid s).1 = has_program pid s && save_ok /\
  (has_program pid s = false -> (delete_program save_ok pid s).2 = s) /\
  (has_program pid s = true ->
   programs (delete_program save_ok pid s).2
   = (if save_ok
      then List.filter (fun e : string * Program =>
                          negb (String.eqb e.1 pid)) (load_programs s)
      else programs s) /\
   pm (delete_program save_ok pid s).2 = pm (stop_if_running pid s) /\
   zm (delete_program save_ok pid s).2 = zm (stop_if_running pid s)).
Proof.
  unfold delete_program, save_programs. rewrite has_key_load_programs.
  destruct (stop_if_running_spec pid s) as (Hprog & _).
  destruct (has_program pid s); [|done].
  by destruct save_ok.
Qed.

(** X28.  [delete_program] returns True exactly when the id is stored and
    the file is written.  When the id is not stored nothing changes.  When
    it is, a run of the program that is under way is stopped first; then,
    if the write fails, the file is left as it was, and if it goes
    through, no program is left under that id, the other programs are
    kept, and a schedule that was free of conflicts still is. *)
Theorem delete_program_outcome (save_ok : bool) (program_id : string)
    (s : State) :
  (delete_program save_ok program_id s).1
  = has_program program_id s && save_ok /\
  (has_program program_id s = false ->
   (delete_program save_ok program_id s).2 = s) /\
  (has_program program_id s = true ->
   (save_ok = false ->
    programs (delete_program save_ok program_id s).2 = programs s) /\
   (save_ok = true ->
    (forall qid q,
        (qid, q) ∈ programs (delete_program save_ok program_id s).2
        <-> qid <> program_id /\
            exists q0, (qid, q0) ∈ programs s /\ q = with_id qid q0) /\
    (conflict_free (programs s) ->
     conflict_free (programs (delete_program save_ok program_id s).2))) /\
   (pm_program_running (pm s) = true ->
    pm_current_program_id (pm s) = Some program_id ->
    pm_program_running (pm (delete_program save_ok program_id s).2)
    = false /\
    active_zones (zm (delete_program save_ok program_id s).2) = ∅)).
Proof.
  destruct (delete_program_unfold save_ok program_id s)
    as (Hres & Hno & Hyes).
  split; [done|]. split; [done|]. intros Hh.
  destruct (Hyes Hh) as (Hprogs & Hpm & Hzm).
  split; [|split].
  - intros ->. done.
  - intros ->. split.
    + intros qid q.
      by rewrite Hprogs, removed_elem_of, load_programs_elem_of.
    + intros Hfree%conflict_free_load_programs. rewrite Hprogs.
      intros qid q [Hne Hq]%removed_elem_of.
      specialize (Hfree qid q Hq).
      apply not_true_iff_false in Hfree. apply not_true_iff_false.
      intros Hc. apply Hfree.
      apply check_conflicts_spec in Hc
        as (Htime & rid & r & [_ Hr]%removed_elem_of & Hrest).
      apply check_conflicts_spec. split; [done|]. by exists rid, r.
  - intros Hrun Hcur.
    destruct (stop_if_running_spec program_id s) as (_ & Hstop & _).
    destruct (Hstop Hrun Hcur) as [Sp Sz].
    rewrite Hpm, Hzm, Sp, Sz. done.
Qed.

Lemma delete_program_outcome_witness :
  (forall qid q,
      (qid, q) ∈ programs (delete_program true "1" two_programs).2
      <-> qid <> "1" /\
          exists q0, (qid, q0) ∈ programs two_programs /\
                     q = with_id qid q0) /\
  (delete_program false "1" two_programs).1 = false.
Proof.
  assert (has_program "1" two_programs = true) as Hh by reflexivity.
  split; [|reflexivity].
  exact (proj1 (proj1 (proj2 (proj2 (proj2
           (delete_program_outcome true "1" two_programs)) Hh)) eq_refl)).
Defined.

End ProgramFileExtras.

(** ** The route that starts a zone *)

Section RouteExtras.

(** X29.  The route that starts a zone refuses while [program_state] says
    that a program runs, in memory or in the state file: it answers 400
    with "Programma in esecuzione" and writes no pin, starts no timer and
    leaves the record of the active zones alone.  Otherwise it answers 200
    exactly when [start_zone] returns True, and 500 when it returns
    False. *)
Theorem handle_start_zone_guard (zone_id duration : Z) (s : State) :
  (ps_program_running (ps s) = true \/
   (exists i, disk s = FileDict (JBool true) i) ->
   (handle_start_zone (Some zone_id) (Some duration) s).1
   = {| status_code := 400; success := false;
        error := Some "Programma in esecuzione" |} /\
   hw (handle_start_zone (Some zone_id) (Some duration) s).2 = hw s /\
   zm (handle_start_zone (Some zone_id) (Some duration) s).2 = zm s /\
   tasks (handle_start_zone (Some zone_id) (Some duration) s).2 = tasks s) /\
  (ps_program_running (ps (program_state.load_program_state s)) = false ->
   success (handle_start_zone (Some zone_id) (Some duration) s).1
   = (zone_manager.start_zone zone_id duration
        (program_state.load_program_state s)).1 /\
   status_code (handle_start_zone (Some zone_id) (Some duration) s).1
   = (if (zone_manager.start_zone zone_id duration
            (program_state.load_program_state s)).1
      then 200 else 500) /\
   (handle_start_zone (Some zone_id) (Some duration) s).2
   = (zone_manager.start_zone zone_id duration
        (program_state.load_program_state s)).2).
Proof.
  unfold handle_start_zone. split.
  - intros Hrun.
    assert (ps_program_running (ps (program_state.load_program_state s))
            = true) as ->.
    { destruct Hrun as [Hmem|[i Hdisk]].
      - destruct (disk s) as [| |r i] eqn:Hdisk.
        1,2: unfold program_state.load_program_state;
             rewrite Hdisk, Hmem; by rewrite (proj1 (save_ps s)).
        destruct (load_dict s r i Hdisk) as (Hr & _). rewrite Hr, Hmem.
        destruct r; [done|apply orb_true_r..].
      - destruct (load_dict s _ _ Hdisk) as (Hr & _). by rewrite Hr. }
    destruct (load_frame s) as (Hzm & Hhw & Htasks & _). done.
  - intros ->.
    destruct (zone_manager.start_zone zone_id duration
                (program_state.load_program_state s)) as [result s'].
    by destruct result.
Qed.

Lemma handle_start_zone_guard_witness :
  (handle_start_zone (Some 0) (Some 5) owned_by_program).1
  = {| status_code := 400; success := false;
       error := Some "Programma in esecuzione" |} /\
  (zone_manager.start_zone 0 5 owned_by_program).1 = true.
Proof.
  split; [|reflexivity].
  apply (handle_start_zone_guard 0 5 owned_by_program).
  left. reflexivity.
Defined.

End RouteExtras.
